(** * A shallow embedding of [installer.py]

    The installer is one script: a refresh routine ([update_path]) and a
    top-level flow that ensures Git, then the Flutter SDK, then (on request)
    the Android command line tools.  Everything it does is an effect on the
    machine it runs on, so the embedding threads an explicit [World] through
    a small state-and-exit monad and records every effect in a trace.

    Strings are Python [str] values read as sequences of characters below
    code point 256.  The persisted environment, the file system and the
    PowerShell that reads and writes the environment are modelled
    concretely: the shell reads the command text the script hands it.
    Third-party programs (winget, the Git installer, git) and the network
    are parameters of the development ([Externals]).  Library routines
    are followed as CPython 3.11 has them. *)

From Stdlib Require Import ZArith String Ascii List Bool Lia.
From stdpp Require Import base option gmap strings list.

Local Open Scope Z_scope.

(* ================================================================== *)
(** * Part I: definitions                                              *)
(* ================================================================== *)

(** ** Strings *)

(** The double-quote character and a quoted literal. *)
Definition dq : string := String "034"%char EmptyString.
Definition quoted (s : string) : string := dq +:+ s +:+ dq.

(** [pwsh]'s [echo] ends its line with a carriage return and a line feed. *)
Definition eol : string := String "013"%char (String "010"%char EmptyString).

(** [str.lower], on the letters A to Z. *)
Definition lower_char (c : ascii) : ascii :=
  let n := nat_of_ascii c in
  if ((65 <=? n) && (n <=? 90))%nat then ascii_of_nat (n + 32) else c.

Fixpoint lower (s : string) : string :=
  match s with
  | EmptyString => EmptyString
  | String c s' => String (lower_char c) (lower s')
  end.

(** [s.startswith(p)], returning what follows the prefix. *)
Fixpoint strip_prefix (p s : string) : option string :=
  match p, s with
  | EmptyString, _ => Some s
  | String a p', String b s' =>
      if Ascii.eqb a b then strip_prefix p' s' else None
  | String _ _, EmptyString => None
  end.

Definition startswith (s p : string) : bool :=
  match strip_prefix p s with Some _ => true | None => false end.

(** [s.endswith(p)]. *)
Fixpoint endswith (s p : string) : bool :=
  String.eqb s p ||
  match s with
  | EmptyString => false
  | String _ s' => endswith s' p
  end.

(** [s.split(sep)] for a one-character separator: never empty. *)
Fixpoint split (sep : ascii) (s : string) : list string :=
  match s with
  | EmptyString => [EmptyString]
  | String c s' =>
      if Ascii.eqb c sep then EmptyString :: split sep s'
      else match split sep s' with
           | h :: t => String c h :: t
           | [] => [String c EmptyString]
           end
  end.

(** [s.split(sep)[-1]]. *)
Definition last_field (sep : ascii) (s : string) : string :=
  List.last (split sep s) EmptyString.

(** ** The two regular expressions

    Both patterns of the script are a literal, then [\S*], then a closing
    part (the groups do not change what [group()] returns).  [re.search]
    takes the leftmost start; at that start [\S*] is greedy, so it takes
    the longest run of non-space characters after which the closing part
    still matches. *)

(** [\S] on a [str] pattern: every character that is not Unicode white
    space; below code point 256 the white space is 9-13, 28-32, 133, 160. *)
Definition is_space (c : ascii) : bool :=
  let n := nat_of_ascii c in
  (((9 <=? n) && (n <=? 13)) || ((28 <=? n) && (n <=? 32))
   || (n =? 133) || (n =? 160))%nat.

(** One position of a pattern: a literal character, or the dot, which
    (without DOTALL) matches any character but a line feed. *)
Inductive atom : Type :=
| Lit (c : ascii)
| Dot.

Definition atom_ok (a : atom) (c : ascii) : bool :=
  match a with
  | Lit x => Ascii.eqb x c
  | Dot => negb (Ascii.eqb c "010"%char)
  end.

Definition literal (s : string) : list atom := map Lit (list_ascii_of_string s).

(** Match a run of atoms at the head of [s]: the matched text and the rest. *)
Fixpoint match_atoms (p : list atom) (s : string) : option (string * string) :=
  match p, s with
  | [], _ => Some (EmptyString, s)
  | a :: p', String c s' =>
      if atom_ok a c then
        match match_atoms p' s' with
        | Some (m, rest) => Some (String c m, rest)
        | None => None
        end
      else None
  | _ :: _, EmptyString => None
  end.

Definition match_suffix (suf : list atom) (s : string) : option string :=
  match match_atoms suf s with
  | Some (m, _) => Some m
  | None => None
  end.

(** The longest [\S*] followed by [suf] at the head of [s]; the result is
    the matched text, closing part included. *)
Fixpoint nonspace_then (suf : list atom) (s : string) : option string :=
  match s with
  | EmptyString => match_suffix suf s
  | String c s' =>
      if is_space c then match_suffix suf s
      else match nonspace_then suf s' with
           | Some m => Some (String c m)
           | None => match_suffix suf s
           end
  end.

(** A pattern [pre \S* suf]. *)
Record pattern : Type := { pat_pre : list atom; pat_suf : list atom }.

Definition match_at (p : pattern) (s : string) : option string :=
  match match_atoms (pat_pre p) s with
  | Some (x, rest) =>
      match nonspace_then (pat_suf p) rest with
      | Some m => Some (x +:+ m)
      | None => None
      end
  | None => None
  end.

(** [re.search(p, text)], giving [group()] of the match. *)
Fixpoint re_search (p : pattern) (text : string) : option string :=
  match match_at p text with
  | Some m => Some m
  | None =>
      match text with
      | EmptyString => None
      | String _ t => re_search p t
      end
  end.

(** What a pattern denotes, independently of the search. *)
Definition nonspace (s : string) : Prop :=
  Forall (fun c => is_space c = false) (list_ascii_of_string s).

Definition atoms_denote (p : list atom) (m : string) : Prop :=
  Forall2 (fun a c => atom_ok a c = true) p (list_ascii_of_string m).

Definition matches (p : pattern) (m : string) : Prop :=
  exists x mid y,
    m = x +:+ mid +:+ y /\
    atoms_denote (pat_pre p) x /\ nonspace mid /\ atoms_denote (pat_suf p) y.

Definition has_match (p : pattern) (text : string) : Prop :=
  exists a m b, text = a +:+ m +:+ b /\ matches p m.

(** The pattern for the Git installer asset: the release download path,
    [\S*], then 64-bit.exe with its dot escaped. *)
Definition git_installer_pattern : pattern :=
  {| pat_pre := literal "/git-for-windows/git/releases/download/";
     pat_suf := literal "64-bit.exe" |}.

(** The pattern for the command line tools archive: commandlinetools-win-,
    [\S*], then _latest.zip, whose dot is not escaped in the source. *)
Definition commandlinetools_pattern : pattern :=
  {| pat_pre := literal "commandlinetools-win-";
     pat_suf := literal "_latest" ++ [Dot] ++ literal "zip" |}.

(** Python's truth value of an optional result. *)
Definition is_Some_bool {A} (o : option A) : bool :=
  match o with Some _ => true | None => false end.

(** ** The machine the script runs on *)

Inductive PathScope : Type := Machine | User.

(** The file system: full path names to nodes.  A directory is present
    when its own name is; what lies under [d] has a name starting with
    [d] and a backslash.  Names do not distinguish case: they are kept and
    looked up in lower case. *)
Inductive node : Type :=
| Dir
| File (content : string).

Definition lookup_node (fs : gmap string node) (name : string) : option node :=
  fs !! lower name.

Definition write_node (fs : gmap string node) (name : string) (n : node)
  : gmap string node :=
  <[lower name := n]> fs.

(** Whether [pwsh] can be started, and whether it then works. *)
Inductive shell_status : Type :=
| ShellMissing
| ShellFailing
| ShellWorking.

Record Host : Type := {
  machine_path : option string;   (* Path under HKLM ... Session Manager\Environment *)
  user_path : option string;      (* Path under HKCU\Environment *)
  machine_writable : bool;        (* the process is elevated *)
  user_writable : bool;
  shell : shell_status;
  files : gmap string node;
}.

Definition persisted (sc : PathScope) (h : Host) : option string :=
  match sc with
  | Machine => machine_path h
  | User => user_path h
  end.

Definition writable (sc : PathScope) (h : Host) : bool :=
  match sc with
  | Machine => machine_writable h
  | User => user_writable h
  end.

Definition store (sc : PathScope) (v : string) (h : Host) : Host :=
  match sc with
  | Machine =>
      {| machine_path := Some v; user_path := user_path h;
         machine_writable := machine_writable h;
         user_writable := user_writable h;
         shell := shell h; files := files h |}
  | User =>
      {| machine_path := machine_path h; user_path := Some v;
         machine_writable := machine_writable h;
         user_writable := user_writable h;
         shell := shell h; files := files h |}
  end.

Definition with_files (fs : gmap string node) (h : Host) : Host :=
  {| machine_path := machine_path h; user_path := user_path h;
     machine_writable := machine_writable h;
     user_writable := user_writable h;
     shell := shell h; files := fs |}.

(** ** PowerShell

    The script starts pwsh with one of two command texts.  The shell is
    modelled as reading the text it is given: the part of its language the
    two commands are written in is parsed and evaluated against the
    persisted environment of the machine. *)

Record CompletedProcess : Type := { returncode : Z; stdout : string }.

(** *** The script's side: the two commands and their text *)

Inductive pwsh_command : Type :=
| EchoPath                                     (* update_path *)
| SetPath (value : string) (target : PathScope).

Definition scope_name (sc : PathScope) : string :=
  match sc with
  | Machine => "Machine"
  | User => "User"
  end.

(** The command text handed to [pwsh -c]. *)
Definition pwsh_text (c : pwsh_command) : string :=
  match c with
  | EchoPath =>
      "echo ([System.Environment]::GetEnvironmentVariable("
      +:+ quoted "Path" +:+ "," +:+ quoted "Machine" +:+ ") + " +:+ quoted ";"
      +:+ " + [System.Environment]::GetEnvironmentVariable("
      +:+ quoted "Path" +:+ "," +:+ quoted "User" +:+ "))"
  | SetPath value target =>
      "[Environment]::SetEnvironmentVariable(" +:+ quoted "Path" +:+ ","
      +:+ " " +:+ quoted value +:+ ","
      +:+ " [System.EnvironmentVariableTarget]::" +:+ scope_name target +:+ ")"
  end.

Definition pwsh_argv (c : pwsh_command) : list string :=
  ["pwsh"; "-c"; pwsh_text c].

(** The text of a write, around the value. *)
Definition set_prefix : string :=
  "[Environment]::SetEnvironmentVariable(" +:+ quoted "Path" +:+ ", " +:+ dq.

Definition set_suffix (sc : PathScope) : string :=
  dq +:+ ", [System.EnvironmentVariableTarget]::" +:+ scope_name sc +:+ ")".

(** *** The shell's side: reading a command text

    The language read here: a static member of a type, a call of a static
    method with arguments, double-quoted strings, [+], parentheses, and
    [echo] with one parenthesised argument. *)

Inductive token : Type :=
| TWord (s : string)       (* a name: letters, digits, dots, underscores *)
| TString (s : string)     (* a double-quoted string, as the shell reads it *)
| TLBracket | TRBracket | TLParen | TRParen | TComma | TPlus
| TStatic.                 (* two colons *)

(** Where the reader is: between tokens, in a name, after one colon, in a
    double-quoted string, or in such a string right after a backtick, a
    dollar sign or a double quote. *)
Inductive lex_state : Type :=
| Between
| InWord (acc : string)
| OneColon
| InString (acc : string)
| Escaped (acc : string)
| Dollar (acc : string)
| Quote (acc : string).

Definition snoc (s : string) (c : ascii) : string := s +:+ String c EmptyString.

Definition is_letter (c : ascii) : bool :=
  let n := nat_of_ascii c in
  (((65 <=? n) && (n <=? 90)) || ((97 <=? n) && (n <=? 122)))%nat.

Definition is_digit (c : ascii) : bool :=
  let n := nat_of_ascii c in ((48 <=? n) && (n <=? 57))%nat.

Definition is_word_char (c : ascii) : bool :=
  is_letter c || is_digit c || Ascii.eqb c "." || Ascii.eqb c "_".

Definition is_blank (c : ascii) : bool := Ascii.eqb c " " || Ascii.eqb c "009".

Definition symbol (c : ascii) : option token :=
  if Ascii.eqb c "[" then Some TLBracket
  else if Ascii.eqb c "]" then Some TRBracket
  else if Ascii.eqb c "(" then Some TLParen
  else if Ascii.eqb c ")" then Some TRParen
  else if Ascii.eqb c "," then Some TComma
  else if Ascii.eqb c "+" then Some TPlus
  else None.

(** The first character of a token. *)
Definition start (c : ascii) : option (list token * lex_state) :=
  if is_blank c then Some ([], Between)
  else if Ascii.eqb c "034" then Some ([], InString EmptyString)
  else if is_word_char c then Some ([], InWord (String c EmptyString))
  else if Ascii.eqb c ":" then Some ([], OneColon)
  else match symbol c with
       | Some t => Some ([t], Between)
       | None => None
       end.

(** The character that a backtick and [c] stand for in a double-quoted
    string; [u] opens a code point escape, which is not read here. *)
Definition escape (c : ascii) : option ascii :=
  if Ascii.eqb c "0" then Some "000"%char
  else if Ascii.eqb c "a" then Some "007"%char
  else if Ascii.eqb c "b" then Some "008"%char
  else if Ascii.eqb c "e" then Some "027"%char
  else if Ascii.eqb c "f" then Some "012"%char
  else if Ascii.eqb c "n" then Some "010"%char
  else if Ascii.eqb c "r" then Some "013"%char
  else if Ascii.eqb c "t" then Some "009"%char
  else if Ascii.eqb c "v" then Some "011"%char
  else if Ascii.eqb c "u" then None
  else Some c.

(** After a dollar sign in a double-quoted string these characters start
    a variable or a subexpression, which the shell expands; any other
    character leaves the dollar sign as it is. *)
Definition starts_reference (c : ascii) : bool :=
  let n := nat_of_ascii c in
  is_letter c || is_digit c
  || Ascii.eqb c "_" || Ascii.eqb c "?" || Ascii.eqb c "$" || Ascii.eqb c "^"
  || Ascii.eqb c ":" || Ascii.eqb c "{" || Ascii.eqb c "("
  || (n =? 170)%nat || (n =? 181)%nat || (n =? 186)%nat
  || ((192 <=? n) && negb (n =? 215) && negb (n =? 247))%nat.

(** A character inside a double-quoted string. *)
Definition in_string (acc : string) (c : ascii) : lex_state :=
  if Ascii.eqb c "034" then Quote acc
  else if Ascii.eqb c "`" then Escaped acc
  else if Ascii.eqb c "$" then Dollar acc
  else InString (snoc acc c).

(** One character: the tokens it completes and the next state.  [None]:
    the text leaves the language read here.  A double quote inside a
    string closes it unless another one follows, which stands for one
    quote character. *)
Definition lex_step (st : lex_state) (c : ascii) : option (list token * lex_state) :=
  match st with
  | Between => start c
  | InWord acc =>
      if is_word_char c then Some ([], InWord (snoc acc c))
      else match start c with
           | Some (ts, st') => Some (TWord acc :: ts, st')
           | None => None
           end
  | OneColon => if Ascii.eqb c ":" then Some ([TStatic], Between) else None
  | InString acc => Some ([], in_string acc c)
  | Escaped acc =>
      match escape c with
      | Some c' => Some ([], InString (snoc acc c'))
      | None => None
      end
  | Dollar acc =>
      if starts_reference c then None
      else Some ([], in_string (snoc acc "$") c)
  | Quote acc =>
      if Ascii.eqb c "034" then Some ([], InString (snoc acc "034"))
      else match start c with
           | Some (ts, st') => Some (TString acc :: ts, st')
           | None => None
           end
  end.

(** The end of the text; a string that is still open is an error. *)
Definition lex_end (st : lex_state) : option (list token) :=
  match st with
  | Between => Some []
  | InWord acc => Some [TWord acc]
  | Quote acc => Some [TString acc]
  | OneColon | InString _ | Escaped _ | Dollar _ => None
  end.

Fixpoint lex_run (st : lex_state) (s : string) : option (list token * lex_state) :=
  match s with
  | EmptyString => Some ([], st)
  | String c s' =>
      match lex_step st c with
      | Some (ts, st') =>
          match lex_run st' s' with
          | Some (ts', st'') => Some (ts ++ ts', st'')
          | None => None
          end
      | None => None
      end
  end.

Definition lex (s : string) : option (list token) :=
  match lex_run Between s with
  | Some (ts, st) =>
      match lex_end st with
      | Some ts' => Some (ts ++ ts')
      | None => None
      end
  | None => None
  end.

#[local] Unset Elimination Schemes.
Inductive ps_expr : Type :=
| EString (s : string)
| EPlus (a b : ps_expr)
| EMember (type member : string)                       (* [type]::member *)
| ECall (type member : string) (args : list ps_expr).  (* [type]::member(args) *)
#[local] Set Elimination Schemes.

Inductive ps_statement : Type :=
| SEcho (e : ps_expr)      (* echo (e) *)
| SExpr (e : ps_expr).

(** Recursive descent over the tokens; [n] bounds the depth. *)
Fixpoint parse_expr (n : nat) (ts : list token) : option (ps_expr * list token) :=
  match n with
  | O => None
  | S n =>
      match parse_primary n ts with
      | Some (a, r) => parse_sum n a r
      | None => None
      end
  end
with parse_sum (n : nat) (a : ps_expr) (ts : list token) : option (ps_expr * list token) :=
  match n with
  | O => None
  | S n =>
      match ts with
      | TPlus :: r =>
          match parse_primary n r with
          | Some (b, r') => parse_sum n (EPlus a b) r'
          | None => None
          end
      | _ => Some (a, ts)
      end
  end
with parse_primary (n : nat) (ts : list token) : option (ps_expr * list token) :=
  match n with
  | O => None
  | S n =>
      match ts with
      | TString s :: r => Some (EString s, r)
      | TLParen :: r =>
          match parse_expr n r with
          | Some (e, TRParen :: r') => Some (e, r')
          | _ => None
          end
      | TLBracket :: TWord ty :: TRBracket :: TStatic :: TWord m :: TLParen :: TRParen :: r =>
          Some (ECall ty m [], r)
      | TLBracket :: TWord ty :: TRBracket :: TStatic :: TWord m :: TLParen :: r =>
          match parse_args n r with
          | Some (args, r') => Some (ECall ty m args, r')
          | None => None
          end
      | TLBracket :: TWord ty :: TRBracket :: TStatic :: TWord m :: r =>
          Some (EMember ty m, r)
      | _ => None
      end
  end
with parse_args (n : nat) (ts : list token) : option (list ps_expr * list token) :=
  match n with
  | O => None
  | S n =>
      match parse_expr n ts with
      | Some (e, TComma :: r) =>
          match parse_args n r with
          | Some (es, r') => Some (e :: es, r')
          | None => None
          end
      | Some (e, TRParen :: r) => Some ([e], r)
      | _ => None
      end
  end.

Definition parse_statement (ts : list token) : option ps_statement :=
  let n := (4 * length ts + 4)%nat in
  match ts with
  | TWord w :: TLParen :: r =>
      if String.eqb (lower w) "echo" then
        match parse_expr n r with
        | Some (e, [TRParen]) => Some (SEcho e)
        | _ => None
        end
      else None
  | _ =>
      match parse_expr n ts with
      | Some (e, []) => Some (SExpr e)
      | _ => None
      end
  end.

Definition ps_parse (text : string) : option ps_statement :=
  match lex text with
  | Some ts => parse_statement ts
  | None => None
  end.

(** *** The shell's side: evaluating *)

Inductive ps_value : Type :=
| VNull
| VString (s : string)
| VTarget (sc : PathScope).

(** Names of types, members, variables and targets do not distinguish
    case. *)
Definition scope_of_name (s : string) : option PathScope :=
  if String.eqb (lower s) "machine" then Some Machine
  else if String.eqb (lower s) "user" then Some User
  else None.

(** A target is given as a member of the enumeration or by its name. *)
Definition as_target (v : ps_value) : option PathScope :=
  match v with
  | VTarget sc => Some sc
  | VString s => scope_of_name s
  | VNull => None
  end.

(** A type of the System namespace, with or without the namespace. *)
Definition is_type (name ty : string) : bool :=
  String.eqb (lower ty) name || String.eqb (lower ty) ("system." +:+ name).

(** [+]: null on the left gives the right operand; a string on the left
    takes the right operand as a string, null as the empty string. *)
Definition plus (a b : ps_value) : option ps_value :=
  match a, b with
  | VNull, _ => Some b
  | VString x, VNull => Some (VString x)
  | VString x, VString y => Some (VString (x +:+ y))
  | VString x, VTarget sc => Some (VString (x +:+ scope_name sc))
  | VTarget _, _ => None
  end.

(** [GetEnvironmentVariable] gives null for a variable that is not there.
    Of the persisted variables only Path is modelled. *)
Fixpoint eval (h : Host) (e : ps_expr) : option ps_value :=
  match e with
  | EString s => Some (VString s)
  | EPlus a b =>
      match eval h a, eval h b with
      | Some x, Some y => plus x y
      | _, _ => None
      end
  | EMember ty m =>
      if is_type "environmentvariabletarget" ty
      then option_map VTarget (scope_of_name m)
      else None
  | ECall ty m args =>
      if is_type "environment" ty && String.eqb (lower m) "getenvironmentvariable" then
        match map (eval h) args with
        | [Some (VString name); Some t] =>
            if String.eqb (lower name) "path" then
              match as_target t with
              | Some sc =>
                  Some (match persisted sc h with
                        | Some v => VString v
                        | None => VNull
                        end)
              | None => None
              end
            else None
        | _ => None
        end
      else None
  end.

(** What the shell prints for a value: nothing for null, else the value
    and the end of the line. *)
Definition print (v : ps_value) : string :=
  match v with
  | VNull => EmptyString
  | VString s => s +:+ eol
  | VTarget sc => scope_name sc +:+ eol
  end.

Definition remove (sc : PathScope) (h : Host) : Host :=
  match sc with
  | Machine =>
      {| machine_path := None; user_path := user_path h;
         machine_writable := machine_writable h;
         user_writable := user_writable h;
         shell := shell h; files := files h |}
  | User =>
      {| machine_path := machine_path h; user_path := None;
         machine_writable := machine_writable h;
         user_writable := user_writable h;
         shell := shell h; files := files h |}
  end.

(** A command that fails: status 1, nothing printed, nothing changed. *)
Definition failed (h : Host) : CompletedProcess * Host :=
  ({| returncode := 1; stdout := EmptyString |}, h).

(** [SetEnvironmentVariable]: a write to a scope that is not writable
    fails; an empty or null value removes the variable (as .NET does up
    to version 8; the script never sends one, its value holds a
    semicolon). *)
Definition set_variable (h : Host) (name value target : ps_value)
  : CompletedProcess * Host :=
  match name, as_target target with
  | VString n, Some sc =>
      if String.eqb (lower n) "path" && writable sc h then
        ({| returncode := 0; stdout := EmptyString |},
         match value with
         | VString s => if String.eqb s EmptyString then remove sc h else store sc s h
         | VNull => remove sc h
         | VTarget t => store sc (scope_name t) h
         end)
      else failed h
  | _, _ => failed h
  end.

Definition run_statement (st : ps_statement) (h : Host) : CompletedProcess * Host :=
  match st with
  | SExpr (ECall ty m [name; value; target]) =>
      if is_type "environment" ty && String.eqb (lower m) "setenvironmentvariable" then
        match eval h name, eval h value, eval h target with
        | Some n, Some v, Some t => set_variable h n v t
        | _, _, _ => failed h
        end
      else
        match eval h (ECall ty m [name; value; target]) with
        | Some v => ({| returncode := 0; stdout := print v |}, h)
        | None => failed h
        end
  | SEcho e | SExpr e =>
      match eval h e with
      | Some v => ({| returncode := 0; stdout := print v |}, h)
      | None => failed h
      end
  end.

(** A working shell on a command text.  A text that does not parse, or
    that fails when it is evaluated, ends with status 1 and changes
    nothing.  A text that leaves the language read here (a variable or a
    subexpression in a string, a statement separator, a command other
    than echo) is not followed any further: it is taken to end the same
    way.  Neither the expansion of percent references by the registry nor
    a variable other than Path is modelled. *)
Definition powershell (text : string) (h : Host) : CompletedProcess * Host :=
  match ps_parse text with
  | Some st => run_statement st h
  | None => failed h
  end.

(** Running [pwsh -c <command>].  [None]: the program cannot be started.
    A shell that starts and fails prints nothing and ends with status 1. *)
Definition pwsh (c : pwsh_command) (h : Host) : option (CompletedProcess * Host) :=
  match shell h with
  | ShellMissing => None
  | ShellFailing => Some (failed h)
  | ShellWorking => Some (powershell (pwsh_text c) h)
  end.

(** A value that a double-quoted string of the shell holds as it is
    written: no double quote, no backtick, no dollar sign. *)
Definition plain_char (c : ascii) : bool :=
  negb (Ascii.eqb c "034" || Ascii.eqb c "`" || Ascii.eqb c "$").

Fixpoint is_plain (s : string) : bool :=
  match s with
  | EmptyString => true
  | String c s' => plain_char c && is_plain s'
  end.

(** A missing variable reads as null, and null concatenates as the empty
    string. *)
Definition getenv (sc : PathScope) (h : Host) : string :=
  default EmptyString (persisted sc h).

(** Machine, a semicolon, User, and the end of the line: what the
    refresh command prints on a working shell ([powershell_echo]). *)
Definition persisted_path (h : Host) : string :=
  getenv Machine h +:+ ";" +:+ getenv User h +:+ eol.

(** ** shutil.which

    The library routine as it runs on win32 for a bare command name: the
    empty path finds nothing; the current directory goes first unless the
    path names it; a command that already ends in one of the PATHEXT
    extensions is tried as it is, any other with each extension in turn;
    the first directory with a hit wins.  (The library skips a directory it
    has already tried, which cannot change the answer.) *)

Fixpoint last_char (s : string) : option ascii :=
  match s with
  | EmptyString => None
  | String c EmptyString => Some c
  | String _ s' => last_char s'
  end.

Definition is_sep (c : ascii) : bool := Ascii.eqb c "\" || Ascii.eqb c "/".

(** [s] up to its first separator, and from that separator on. *)
Fixpoint break_sep (s : string) : string * string :=
  match s with
  | EmptyString => (EmptyString, EmptyString)
  | String c s' =>
      if is_sep c then (EmptyString, s)
      else let (a, b) := break_sep s' in (String c a, b)
  end.

(** After two leading separators: the rest of the prefix of a long UNC
    name (a question mark, a separator, UNC in any case, a separator),
    if it is there, and what follows it. *)
Definition unc_prefix_rest (r : string) : string * string :=
  match r with
  | String q (String s (String u (String n (String c (String t r'))))) =>
      if Ascii.eqb q "?" && is_sep s
         && Ascii.eqb (lower_char u) "u" && Ascii.eqb (lower_char n) "n"
         && Ascii.eqb (lower_char c) "c" && is_sep t
      then (String q (String s (String u (String n (String c (String t EmptyString))))), r')
      else (EmptyString, r)
  | _ => (EmptyString, r)
  end.

(** [ntpath.splitdrive]: a drive letter with its colon, or a UNC share up
    to the separator after the share name. *)
Definition splitdrive (p : string) : string * string :=
  match p with
  | String a (String b r) =>
      if is_sep a && is_sep b then
        let (pre, r0) := unc_prefix_rest r in
        match break_sep r0 with
        | (x, String s1 r1) =>
            match break_sep r1 with
            | (y, String s2 r2) =>
                (String a (String b (pre +:+ x +:+ String s1 y)), String s2 r2)
            | (_, EmptyString) => (p, EmptyString)
            end
        | (_, EmptyString) => (p, EmptyString)
        end
      else if Ascii.eqb b ":" then (String a (String b EmptyString), r)
      else (EmptyString, p)
  | _ => (EmptyString, p)
  end.

(** What [os.path.join(dir, file)] puts before a bare file name: [dir],
    and a backslash unless [dir] ends in a separator, is empty, or is a
    drive that ends in a colon. *)
Definition join_prefix (dir : string) : string :=
  match splitdrive dir with
  | (drive, EmptyString) =>
      match last_char drive with
      | None => EmptyString
      | Some c => if Ascii.eqb c ":" then drive else drive +:+ "\"
      end
  | (_, path) =>
      match last_char path with
      | Some c => if is_sep c then dir else dir +:+ "\"
      | None => dir
      end
  end.

(** [os.path.join(dir, file)] for a bare file name. *)
Definition path_join (dir file : string) : string := join_prefix dir +:+ file.

(** [str(pathlib.Path(s))] on Windows: forward slashes become
    backslashes, the drive and the root are kept, and of what follows
    the empty components and the dots are dropped. *)
Fixpoint backslashes (s : string) : string :=
  match s with
  | EmptyString => EmptyString
  | String c s' => String (if Ascii.eqb c "/" then "\"%char else c) (backslashes s')
  end.

Fixpoint lstrip_sep (s : string) : string :=
  match s with
  | String c s' => if Ascii.eqb c "\" then lstrip_sep s' else s
  | EmptyString => EmptyString
  end.

(** The prefix of an extended path, and the path without it. *)
Definition split_extended (s : string) : string * string :=
  match strip_prefix "\\?\" s with
  | Some r =>
      match strip_prefix "UNC\" r with
      | Some r' => ("\\?\UNC", "\\" +:+ r')
      | None => ("\\?\", r)
      end
  | None => (EmptyString, s)
  end.

(** Drive letter and root of a path that is not a UNC share. *)
Definition drive_and_root (part : string) : string * string * string :=
  let '(drv, rest) :=
    match part with
    | String a (String b r) =>
        if Ascii.eqb b ":" && is_letter a
        then (String a (String b EmptyString), r)
        else (EmptyString, part)
    | _ => (EmptyString, part)
    end in
  match rest with
  | String c _ =>
      if Ascii.eqb c "\" then (drv, "\", lstrip_sep rest) else (drv, EmptyString, rest)
  | EmptyString => (drv, EmptyString, rest)
  end.

(** The flavour's [splitroot]: drive, root and the rest. *)
Definition splitroot (s : string) : string * string * string :=
  let '(prefix, part) :=
    match s with
    | String a (String b _) =>
        if Ascii.eqb a "\" && Ascii.eqb b "\" then split_extended s else (EmptyString, s)
    | _ => (EmptyString, s)
    end in
  let plain :=
    let '(drv, root, rel) := drive_and_root part in (prefix +:+ drv, root, rel) in
  match part with
  | String a (String b r) =>
      if Ascii.eqb a "\" && Ascii.eqb b "\"
         && negb (match r with String c _ => Ascii.eqb c "\" | EmptyString => false end)
      then
        match break_sep r with
        | (x, String s1 r1) =>
            match break_sep r1 with
            | (EmptyString, String _ _) => plain
            | (y, rest) =>
                ((if String.eqb prefix EmptyString then "\\" else prefix +:+ "\")
                 +:+ x +:+ String s1 y,
                 "\",
                 match rest with String _ rel => rel | EmptyString => EmptyString end)
            end
        | (_, EmptyString) => plain
        end
      else plain
  | _ => plain
  end.

Fixpoint join_with (sep : string) (l : list string) : string :=
  match l with
  | [] => EmptyString
  | [x] => x
  | x :: rest => x +:+ sep +:+ join_with sep rest
  end.

Definition windows_path (s : string) : string :=
  let '(drv, root, rel) := splitroot (backslashes s) in
  let parts :=
    List.filter (fun x => negb (String.eqb x EmptyString || String.eqb x "."))
      (split "\" rel) in
  let text := drv +:+ root +:+ join_with "\" parts in
  if String.eqb text EmptyString then "." else text.

Definition access_check (fs : gmap string node) (name : string) : bool :=
  match lookup_node fs name with
  | Some (File _) => true
  | _ => false
  end.

Definition candidates (pathext : list string) (cmd : string) : list string :=
  if existsb (fun ext => endswith (lower cmd) (lower ext)) pathext
  then [cmd]
  else map (fun ext => cmd +:+ ext) pathext.

Fixpoint find_in_dir (fs : gmap string node) (dir : string) (names : list string)
  : option string :=
  match names with
  | [] => None
  | f :: rest =>
      let name := path_join dir f in
      if access_check fs name then Some name else find_in_dir fs dir rest
  end.

Fixpoint scan (fs : gmap string node) (names : list string) (dirs : list string)
  : option string :=
  match dirs with
  | [] => None
  | d :: rest =>
      match find_in_dir fs d names with
      | Some name => Some name
      | None => scan fs names rest
      end
  end.

Definition curdir : string := ".".

Definition which (fs : gmap string node) (pathext : list string)
    (cmd path : string) : option string :=
  if String.eqb path EmptyString then None
  else
    let dirs := split ";" path in
    let dirs := if existsb (String.eqb curdir) dirs then dirs else curdir :: dirs in
    scan fs (candidates pathext cmd) dirs.

(** ** The running process *)

Inductive level : Type := DEBUG | INFO | WARNING | ERROR.

(** What the script does to the outside, in order.  [Log] is the call on
    the logger; the verbosity flag only decides which calls are shown. *)
Inductive event : Type :=
| Log (l : level) (msg : string)
| Input (prompt : string)
| Subprocess (argv : list string)
| HttpGet (url : string)
| UrlRetrieve (url filename : string)
| RegQuery (sc : PathScope)
| Mkdir (path : string)
| Rmtree (path : string)
| ExtractAll (archive target : string)
| Rename (src dst : string).

Record World : Type := {
  host : Host;
  environ_PATH : string;          (* os.environ PATH *)
  pathext : list string;          (* PATHEXT, split, empty entries dropped *)
  localappdata : option string;   (* %LOCALAPPDATA% *)
  stdin : list string;            (* the lines the user will type *)
  trace : list event;
}.

Definition with_host (h : Host) (w : World) : World :=
  {| host := h; environ_PATH := environ_PATH w; pathext := pathext w;
     localappdata := localappdata w; stdin := stdin w; trace := trace w |}.

Definition with_PATH (p : string) (w : World) : World :=
  {| host := host w; environ_PATH := p; pathext := pathext w;
     localappdata := localappdata w; stdin := stdin w; trace := trace w |}.

Definition with_stdin (l : list string) (w : World) : World :=
  {| host := host w; environ_PATH := environ_PATH w; pathext := pathext w;
     localappdata := localappdata w; stdin := l; trace := trace w |}.

Definition record (e : event) (w : World) : World :=
  {| host := host w; environ_PATH := environ_PATH w; pathext := pathext w;
     localappdata := localappdata w; stdin := stdin w;
     trace := trace w ++ [e] |}.

(** Third-party programs and the network. *)
Record Externals : Type := {
  (* a program started with this argv and this PATH: its exit status and
     what it did to the machine; [None] when it cannot be started *)
  program : list string -> string -> Host -> option (Z * Host);
  (* requests.get(url).text; [None] when the request raises *)
  page_text : string -> option string;
  (* the bytes urlretrieve stores; [None] when the transfer raises *)
  url_content : string -> option string;
  (* the members of a zip archive, by relative name *)
  zip_members : string -> option (list (string * node));
}.

(** ** The monad: state, [sys.exit] and uncaught exceptions *)

Inductive exn : Type :=
| FileNotFoundError | FileExistsError | NotADirectoryError
| ConnectionError | URLError | EOFError | BadZipFile | TypeError.

Inductive result (A : Type) : Type :=
| Ret (a : A)
| SysExit (code : Z)
| Raise (e : exn).
Arguments Ret {A} a.
Arguments SysExit {A} code.
Arguments Raise {A} e.

Definition M (A : Type) : Type := World -> result A * World.

Definition ret {A} (a : A) : M A := fun w => (Ret a, w).

Definition bind {A B} (m : M A) (k : A -> M B) : M B :=
  fun w =>
    match m w with
    | (Ret a, w') => k a w'
    | (SysExit c, w') => (SysExit c, w')
    | (Raise e, w') => (Raise e, w')
    end.

Notation "'let*' x := m 'in' k" := (bind m (fun x => k))
  (at level 10, x name, m at level 100, k at level 200).
Notation "m ;; k" := (bind m (fun _ => k))
  (at level 100, k at level 200, right associativity).

Definition sys_exit {A} (c : Z) : M A := fun w => (SysExit c, w).
Definition raise {A} (e : exn) : M A := fun w => (Raise e, w).
Definition emit (e : event) : M unit := fun w => (Ret tt, record e w).

(** The status the operating system sees: an uncaught exception ends the
    interpreter with status 1. *)
Definition exit_status {A} (r : result A) : Z :=
  match r with
  | Ret _ => 0
  | SysExit c => c
  | Raise _ => 1
  end.

(** ** Primitives *)

Definition logger (l : level) (msg : string) : M unit := emit (Log l msg).

(** input(prompt): the next line, or EOFError. *)
Definition input (prompt : string) : M string :=
  fun w =>
    let w1 := record (Input prompt) w in
    match stdin w1 with
    | [] => (Raise EOFError, w1)
    | a :: rest => (Ret a, with_stdin rest w1)
    end.

(** shutil.which(cmd, path=os.environ PATH): a read, no event. *)
Definition shutil_which (cmd : string) : M (option string) :=
  fun w => (Ret (which (files (host w)) (pathext w) cmd (environ_PATH w)), w).

(** subprocess.run of pwsh -c <command>. *)
Definition run_pwsh (c : pwsh_command) : M CompletedProcess :=
  fun w =>
    let w1 := record (Subprocess (pwsh_argv c)) w in
    match pwsh c (host w1) with
    | None => (Raise FileNotFoundError, w1)
    | Some (cp, h) => (Ret cp, with_host h w1)
    end.

(** winreg.OpenKey and QueryValueEx(key, Path)[0]. *)
Definition winreg_query_path (sc : PathScope) : M string :=
  fun w =>
    let w1 := record (RegQuery sc) w in
    match persisted sc (host w1) with
    | None => (Raise FileNotFoundError, w1)
    | Some v => (Ret v, w1)
    end.

(** Path(os.path.expandvars(...)) on %LOCALAPPDATA%\Android\Sdk, as the
    text that names it: an unset variable is left as it is written, and
    the path is put in its normal form. *)
Definition sdk_dir_of (w : World) : string :=
  windows_path (default "%LOCALAPPDATA%" (localappdata w) +:+ "\Android\Sdk").

Definition expand_sdk_dir : M string := fun w => (Ret (sdk_dir_of w), w).

(** File-system operations. *)
Definition is_under (d name : string) : bool :=
  String.eqb name (lower d) || startswith name (lower d +:+ "\").

Definition rebase (src dst name : string) : string :=
  if String.eqb name (lower src) then lower dst
  else match strip_prefix (lower src +:+ "\") name with
       | Some rest => lower dst +:+ "\" +:+ rest
       | None => name
       end.

(** Path.exists() *)
Definition path_exists (p : string) : M bool :=
  fun w => (Ret (is_Some_bool (lookup_node (files (host w)) p)), w).

(** Path.mkdir(parents=True, exist_ok=True); parents are not tracked. *)
Definition mkdir_p (p : string) : M unit :=
  fun w =>
    let w1 := record (Mkdir p) w in
    match lookup_node (files (host w1)) p with
    | Some (File _) => (Raise FileExistsError, w1)
    | _ => (Ret tt, with_host (with_files (write_node (files (host w1)) p Dir) (host w1)) w1)
    end.

Definition rmtree (p : string) : M unit :=
  fun w =>
    let w1 := record (Rmtree p) w in
    match lookup_node (files (host w1)) p with
    | Some Dir =>
        (Ret tt,
         with_host (with_files
           (filter (fun kv => Is_true (negb (is_under p kv.1))) (files (host w1)))
           (host w1)) w1)
    | Some (File _) => (Raise NotADirectoryError, w1)
    | None => (Raise FileNotFoundError, w1)
    end.

Definition rename (src dst : string) : M unit :=
  fun w =>
    let w1 := record (Rename src dst) w in
    let fs := files (host w1) in
    match lookup_node fs src, lookup_node fs dst with
    | None, _ => (Raise FileNotFoundError, w1)
    | Some _, Some _ => (Raise FileExistsError, w1)
    | Some _, None =>
        (Ret tt,
         with_host (with_files
           (list_to_map (map (fun kv => (rebase src dst kv.1, kv.2)) (map_to_list fs)))
           (host w1)) w1)
    end.

(** ** The script *)

(** Literals of the script that the properties below refer to. *)
Definition winget_argv : list string :=
  ["winget"; "install"; "--id"; "Git.Git"; "-e"; "--source"; "winget"].

Definition git_release_url : string :=
  "https://github.com/git-for-windows/git/releases/latest".

Definition studio_url : string := "https://developer.android.com/studio".

Definition git_manual_url : string :=
  "Failed to install Git, install manually from https://git-scm.com/download/win and try running again".

Definition flutter_error : string :=
  "Failed to install Flutter SDK, please install manually: https://docs.flutter.dev/get-started/install/windows".

Definition path_update_warning : string :=
  "Failed to update PATH, may be caused by permission issues, please update PATH manually".

Definition sdkmanager_error : string :=
  "Failed to install Android command line tools, please continue install manually: https://docs.flutter.dev/get-started/install/windows#android-setup".

Definition android_prompt : string :=
  "Do you want to install Android SDK, Android SDK Command-line Tools, and Android SDK Build-Tools (only install if you do not already have it installed; if unsure, do not install and opt for manual installation instead)? [y/N] ".

Definition winget_warning : string :=
  "Failed to install Git with winget (perhaps winget not installed?), trying manual download".

(** The download address built from the release path found on the page,
    and the file name the download is stored under: split("/")[-1]. *)
Definition git_installer_url (g : string) : string := "https://github.com" +:+ g.

Definition commandlinetools_url (g : string) : string :=
  "https://dl.google.com/android/repository/" +:+ g.

Definition basename (url : string) : string := last_field "/" url.

Section Installer.

Variable X : Externals.

(** subprocess.run(argv) of a third-party program; the child inherits the
    PATH of the process. *)
Definition subprocess_run (argv : list string) : M Z :=
  fun w =>
    let w1 := record (Subprocess argv) w in
    match program X argv (environ_PATH w1) (host w1) with
    | None => (Raise FileNotFoundError, w1)
    | Some (rc, h) => (Ret rc, with_host h w1)
    end.

(** requests.get(url).text *)
Definition requests_get (url : string) : M string :=
  fun w =>
    let w1 := record (HttpGet url) w in
    match page_text X url with
    | None => (Raise ConnectionError, w1)
    | Some text => (Ret text, w1)
    end.

(** urllib.request.urlretrieve(url, filename); the progress bar is not
    modelled. *)
Definition urlretrieve (url filename : string) : M unit :=
  fun w =>
    let w1 := record (UrlRetrieve url filename) w in
    match url_content X url with
    | None => (Raise URLError, w1)
    | Some bytes =>
        (Ret tt,
         with_host (with_files (write_node (files (host w1)) filename (File bytes))
                      (host w1)) w1)
    end.

(** zipfile.ZipFile(archive).extractall(target) *)
Definition extractall (archive target : string) : M unit :=
  fun w =>
    let w1 := record (ExtractAll archive target) w in
    match lookup_node (files (host w1)) archive with
    | Some (File bytes) =>
        match zip_members X bytes with
        | None => (Raise BadZipFile, w1)
        | Some members =>
            (Ret tt,
             with_host (with_files
               (foldl (fun fs m => write_node fs (target +:+ "\" +:+ m.1) m.2)
                      (files (host w1)) members)
               (host w1)) w1)
        end
    | _ => (Raise FileNotFoundError, w1)
    end.

(** [a and which(...)]: the lookup is made only when [a] holds. *)
Definition and_which (a : bool) (cmd : string) : M bool :=
  if a then (let* found := shutil_which cmd in ret (is_Some_bool found))
  else ret false.

(** lines 60-69 *)
Definition update_path : M unit :=
  let* cp := run_pwsh EchoPath in
  fun w => (Ret tt, with_PATH (stdout cp) w).

(** lines 96-156; the value is [git_path]. *)
Definition ensure_git : M (option string) :=
  logger INFO "Checking for Git...";;
  update_path;;
  let* found := shutil_which "git" in
  if is_Some_bool found then
    let* git_path := shutil_which "git" in
    logger INFO "Git found";;
    ret git_path
  else
    logger INFO "Attempting to install Git with winget...";;
    let* git_winget := subprocess_run winget_argv in
    update_path;;
    let* ok := and_which (git_winget =? 0) "git" in
    if ok then
      let* git_path := shutil_which "git" in
      logger INFO "Git successfully installed with winget";;
      ret git_path
    else
      logger WARNING winget_warning;;
      let* git_release := requests_get git_release_url in
      match re_search git_installer_pattern git_release with
      | Some g =>
          let git_installer_name := basename (git_installer_url g) in
          urlretrieve (git_installer_url g) git_installer_name;;
          let* git_manual := subprocess_run [git_installer_name] in
          update_path;;
          let* ok := and_which (git_manual =? 0) "git" in
          if ok then
            let* git_path := shutil_which "git" in
            logger INFO "Git successfully installed";;
            ret git_path
          else
            logger ERROR git_manual_url;;
            sys_exit 1
      | None =>
          logger ERROR git_manual_url;;
          sys_exit 1
      end.

(** lines 193-199 and 280-286 *)
Definition report_path_update (path_update : CompletedProcess) : M unit :=
  if returncode path_update =? 0 then logger INFO "Updated PATH"
  else logger WARNING path_update_warning.

(** lines 179-192 and 269-279: read the scope's Path from the registry and
    set it to that value followed by a semicolon and [dir]. *)
Definition append_path (sc : PathScope) (dir : string) : M CompletedProcess :=
  let* current := winreg_query_path sc in
  run_pwsh (SetPath (current +:+ ";" +:+ dir) sc).

(** lines 200-209; the value is [flutter_path]. *)
Definition verify_flutter : M (option string) :=
  update_path;;
  let* found := shutil_which "flutter" in
  if is_Some_bool found then
    let* flutter_path := shutil_which "flutter" in
    logger INFO "Flutter SDK successfully installed";;
    ret flutter_path
  else
    logger ERROR flutter_error;;
    sys_exit 1.

(** lines 158-209; the value is [flutter_path]. *)
Definition ensure_flutter (git_path : option string) : M (option string) :=
  logger INFO "Checking for Flutter...";;
  update_path;;
  let* found := shutil_which "flutter" in
  if is_Some_bool found then
    let* flutter_path := shutil_which "flutter" in
    logger INFO "Flutter SDK is already installed, skipping...";;
    ret flutter_path
  else
    logger INFO "Attempting to clone Flutter in C:\src...";;
    let* git := match git_path with
                | Some p => ret p
                | None => raise TypeError
                end in
    subprocess_run
      [git; "clone"; "https://github.com/flutter/flutter.git"; "-b"; "stable"; "C:\src"];;
    logger INFO "Cloned Flutter to C:\src\flutter";;
    logger INFO "Attempting to update PATH...";;
    let* path_update := append_path Machine "C:\src\flutter\bin" in
    report_path_update path_update;;
    verify_flutter.

(** lines 254-267.  [sdk_dir] is a path with a last component, for which
    [sdk_dir / name] is [sdk_dir], a backslash and [name]. *)
Definition extract_cmdline_tools (archive sdk_dir : string) : M unit :=
  let target := sdk_dir +:+ "\cmdline-tools" in
  let* present := path_exists target in
  if present then
    logger WARNING (target +:+ " already exists, overwrite? [y/N]");;
    let* answer := input EmptyString in
    if String.eqb (lower answer) "y" then
      rmtree target;;
      mkdir_p target;;
      extractall archive target;;
      rename (target +:+ "\cmdline-tools") (target +:+ "\latest")
    else
      logger INFO "Skipping Android command line tools installation"
  else ret tt.

(** lines 229-286, for the asset name [g] found on the page: download,
    unpack, put the tools on the user's Path. *)
Definition provision_cmdline_tools (g : string) : M unit :=
  let commandlinetools_installer_name := basename (commandlinetools_url g) in
  urlretrieve (commandlinetools_url g) commandlinetools_installer_name;;
  let* sdk_dir := expand_sdk_dir in
  logger INFO
    ("Downloaded Android command line tools, attempting to unzip to " +:+ sdk_dir);;
  logger DEBUG ("Creating " +:+ sdk_dir +:+ " if not exists");;
  mkdir_p sdk_dir;;
  logger DEBUG
    ("Unzipping " +:+ commandlinetools_installer_name +:+ " to " +:+ sdk_dir);;
  extract_cmdline_tools commandlinetools_installer_name sdk_dir;;
  logger INFO "Attempting to update PATH...";;
  let* path_update :=
    append_path User "%LocalAppData%\Android\Sdk\cmdline-tools\latest\bin" in
  report_path_update path_update.

(** lines 287-297; the value is [sdkmanager_path]. *)
Definition verify_sdkmanager : M (option string) :=
  update_path;;
  let* found := shutil_which "sdkmanager.bat" in
  if is_Some_bool found then
    let* sdkmanager_path := shutil_which "sdkmanager" in
    logger INFO "Android command line tools successfully installed";;
    ret sdkmanager_path
  else
    logger ERROR sdkmanager_error;;
    sys_exit 1.

(** lines 211-302; the value is [sdkmanager_path].  A page without a
    matching asset leaves the inner conditional without a branch to run. *)
Definition install_android_tools : M (option string) :=
  let* answer := input android_prompt in
  if String.eqb (lower answer) "y" then
    logger INFO "Attempting to install Android toolchain..";;
    logger INFO "Downloading Android command line tools...";;
    let* studio_page := requests_get studio_url in
    match re_search commandlinetools_pattern studio_page with
    | Some g =>
        provision_cmdline_tools g;;
        verify_sdkmanager
    | None => ret (Some "sdkmanager")
    end
  else
    logger INFO "Skipping Android toolchain installation";;
    ret (Some "sdkmanager").

(** lines 96-304 *)
Definition main : M unit :=
  let* git_path := ensure_git in
  let* flutter_path := ensure_flutter git_path in
  let* sdkmanager_path := install_android_tools in
  input "Press enter to exit...";;
  ret tt.

End Installer.

(** The two required tools, each with its flow, the executable it looks
    for and the lines it logs when the executable is already there. *)
Inductive required_tool : Type := Git | Flutter.

Definition executable (t : required_tool) : string :=
  match t with
  | Git => "git"
  | Flutter => "flutter"
  end.

Definition ensure (X : Externals) (git_path : option string) (t : required_tool)
  : M (option string) :=
  match t with
  | Git => ensure_git X
  | Flutter => ensure_flutter X git_path
  end.

Definition checking_message (t : required_tool) : string :=
  match t with
  | Git => "Checking for Git..."
  | Flutter => "Checking for Flutter..."
  end.

Definition present_message (t : required_tool) : string :=
  match t with
  | Git => "Git found"
  | Flutter => "Flutter SDK is already installed, skipping..."
  end.

(** ** Describing outcomes *)

(** The world a computation leaves behind. *)
Definition after {A} (m : M A) (w : World) : World := (m w).2.

(** The world [w] after a run that left the machine as [h], the in-memory
    PATH as [p], the unread input as [inp], and added [evs] to the trace. *)
Definition evolve (w : World) (h : Host) (p : string) (inp : list string)
    (evs : list event) : World :=
  {| host := h; environ_PATH := p; pathext := pathext w;
     localappdata := localappdata w; stdin := inp; trace := trace w ++ evs |}.

(** How many entries of a semicolon-separated value are [dir]. *)
Definition occurrences (dir value : string) : nat :=
  count_occ String.string_dec (split ";" value) dir.



(** The refresh, as it appears in a trace. *)
Definition refresh : event := Subprocess (pwsh_argv EchoPath).

(** Events that belong to an installation strategy: starting a program
    other than the refresh, using the network, or touching files. *)
Definition strategy_event (e : event) : bool :=
  match e with
  | Subprocess argv => negb (bool_decide (argv = pwsh_argv EchoPath))
  | HttpGet _ | UrlRetrieve _ _ => true
  | Mkdir _ | Rmtree _ | ExtractAll _ _ | Rename _ _ => true
  | Log _ _ | Input _ | RegQuery _ => false
  end.

Definition is_warning_or_error (e : event) : bool :=
  match e with
  | Log WARNING _ | Log ERROR _ => true
  | _ => false
  end.

(** A computation that only ever adds to the trace. *)
Definition extends {A} (m : M A) : Prop :=
  forall w : World, exists evs : list event, trace (after m w) = trace w ++ evs.

(** Events of unpacking an archive over a target. *)
Definition unpacking_event (e : event) : bool :=
  match e with
  | Rmtree _ | ExtractAll _ _ | Rename _ _ => true
  | _ => false
  end.

Definition is_error_log (e : event) : bool :=
  match e with
  | Log ERROR _ => true
  | _ => false
  end.

(** ** Concrete machines, used to run the script *)

Module Lab.

Definition pathext_default : list string :=
  [".COM"; ".EXE"; ".BAT"; ".CMD"; ".VBS"; ".JS"; ".WS"; ".MSC"].

Definition git_page : string :=
  "<a href=/git-for-windows/git/releases/download/v2.44.0.windows.1/Git-2.44.0-64-bit.exe rel=nofollow>".

Definition studio_page : string :=
  "<a href=https://dl.google.com/android/repository/commandlinetools-win-11076708_latest.zip>".

Definition page_without_asset : string :=
  "<html><body>We have moved. See the new download centre.</body></html>".

Definition install_git (h : Host) : Host :=
  with_files (write_node (files h) "C:\Program Files\Git\cmd\git.exe" (File "MZ"))
    (store Machine (getenv Machine h +:+ ";C:\Program Files\Git\cmd") h).

Definition clone_flutter (h : Host) : Host :=
  with_files (write_node (files h) "C:\src\flutter\bin\flutter.bat" (File "@echo off")) h.

(** winget ends with [winget_status]; the Git installer and git clone do
    their work; nothing else can be started. *)
Definition externals (git_release studio : string) (winget_status : Z) : Externals :=
  {| program := fun argv _ h =>
       match argv with
       | "winget" :: _ => Some (winget_status, h)
       | [exe] =>
           if String.eqb exe "Git-2.44.0-64-bit.exe" then Some (0, install_git h)
           else None
       | _ :: "clone" :: _ => Some (0, clone_flutter h)
       | _ => None
       end;
     page_text := fun url =>
       if String.eqb url studio_url then Some studio
       else if String.eqb url git_release_url then Some git_release
       else None;
     url_content := fun _ => Some "PK";
     zip_members := fun _ =>
       Some [("cmdline-tools", Dir); ("cmdline-tools\bin", Dir);
             ("cmdline-tools\bin\sdkmanager.bat", File "@echo off")] |}.

Definition host_with (machine : string) (elevated : bool)
    (fs : list (string * node)) : Host :=
  {| machine_path := Some machine; user_path := Some "C:\Users\dev\bin";
     machine_writable := elevated; user_writable := true;
     shell := ShellWorking; files := list_to_map fs |}.

Definition world_of (h : Host) (inp : list string) : World :=
  {| host := h; environ_PATH := EmptyString; pathext := pathext_default;
     localappdata := Some "C:\Users\dev\AppData\Local"; stdin := inp;
     trace := [] |}.

Definition git_exe : string * node := ("c:\program files\git\cmd\git.exe", File "MZ").
Definition flutter_bat : string * node := ("c:\src\flutter\bin\flutter.bat", File "@echo off").
Definition sdkmanager_bat : string * node := ("c:\android\bin\sdkmanager.bat", File "@echo off").

(** Nothing installed. *)
Definition host_bare : Host := host_with "C:\Windows" true [].

(** Git and Flutter installed, no Android tools. *)
Definition host_dev : Host :=
  host_with "C:\Windows;C:\Program Files\Git\cmd;C:\src\flutter\bin" false
    [git_exe; flutter_bat].

(** Everything installed, sdkmanager.bat on the Machine path. *)
Definition host_full : Host :=
  host_with "C:\Windows;C:\Program Files\Git\cmd;C:\src\flutter\bin;C:\Android\bin" false
    [git_exe; flutter_bat; sdkmanager_bat].

(** As [host_dev], with an older copy of the command line tools. *)
Definition host_old_tools : Host :=
  host_with "C:\Windows;C:\Program Files\Git\cmd;C:\src\flutter\bin" false
    [git_exe; flutter_bat;
     ("c:\users\dev\appdata\local\android\sdk\cmdline-tools", Dir);
     ("c:\users\dev\appdata\local\android\sdk\cmdline-tools\notes.txt", File "keep")].

(** Git installed; the Flutter directory is already on the Machine path
    but its files are gone; the process is not elevated. *)
Definition host_half : Host :=
  host_with "C:\Windows;C:\Program Files\Git\cmd;C:\src\flutter\bin" false [git_exe].


(** A machine whose PowerShell starts and fails. *)
Definition host_broken_shell : Host :=
  {| machine_path := Some "C:\Windows;C:\Program Files\Git\cmd";
     user_path := Some "C:\Users\dev\bin";
     machine_writable := false; user_writable := true;
     shell := ShellFailing;
     files := list_to_map [git_exe] |}.

Definition lab : Externals := externals git_page studio_page 1.

(** The download page of the command line tools has lost its asset. *)
Definition lab_without_asset : Externals := externals page_without_asset page_without_asset 1.

(** As [host_full], with a user Path that cannot be written. *)
Definition host_locked : Host :=
  {| machine_path := machine_path host_full; user_path := user_path host_full;
     machine_writable := false; user_writable := false;
     shell := ShellWorking; files := files host_full |}.

(** A run on [host_old_tools] in which the user asks for the Android
    tools and then keeps the older copy, and the worlds it passes
    through. *)
Definition keep_start : World := world_of host_old_tools ["y"; "N"; EmptyString].

Definition keep_after_git : World := after (ensure_git lab) keep_start.

Definition keep_after_flutter : World :=
  after (ensure_flutter lab (Some "C:\Program Files\Git\cmd\git.EXE")) keep_after_git.

Definition keep_asked : World :=
  evolve keep_after_flutter (host keep_after_flutter) (environ_PATH keep_after_flutter)
    ["N"; EmptyString]
    [Input android_prompt;
     Log INFO "Attempting to install Android toolchain..";
     Log INFO "Downloading Android command line tools...";
     HttpGet studio_url].

Definition keep_provisioned : World :=
  after (provision_cmdline_tools lab "commandlinetools-win-11076708_latest.zip") keep_asked.

End Lab.

(** ** The progress bar: class TqdmUpTo (lines 39-57) *)

Module TqdmUpTo.

(** The fields of a tqdm bar the class touches: the count, the total (None
    while unknown) and whether the bar is disabled. *)
Record t : Type := { n : Z; total : option Z; disable : bool }.

(** tqdm.update(delta): a disabled bar ignores the call; an enabled one
    moves its count by [delta] (the redraw is not modelled). *)
Definition update (delta : Z) (self : t) : t :=
  if disable self then self
  else {| n := n self + delta; total := total self; disable := disable self |}.

(** lines 46-57 *)
Definition update_to (b bsize : Z) (tsize : option Z) (self : t) : t :=
  let self :=
    match tsize with
    | Some ts => {| n := n self; total := Some ts; disable := disable self |}
    | None => self
    end in
  update (b * bsize - n self) self.

(** One call of the report hook: reporthook(b, bsize, tsize). *)
Definition report (self : t) (call : Z * Z * option Z) : t :=
  update_to call.1.1 call.1.2 call.2 self.

(** The body of the with block at lines 127-139 and 233-245, as far as the
    bar goes: the hook calls of the transfer in order, then
    [t.total = t.n]. *)
Definition transfer (calls : list (Z * Z * option Z)) (self : t) : t :=
  let self := foldl report self calls in
  {| n := n self; total := Some (n self); disable := disable self |}.

End TqdmUpTo.

(** ** The log format: class CustomFormatter (lines 17-36) *)

Module CustomFormatter.

Definition esc : string := String "027"%char EmptyString.
Definition grey : string := esc +:+ "[38;21m".
Definition yellow : string := esc +:+ "[33;21m".
Definition red : string := esc +:+ "[31;21m".
Definition bold_red : string := esc +:+ "[31;1m".
Definition reset : string := esc +:+ "[0m".
Definition f : string := "%(levelname)s: %(message)s".

(** The numbers of logging.DEBUG ... logging.CRITICAL. *)
Definition FORMATS : gmap Z string :=
  <[10 := grey +:+ f +:+ reset]>
  (<[20 := grey +:+ f +:+ reset]>
  (<[30 := yellow +:+ f +:+ reset]>
  (<[40 := red +:+ f +:+ reset]>
  (<[50 := bold_red +:+ f +:+ reset]> ∅)))).

(** What a format reads of a log record (no exception or stack text is
    ever attached by the script). *)
Record LogRecord : Type := { levelno : Z; levelname : string; message : string }.

(** The percent style for the two keys the formats use: a key is replaced
    by the record's field, everything else is copied.  [skip] counts the
    characters of a key still to be dropped. *)
Fixpoint percent_go (skip : nat) (fmt : string) (r : LogRecord) : string :=
  match fmt with
  | EmptyString => EmptyString
  | String c rest =>
      match skip with
      | S k => percent_go k rest r
      | O =>
          if startswith fmt "%(levelname)s" then levelname r +:+ percent_go 12 rest r
          else if startswith fmt "%(message)s" then message r +:+ percent_go 10 rest r
          else String c (percent_go 0 rest r)
      end
  end.

(** logging.Formatter(fmt).format(record); without a format the library
    uses the message alone. *)
Definition Formatter_format (fmt : option string) (r : LogRecord) : string :=
  percent_go 0 (default "%(message)s" fmt) r.

(** lines 33-36 *)
Definition format (r : LogRecord) : string :=
  let log_fmt := FORMATS !! levelno r in
  Formatter_format log_fmt r.

(** The colour of a level number, read off the table at lines 25-31. *)
Definition colour_of (no : Z) : option string :=
  if (no =? 10) || (no =? 20) then Some grey
  else if no =? 30 then Some yellow
  else if no =? 40 then Some red
  else if no =? 50 then Some bold_red
  else None.

End CustomFormatter.

(** ** What the console shows (lines 76-94)

    The verbosity flag names one of five levels (INFO when absent); it
    becomes the level of the root logger, which the script's logger, with
    no level of its own, inherits.  A call is shown when its level reaches
    that level, formatted by [CustomFormatter]. *)

Module Verbosity.
Inductive t : Type := DEBUG | INFO | WARNING | ERROR | CRITICAL.
End Verbosity.

Definition default_loglevel : Verbosity.t := Verbosity.INFO.

(** getattr(logging, args.loglevel) *)
Definition threshold (v : Verbosity.t) : Z :=
  match v with
  | Verbosity.DEBUG => 10
  | Verbosity.INFO => 20
  | Verbosity.WARNING => 30
  | Verbosity.ERROR => 40
  | Verbosity.CRITICAL => 50
  end.

Definition level_number (l : level) : Z :=
  match l with
  | DEBUG => 10
  | INFO => 20
  | WARNING => 30
  | ERROR => 40
  end.

Definition level_name (l : level) : string :=
  match l with
  | DEBUG => "DEBUG"
  | INFO => "INFO"
  | WARNING => "WARNING"
  | ERROR => "ERROR"
  end.

Definition log_record (l : level) (msg : string) : CustomFormatter.LogRecord :=
  {| CustomFormatter.levelno := level_number l;
     CustomFormatter.levelname := level_name l;
     CustomFormatter.message := msg |}.

(** The lines the handler writes for a trace, at verbosity [v]. *)
Fixpoint console (v : Verbosity.t) (tr : list event) : list string :=
  match tr with
  | [] => []
  | Log l msg :: rest =>
      if threshold v <=? level_number l
      then CustomFormatter.format (log_record l msg) :: console v rest
      else console v rest
  | _ :: rest => console v rest
  end.

(** ** Invariants of runs *)

(** What holds of the value and the world whenever [m] returns normally. *)
Definition post {A} (m : M A) (Q : A -> World -> Prop) : Prop :=
  forall (w : World) (a : A) (w' : World), m w = (Ret a, w') -> Q a w'.

Definition no_error_log (evs : list event) : Prop :=
  Forall (fun e => is_error_log e = false) evs.

(** The three messages that name a manual-install address. *)
Definition fatal_message (msg : string) : Prop :=
  msg = git_manual_url \/ msg = flutter_error \/ msg = sdkmanager_error.

(** [m] only adds to the trace; it ends by sys.exit only with status 1 and
    right after logging one of the fatal messages; it logs no error
    otherwise. *)
Definition errs_then_exits {A} (m : M A) : Prop :=
  forall w : World,
    exists evs : list event,
      trace (after m w) = trace w ++ evs /\
      match (m w).1 with
      | SysExit c =>
          c = 1 /\
          exists (evs0 : list event) (msg : string),
            evs = evs0 ++ [Log ERROR msg] /\ no_error_log evs0 /\ fatal_message msg
      | _ => no_error_log evs
      end.

Definition keeps_stdin {A} (m : M A) : Prop :=
  forall w : World, stdin (after m w) = stdin w.

Definition never_raises {A} (e : exn) (m : M A) : Prop :=
  forall w : World, (m w).1 <> Raise e.

(** [m], run from [w], only adds to the trace, and every event it adds
    satisfies [P]. *)
Definition emits_at (P : event -> Prop) {A} (m : M A) (w : World) : Prop :=
  exists evs : list event,
    trace (after m w) = trace w ++ evs /\ Forall P evs.

Definition emits (P : event -> Prop) {A} (m : M A) : Prop :=
  forall w : World, emits_at P m w.

(** No removal, no extraction, no rename. *)
Definition gentle (e : event) : Prop := unpacking_event e = false.

(** The addresses the script may fetch and the programs it may start:
    the two fixed pages; a download from the Git for Windows release path
    ending in 64-bit.exe, or of a command line tools archive from the
    repository of dl.google.com; winget with its fixed arguments, the
    shell with one of the two commands, a clone of Flutter's stable
    branch into C:\src, and a downloaded file whose name ends in
    64-bit.exe. *)
Definition allowed (e : event) : Prop :=
  match e with
  | HttpGet url => url = git_release_url \/ url = studio_url
  | UrlRetrieve url _ =>
      (exists mid : string,
         nonspace mid /\
         url = "https://github.com/git-for-windows/git/releases/download/"
               +:+ mid +:+ "64-bit.exe")
      \/ (exists (mid : string) (c : ascii),
            nonspace mid /\
            url = "https://dl.google.com/android/repository/commandlinetools-win-"
                  +:+ mid +:+ "_latest" +:+ String c "zip")
  | Subprocess argv =>
      argv = winget_argv
      \/ (exists c : pwsh_command, argv = pwsh_argv c)
      \/ (exists git : string,
            argv = [git; "clone"; "https://github.com/flutter/flutter.git";
                    "-b"; "stable"; "C:\src"])
      \/ (exists stem : string, argv = [stem +:+ "64-bit.exe"])
  | _ => True
  end.

(** The next line to be read is a yes. *)
Definition said_yes (lines : list string) : Prop :=
  exists (b : string) (rest : list string), lines = b :: rest /\ lower b = "y".

(** The next two lines to be read are both a yes. *)
Definition said_yes_twice (lines : list string) : Prop :=
  exists (a : string) (rest : list string),
    lines = a :: rest /\ lower a = "y" /\ said_yes rest.

(** [cmd] resolves at [p] on the in-memory path, which is the persisted
    one. *)
Definition resolves (cmd : string) (p : string) (w : World) : Prop :=
  which (files (host w)) (pathext w) cmd (environ_PATH w) = Some p /\
  environ_PATH w = persisted_path (host w) /\
  shell (host w) = ShellWorking.

(** ** More machines *)

Module Bench.

(** As [Lab.lab], but winget cannot be started. *)
Definition without_winget : Externals :=
  {| program := fun argv path h =>
       match argv with
       | "winget" :: _ => None
       | _ => program Lab.lab argv path h
       end;
     page_text := page_text Lab.lab;
     url_content := url_content Lab.lab;
     zip_members := zip_members Lab.lab |}.

(** As [Lab.lab], but git clone fails with status 128 and leaves the
    machine as it is. *)
Definition failing_clone : Externals :=
  {| program := fun argv path h =>
       match argv with
       | _ :: "clone" :: _ => Some (128, h)
       | _ => program Lab.lab argv path h
       end;
     page_text := page_text Lab.lab;
     url_content := url_content Lab.lab;
     zip_members := zip_members Lab.lab |}.

(** Git installed, no Flutter, an elevated process. *)
Definition host_elevated : Host :=
  Lab.host_with "C:\Windows;C:\Program Files\Git\cmd" true [Lab.git_exe].


(** As [Lab.host_dev], with a user Path one of whose entries holds a
    double quote. *)
Definition host_quoted : Host :=
  {| machine_path := machine_path Lab.host_dev;
     user_path := Some ("C:\Users\dev\bin;" +:+ quoted "D:\my tools");
     machine_writable := false; user_writable := true;
     shell := ShellWorking; files := files Lab.host_dev |}.

(** As [Lab.host_dev], on an account that has no Path value of its own. *)
Definition host_no_user_path : Host :=
  {| machine_path := machine_path Lab.host_dev; user_path := None;
     machine_writable := false; user_writable := true;
     shell := ShellWorking; files := files Lab.host_dev |}.

End Bench.

(* ================================================================== *)
(** * Part II: properties                                              *)
(* ================================================================== *)

(** ** Strings *)

Lemma app_cons (c : ascii) (s t : string) :
  String c s +:+ t = String c (s +:+ t).
Proof. reflexivity. Qed.

Lemma app_empty_l (s : string) : EmptyString +:+ s = s.
Proof. reflexivity. Qed.

Lemma app_assoc_s (a b c : string) : (a +:+ b) +:+ c = a +:+ (b +:+ c).
Proof.
  induction a as [|x a IH]; [reflexivity|].
  rewrite !app_cons, IH. reflexivity.
Qed.

Lemma app_nil_r_s (s : string) : s +:+ EmptyString = s.
Proof. induction s as [|c s IH]; [reflexivity|]. rewrite app_cons, IH. reflexivity. Qed.

Lemma split_nonempty (sep : ascii) (s : string) : split sep s <> [].
Proof.
  induction s as [|c s IH]; simpl; [discriminate|].
  destruct (Ascii.eqb c sep); [discriminate|].
  destruct (split sep s); [contradiction | discriminate].
Qed.

(** Splitting a value that has a separator in the middle splits both
    sides, in order. *)
Lemma split_app (sep : ascii) (a b : string) :
  split sep (a +:+ String sep b) = split sep a ++ split sep b.
Proof.
  induction a as [|c a IH].
  - rewrite app_empty_l. simpl. rewrite Ascii.eqb_refl. reflexivity.
  - rewrite app_cons. simpl. rewrite IH.
    destruct (Ascii.eqb c sep); [reflexivity|].
    pose proof (split_nonempty sep a) as Hne.
    destruct (split sep a); [contradiction | reflexivity].
Qed.

(** A value without separator is one entry. *)
Lemma split_single (sep : ascii) (s : string) :
  Forall (fun c => Ascii.eqb c sep = false) (list_ascii_of_string s) ->
  split sep s = [s].
Proof.
  induction s as [|c s IH]; intros H; [reflexivity|].
  simpl in H. inversion H as [|? ? Hc Hs]; subst.
  simpl. rewrite Hc, (IH Hs). reflexivity.
Qed.

(** ** The search finds exactly what the pattern denotes *)

Lemma re_search_unfold (p : pattern) (text : string) :
  re_search p text =
    match match_at p text with
    | Some m => Some m
    | None =>
        match text with
        | EmptyString => None
        | String _ t => re_search p t
        end
    end.
Proof. destruct text; reflexivity. Qed.

Lemma match_atoms_sound (p : list atom) (s x rest : string) :
  match_atoms p s = Some (x, rest) -> s = x +:+ rest /\ atoms_denote p x.
Proof.
  revert s x rest. induction p as [|a p IH]; intros s x rest H.
  - simpl in H. injection H as <- <-. split; [reflexivity | constructor].
  - destruct s as [|c s]; simpl in H; [discriminate|].
    destruct (atom_ok a c) eqn:Ha; [|discriminate].
    destruct (match_atoms p s) as [[m r]|] eqn:Hm; [|discriminate].
    injection H as <- <-. destruct (IH _ _ _ Hm) as [-> Hd].
    split; [reflexivity|]. unfold atoms_denote. simpl. constructor; assumption.
Qed.

Lemma match_atoms_complete (p : list atom) (x rest : string) :
  atoms_denote p x -> match_atoms p (x +:+ rest) = Some (x, rest).
Proof.
  revert x. induction p as [|a p IH]; intros x H.
  - destruct x; [reflexivity | inversion H].
  - destruct x as [|c x]; [inversion H|].
    unfold atoms_denote in H. simpl in H. inversion H as [|? ? ? ? Hc Hx]; subst.
    rewrite app_cons. simpl. rewrite Hc, (IH x Hx). reflexivity.
Qed.

Lemma match_suffix_sound (suf : list atom) (s m : string) :
  match_suffix suf s = Some m -> (exists b, s = m +:+ b) /\ atoms_denote suf m.
Proof.
  unfold match_suffix. destruct (match_atoms suf s) as [[x r]|] eqn:H; [|discriminate].
  intros [= <-]. destruct (match_atoms_sound _ _ _ _ H) as [-> Hd].
  split; [exists r; reflexivity | assumption].
Qed.

Lemma nonspace_then_sound (suf : list atom) (s m : string) :
  nonspace_then suf s = Some m ->
  exists mid y b, m = mid +:+ y /\ s = m +:+ b /\ nonspace mid /\ atoms_denote suf y.
Proof.
  revert m. induction s as [|c s IH]; intros m H.
  - simpl in H. destruct (match_suffix_sound _ _ _ H) as [[b Hb] Hd].
    exists EmptyString, m, b. repeat split; [assumption | constructor | assumption].
  - simpl in H.
    assert (Hfall : match_suffix suf (String c s) = Some m ->
      exists mid y b, m = mid +:+ y /\ String c s = m +:+ b /\ nonspace mid /\ atoms_denote suf y).
    { intros H'. destruct (match_suffix_sound _ _ _ H') as [[b Hb] Hd].
      exists EmptyString, m, b. repeat split; [assumption | constructor | assumption]. }
    destruct (is_space c) eqn:Hc; [exact (Hfall H)|].
    destruct (nonspace_then suf s) as [m'|] eqn:Hm; [|exact (Hfall H)].
    injection H as <-. destruct (IH _ eq_refl) as (mid & y & b & -> & -> & Hmid & Hy).
    exists (String c mid), y, b. repeat split; [|assumption].
    unfold nonspace. simpl. constructor; assumption.
Qed.

Lemma nonspace_then_complete (suf : list atom) (mid y b : string) :
  nonspace mid -> atoms_denote suf y ->
  nonspace_then suf (mid +:+ y +:+ b) <> None.
Proof.
  intros Hmid Hy.
  assert (Hfall : forall s, match_suffix suf (y +:+ s) <> None).
  { intros s. unfold match_suffix. rewrite (match_atoms_complete _ _ s Hy). discriminate. }
  induction mid as [|c mid IH].
  - rewrite app_empty_l. destruct (y +:+ b) as [|c s] eqn:E.
    + simpl. rewrite <- E. apply Hfall.
    + simpl. destruct (is_space c); [rewrite <- E; apply Hfall|].
      destruct (nonspace_then suf s); [discriminate | rewrite <- E; apply Hfall].
  - unfold nonspace in Hmid. simpl in Hmid. inversion Hmid as [|? ? Hc Hrest]; subst.
    rewrite app_cons. simpl. rewrite Hc.
    specialize (IH Hrest). destruct (nonspace_then suf (mid +:+ y +:+ b)); [discriminate | contradiction].
Qed.

Lemma match_at_sound (p : pattern) (s m : string) :
  match_at p s = Some m -> (exists b, s = m +:+ b) /\ matches p m.
Proof.
  unfold match_at.
  destruct (match_atoms (pat_pre p) s) as [[x rest]|] eqn:Hx; [|discriminate].
  destruct (nonspace_then (pat_suf p) rest) as [m'|] eqn:Hm; [|discriminate].
  intros [= <-].
  destruct (match_atoms_sound _ _ _ _ Hx) as [-> Hdx].
  destruct (nonspace_then_sound _ _ _ Hm) as (mid & y & b & -> & -> & Hmid & Hy).
  split.
  - exists b. symmetry. apply app_assoc_s.
  - exists x, mid, y. repeat split; assumption.
Qed.

Lemma match_at_complete (p : pattern) (m b : string) :
  matches p m -> match_at p (m +:+ b) <> None.
Proof.
  intros (x & mid & y & -> & Hx & Hmid & Hy). unfold match_at.
  rewrite !app_assoc_s. rewrite (match_atoms_complete _ _ _ Hx).
  pose proof (nonspace_then_complete (pat_suf p) mid y b Hmid Hy) as H.
  destruct (nonspace_then (pat_suf p) (mid +:+ y +:+ b)); [discriminate | contradiction].
Qed.

(** What the search returns is a substring of the text that the pattern
    denotes. *)
Lemma re_search_sound (p : pattern) (text m : string) :
  re_search p text = Some m ->
  exists a b, text = a +:+ m +:+ b /\ matches p m.
Proof.
  induction text as [|c t IH]; rewrite re_search_unfold.
  - destruct (match_at p EmptyString) as [m'|] eqn:H; [|discriminate].
    intros [= <-]. destruct (match_at_sound _ _ _ H) as [[b Hb] Hm].
    exists EmptyString, b. split; assumption.
  - destruct (match_at p (String c t)) as [m'|] eqn:H.
    + intros [= <-]. destruct (match_at_sound _ _ _ H) as [[b Hb] Hm].
      exists EmptyString, b. split; assumption.
    + intros H'. destruct (IH H') as (a & b & -> & Hm).
      exists (String c a), b. split; [reflexivity | assumption].
Qed.

(** The search fails exactly when no substring of the text is denoted by
    the pattern. *)
Lemma re_search_None_iff (p : pattern) (text : string) :
  re_search p text = None <-> ~ has_match p text.
Proof.
  split.
  - intros Hnone (a & m & b & -> & Hm).
    induction a as [|c a IH]; rewrite re_search_unfold in Hnone.
    + rewrite app_empty_l in Hnone.
      pose proof (match_at_complete p m b Hm) as Hc.
      destruct (match_at p (m +:+ b)); [discriminate | contradiction].
    + rewrite app_cons in Hnone.
      destruct (match_at p (String c (a +:+ m +:+ b))); [discriminate|].
      apply IH. exact Hnone.
  - intros Hno. destruct (re_search p text) as [m|] eqn:H; [|reflexivity].
    exfalso. apply Hno. destruct (re_search_sound _ _ _ H) as (a & b & E & Hm).
    exists a, m, b. split; assumption.
Qed.

(** ** The shell on the script's two commands *)

Lemma lex_run_app (st : lex_state) (a b : string) :
  lex_run st (a +:+ b) =
    match lex_run st a with
    | Some (ts, st') =>
        match lex_run st' b with
        | Some (ts', st'') => Some (ts ++ ts', st'')
        | None => None
        end
    | None => None
    end.
Proof.
  revert st. induction a as [|c a IH]; intros st.
  - rewrite app_empty_l. cbn [lex_run]. destruct (lex_run st b) as [[ts st']|]; reflexivity.
  - rewrite app_cons. cbn [lex_run].
    destruct (lex_step st c) as [[ts st']|]; [|reflexivity].
    rewrite IH. destruct (lex_run st' a) as [[ts1 st1]|]; [|reflexivity].
    destruct (lex_run st1 b) as [[ts2 st2]|]; [|reflexivity].
    rewrite app_assoc. reflexivity.
Qed.

(** Inside a double-quoted string a plain value is read as it is
    written. *)
Lemma lex_run_plain (s acc : string) :
  is_plain s = true -> lex_run (InString acc) s = Some ([], InString (acc +:+ s)).
Proof.
  revert acc. induction s as [|c s IH]; intros acc H.
  - rewrite app_nil_r_s. reflexivity.
  - cbn [is_plain] in H. apply andb_prop in H as [Hc Hs].
    cbn [lex_run lex_step]. unfold in_string.
    unfold plain_char in Hc. apply negb_true_iff in Hc.
    apply orb_false_elim in Hc as [Hc H3]. apply orb_false_elim in Hc as [H1 H2].
    rewrite H1, H2, H3, (IH _ Hs). unfold snoc. rewrite app_assoc_s. reflexivity.
Qed.

Lemma is_plain_app (a b : string) :
  is_plain (a +:+ b) = is_plain a && is_plain b.
Proof.
  induction a as [|c a IH]; [reflexivity|].
  rewrite app_cons. cbn [is_plain]. rewrite IH, andb_assoc. reflexivity.
Qed.

Lemma pwsh_text_set (v : string) (sc : PathScope) :
  pwsh_text (SetPath v sc) = set_prefix +:+ v +:+ set_suffix sc.
Proof.
  change (pwsh_text (SetPath v sc))
    with (set_prefix +:+ (v +:+ dq) +:+ ", [System.EnvironmentVariableTarget]::"
          +:+ scope_name sc +:+ ")").
  rewrite app_assoc_s. reflexivity.
Qed.

(** The text of a write with a plain value is read as the call it is
    meant to be, with the value as its second argument. *)
Lemma ps_parse_set (v : string) (sc : PathScope) :
  is_plain v = true ->
  ps_parse (pwsh_text (SetPath v sc)) =
    Some (SExpr (ECall "Environment" "SetEnvironmentVariable"
                   [EString "Path"; EString v;
                    EMember "System.EnvironmentVariableTarget" (scope_name sc)])).
Proof.
  intros Hv. rewrite pwsh_text_set. unfold ps_parse, lex.
  rewrite lex_run_app.
  change (lex_run Between set_prefix)
    with (Some ([TLBracket; TWord "Environment"; TRBracket; TStatic;
                 TWord "SetEnvironmentVariable"; TLParen; TString "Path"; TComma],
                InString EmptyString)).
  cbv beta iota.
  rewrite lex_run_app, (lex_run_plain _ _ Hv), app_empty_l.
  destruct sc; reflexivity.
Qed.

Lemma eval_plus (h : Host) (a b : ps_expr) :
  eval h (EPlus a b) =
    match eval h a, eval h b with
    | Some x, Some y => plus x y
    | _, _ => None
    end.
Proof. reflexivity. Qed.

Lemma eval_getenv (h : Host) (ty : string) (sc : PathScope) :
  is_type "environment" ty = true ->
  eval h (ECall ty "GetEnvironmentVariable" [EString "Path"; EString (scope_name sc)]) =
    Some (match persisted sc h with
          | Some v => VString v
          | None => VNull
          end).
Proof.
  intros Hty. cbn [eval map]. rewrite Hty.
  change (String.eqb (lower "GetEnvironmentVariable") "getenvironmentvariable") with true.
  change (String.eqb (lower "Path") "path") with true.
  cbn [andb].
  replace (as_target (VString (scope_name sc))) with (Some sc) by (destruct sc; reflexivity).
  reflexivity.
Qed.

(** A write with a plain value that is not empty: the value is stored as
    it is, if the scope can be written. *)
Lemma powershell_set (v : string) (sc : PathScope) (h : Host) :
  is_plain v = true -> v <> EmptyString ->
  powershell (pwsh_text (SetPath v sc)) h =
    if writable sc h
    then ({| returncode := 0; stdout := EmptyString |}, store sc v h)
    else failed h.
Proof.
  intros Hv Hne. unfold powershell. rewrite (ps_parse_set _ _ Hv).
  cbn [run_statement].
  change (is_type "environment" "Environment" &&
          String.eqb (lower "SetEnvironmentVariable") "setenvironmentvariable") with true.
  cbv iota.
  change (eval h (EString "Path")) with (Some (VString "Path")).
  change (eval h (EString v)) with (Some (VString v)).
  replace (eval h (EMember "System.EnvironmentVariableTarget" (scope_name sc)))
    with (Some (VTarget sc)) by (destruct sc; reflexivity).
  cbv iota. unfold set_variable. cbn [as_target].
  change (String.eqb (lower "Path") "path") with true. cbn [andb].
  destruct (writable sc h); [|reflexivity].
  destruct (String.eqb_spec v EmptyString) as [E|_]; [contradiction | reflexivity].
Qed.

(** The refresh command, read from its text: the Machine value, a
    semicolon, the User value, and the end of the line. *)
Lemma powershell_echo (h : Host) :
  powershell (pwsh_text EchoPath) h =
    ({| returncode := 0; stdout := persisted_path h |}, h).
Proof.
  unfold powershell.
  change (ps_parse (pwsh_text EchoPath))
    with (Some (SEcho
            (EPlus
               (EPlus
                  (ECall "System.Environment" "GetEnvironmentVariable"
                     [EString "Path"; EString (scope_name Machine)])
                  (EString ";"))
               (ECall "System.Environment" "GetEnvironmentVariable"
                  [EString "Path"; EString (scope_name User)])))).
  cbn [run_statement].
  rewrite !eval_plus, !eval_getenv by reflexivity.
  change (eval h (EString ";")) with (Some (VString ";")).
  unfold persisted_path, getenv.
  destruct (persisted Machine h) as [m|], (persisted User h) as [u|];
    cbn [plus print default]; rewrite ?app_assoc_s, ?app_empty_l; reflexivity.
Qed.

Lemma append_value_plain (v dir : string) :
  is_plain v = true -> is_plain dir = true -> is_plain (v +:+ ";" +:+ dir) = true.
Proof.
  intros Hv Hd. rewrite is_plain_app, Hv. cbn [andb].
  change (";" +:+ dir) with (String ";" dir). cbn [is_plain]. rewrite Hd. reflexivity.
Qed.

Lemma append_value_not_empty (v dir : string) : v +:+ ";" +:+ dir <> EmptyString.
Proof. destruct v; [rewrite app_empty_l | rewrite app_cons]; discriminate. Qed.

(** ** Looking a command up *)

Lemma scan_app (fs : gmap string node) (names l1 l2 : list string) :
  scan fs names (l1 ++ l2) =
    match scan fs names l1 with
    | Some p => Some p
    | None => scan fs names l2
    end.
Proof.
  induction l1 as [|d l1 IH]; [reflexivity|].
  simpl. destruct (find_in_dir fs d names); [reflexivity | exact IH].
Qed.

Lemma which_empty_path (fs : gmap string node) (pathext : list string) (cmd : string) :
  which fs pathext cmd EmptyString = None.
Proof. reflexivity. Qed.

Lemma persisted_path_dirs (h : Host) :
  split ";" (persisted_path h) =
    split ";" (getenv Machine h) ++ split ";" (getenv User h +:+ eol).
Proof. unfold persisted_path. apply (split_app ";"%char). Qed.

Lemma persisted_path_not_empty (h : Host) :
  String.eqb (persisted_path h) EmptyString = false.
Proof. unfold persisted_path. destruct (getenv Machine h); reflexivity. Qed.

(** A hit in a Machine directory is what the lookup returns, whatever the
    User value holds, as long as the current directory has no hit. *)
Lemma which_machine_first (h : Host) (pathext : list string) (cmd p : string) :
  find_in_dir (files h) curdir (candidates pathext cmd) = None ->
  scan (files h) (candidates pathext cmd) (split ";" (getenv Machine h)) = Some p ->
  which (files h) pathext cmd (persisted_path h) = Some p.
Proof.
  intros Hcur Hm. unfold which.
  rewrite persisted_path_not_empty, persisted_path_dirs.
  assert (Hscan : scan (files h) (candidates pathext cmd)
            (split ";" (getenv Machine h) ++ split ";" (getenv User h +:+ eol)) = Some p).
  { rewrite scan_app, Hm. reflexivity. }
  destruct (existsb _ _); [exact Hscan|].
  simpl. rewrite Hcur. exact Hscan.
Qed.

(** ** Running the script step by step *)

Lemma bind_Ret {A B} (m : M A) (k : A -> M B) (w w' : World) (a : A) :
  m w = (Ret a, w') -> bind m k w = k a w'.
Proof. intros H. unfold bind. rewrite H. reflexivity. Qed.

Lemma bind_SysExit {A B} (m : M A) (k : A -> M B) (w w' : World) (c : Z) :
  m w = (SysExit c, w') -> bind m k w = (SysExit c, w').
Proof. intros H. unfold bind. rewrite H. reflexivity. Qed.

Lemma bind_Raise {A B} (m : M A) (k : A -> M B) (w w' : World) (e : exn) :
  m w = (Raise e, w') -> bind m k w = (Raise e, w').
Proof. intros H. unfold bind. rewrite H. reflexivity. Qed.

Lemma logger_eq (l : level) (msg : string) (w : World) :
  logger l msg w = (Ret tt, record (Log l msg) w).
Proof. reflexivity. Qed.

Lemma shutil_which_eq (cmd : string) (w : World) :
  shutil_which cmd w =
    (Ret (which (files (host w)) (pathext w) cmd (environ_PATH w)), w).
Proof. reflexivity. Qed.

Lemma run_pwsh_eq (c : pwsh_command) (w : World) (cp : CompletedProcess) (h : Host) :
  pwsh c (host w) = Some (cp, h) ->
  run_pwsh c w = (Ret cp, with_host h (record (Subprocess (pwsh_argv c)) w)).
Proof. intros H. unfold run_pwsh. cbn [host record]. rewrite H. reflexivity. Qed.

Lemma update_path_eq (w : World) (cp : CompletedProcess) (h : Host) :
  pwsh EchoPath (host w) = Some (cp, h) ->
  update_path w = (Ret tt, with_PATH (stdout cp) (with_host h (record refresh w))).
Proof.
  intros H. unfold update_path.
  rewrite (bind_Ret _ _ _ _ _ (run_pwsh_eq _ _ _ _ H)). reflexivity.
Qed.

Lemma pwsh_echo_working (h : Host) :
  shell h = ShellWorking ->
  pwsh EchoPath h = Some ({| returncode := 0; stdout := persisted_path h |}, h).
Proof. intros H. unfold pwsh. rewrite H, powershell_echo. reflexivity. Qed.

Lemma update_path_working (w : World) :
  shell (host w) = ShellWorking ->
  update_path w =
    (Ret tt, with_PATH (persisted_path (host w)) (with_host (host w) (record refresh w))).
Proof. intros H. apply (update_path_eq w _ _ (pwsh_echo_working _ H)). Qed.

Lemma input_eq (prompt a : string) (rest : list string) (w : World) :
  stdin w = a :: rest ->
  input prompt w = (Ret a, with_stdin rest (record (Input prompt) w)).
Proof. intros H. unfold input. cbn [stdin record]. rewrite H. reflexivity. Qed.

Lemma winreg_query_path_eq (sc : PathScope) (v : string) (w : World) :
  persisted sc (host w) = Some v ->
  winreg_query_path sc w = (Ret v, record (RegQuery sc) w).
Proof. intros H. unfold winreg_query_path. cbn [host record]. rewrite H. reflexivity. Qed.

Lemma path_exists_eq (p : string) (w : World) :
  path_exists p w = (Ret (is_Some_bool (lookup_node (files (host w)) p)), w).
Proof. reflexivity. Qed.

Lemma subprocess_run_eq (X : Externals) (argv : list string) (w : World)
    (rc : Z) (h : Host) :
  program X argv (environ_PATH w) (host w) = Some (rc, h) ->
  subprocess_run X argv w = (Ret rc, with_host h (record (Subprocess argv) w)).
Proof. intros H. unfold subprocess_run. cbn [host environ_PATH record]. rewrite H. reflexivity. Qed.

Lemma requests_get_eq (X : Externals) (url text : string) (w : World) :
  page_text X url = Some text ->
  requests_get X url w = (Ret text, record (HttpGet url) w).
Proof. intros H. unfold requests_get. rewrite H. reflexivity. Qed.

Lemma urlretrieve_eq (X : Externals) (url filename bytes : string) (w : World) :
  url_content X url = Some bytes ->
  urlretrieve X url filename w =
    (Ret tt,
     with_host (with_files (write_node (files (host w)) filename (File bytes)) (host w))
       (record (UrlRetrieve url filename) w)).
Proof. intros H. unfold urlretrieve. rewrite H. reflexivity. Qed.

Lemma and_which_eq (a : bool) (cmd : string) (w : World) :
  and_which a cmd w =
    (Ret (a && is_Some_bool (which (files (host w)) (pathext w) cmd (environ_PATH w))), w).
Proof. destruct a; reflexivity. Qed.

Lemma world_ext (a b : World) :
  host a = host b -> environ_PATH a = environ_PATH b -> pathext a = pathext b ->
  localappdata a = localappdata b -> stdin a = stdin b -> trace a = trace b ->
  a = b.
Proof. destruct a, b. cbn. intros. subst. reflexivity. Qed.

(** One step of a run: rewrite the first bind with the equation [tac]
    proves for its first computation. *)
Ltac wsimpl :=
  cbn [host environ_PATH pathext localappdata stdin trace
       record with_host with_PATH with_stdin evolve fst snd].

Ltac step_with tac := erewrite bind_Ret by tac; cbv beta; wsimpl.

Ltac step :=
  step_with ltac:(first
    [ apply logger_eq | apply shutil_which_eq | apply and_which_eq
    | apply path_exists_eq
    | apply update_path_working; wsimpl; eassumption
    | apply input_eq; wsimpl; eassumption
    | apply winreg_query_path_eq; wsimpl; eassumption
    | apply subprocess_run_eq; wsimpl; eassumption
    | apply requests_get_eq; eassumption
    | apply urlretrieve_eq; eassumption ]).

(** Two worlds built by the same updates in a different grouping are
    compared field by field. *)
Ltac same_world :=
  unfold ret, sys_exit, logger, emit;
  lazymatch goal with
  | |- (_, _) = (_, _) => f_equal
  | _ => idtac
  end;
  apply world_ext; wsimpl; repeat rewrite <- app_assoc; reflexivity.

(** ** Detection first: the required tools *)

(** C1, as amended: for the two required tools, Git and the Flutter SDK, a
    tool whose executable resolves on the freshly refreshed search path is
    reported present at once.  Its run is the refresh between two log
    lines: no installation strategy is attempted, no process other than
    the refresh's own shell is started, nothing is fetched, and the
    machine (persisted environment and files) is left as it was. *)
Theorem C1_required_tool_already_present (X : Externals) (git_path : option string)
    (t : required_tool) (w : World) (p : string) :
  shell (host w) = ShellWorking ->
  which (files (host w)) (pathext w) (executable t) (persisted_path (host w)) = Some p ->
  ensure X git_path t w =
    (Ret (Some p),
     evolve w (host w) (persisted_path (host w)) (stdin w)
       [Log INFO (checking_message t); refresh; Log INFO (present_message t)]).
Proof.
  intros Hs Hw. destruct t; cbn [ensure executable checking_message present_message] in *.
  - unfold ensure_git. step. step. step. rewrite Hw. cbn [is_Some_bool].
    step. step. rewrite Hw. same_world.
  - unfold ensure_flutter. step. step. step. rewrite Hw. cbn [is_Some_bool].
    step. step. rewrite Hw. same_world.
Qed.

Lemma C1_required_tool_already_present_witness :
  ensure Lab.lab None Flutter (Lab.world_of Lab.host_full ["y"]) =
    (Ret (Some "C:\src\flutter\bin\flutter.BAT"),
     evolve (Lab.world_of Lab.host_full ["y"]) Lab.host_full
       (persisted_path Lab.host_full) ["y"]
       [Log INFO "Checking for Flutter..."; refresh;
        Log INFO "Flutter SDK is already installed, skipping..."]).
Proof.
  apply (C1_required_tool_already_present Lab.lab None Flutter
           (Lab.world_of Lab.host_full ["y"]) "C:\src\flutter\bin\flutter.BAT").
  - reflexivity.
  - vm_compute. reflexivity.
Defined.

(** C1 as stated fails for the third tool: the Android flow has no
    detection step.  With sdkmanager.bat resolving on the refreshed path
    and the user answering y, the run still fetches the page, downloads
    the archive and writes the user's Path. *)
Lemma C1_counterexample :
  which (files Lab.host_full) Lab.pathext_default "sdkmanager.bat"
    (persisted_path Lab.host_full) = Some "C:\Android\bin\sdkmanager.bat"
  /\ filter (fun e => Is_true (strategy_event e))
       (trace (after (main Lab.lab) (Lab.world_of Lab.host_full ["y"; EmptyString]))) =
     [HttpGet studio_url;
      UrlRetrieve
        "https://dl.google.com/android/repository/commandlinetools-win-11076708_latest.zip"
        "commandlinetools-win-11076708_latest.zip";
      Mkdir "C:\Users\dev\AppData\Local\Android\Sdk";
      Subprocess
        (pwsh_argv
           (SetPath
              "C:\Users\dev\bin;%LocalAppData%\Android\Sdk\cmdline-tools\latest\bin"
              User))].
Proof. split; vm_compute; reflexivity. Qed.

(** ** The refresh *)




(** C10: a refresh replaces the in-memory PATH by the captured output of
    the shell command, whatever that output is.  With a working shell the
    output is the Machine value, a semicolon, the User value and the line
    terminator that echo adds after it.  With a shell that fails the output
    is empty, the PATH becomes the empty string, and every lookup on it
    finds nothing. *)
Theorem C10_refresh_takes_stdout_verbatim (w : World) (cp : CompletedProcess) (h : Host) :
  pwsh EchoPath (host w) = Some (cp, h) ->
  update_path w = (Ret tt, evolve w h (stdout cp) (stdin w) [refresh])
  /\ match shell (host w) with
     | ShellWorking =>
         stdout cp = getenv Machine (host w) +:+ ";" +:+ getenv User (host w) +:+ eol
     | ShellFailing =>
         stdout cp = EmptyString /\
         forall cmd : string,
           shutil_which cmd (evolve w h (stdout cp) (stdin w) [refresh]) =
             (Ret None, evolve w h (stdout cp) (stdin w) [refresh])
     | ShellMissing => False
     end.
Proof.
  intros H. split.
  - rewrite (update_path_eq _ _ _ H). same_world.
  - unfold pwsh in H. destruct (shell (host w)).
    + discriminate.
    + injection H as <- <-. split; [reflexivity|]. intros cmd. reflexivity.
    + rewrite powershell_echo in H. injection H as <- <-. reflexivity.
Qed.

Lemma C10_refresh_takes_stdout_verbatim_witness :
  (update_path (Lab.world_of Lab.host_broken_shell []) =
     (Ret tt, evolve (Lab.world_of Lab.host_broken_shell []) Lab.host_broken_shell
                EmptyString [] [refresh])
   /\ forall cmd : string,
        shutil_which cmd
          (evolve (Lab.world_of Lab.host_broken_shell []) Lab.host_broken_shell
             EmptyString [] [refresh]) =
        (Ret None,
         evolve (Lab.world_of Lab.host_broken_shell []) Lab.host_broken_shell
           EmptyString [] [refresh]))
  /\ environ_PATH (after update_path (Lab.world_of Lab.host_dev [])) =
       "C:\Windows;C:\Program Files\Git\cmd;C:\src\flutter\bin;C:\Users\dev\bin" +:+ eol.
Proof.
  split.
  - pose proof (C10_refresh_takes_stdout_verbatim
                  (Lab.world_of Lab.host_broken_shell [])
                  {| returncode := 1; stdout := EmptyString |}
                  Lab.host_broken_shell eq_refl) as [Hrun [_ Hnone]].
    split; [exact Hrun | exact Hnone].
  - pose proof (C10_refresh_takes_stdout_verbatim
                  (Lab.world_of Lab.host_dev [])
                  {| returncode := 0; stdout := persisted_path Lab.host_dev |}
                  Lab.host_dev eq_refl) as [Hrun _].
    unfold after. rewrite Hrun. reflexivity.
Defined.

(** ** Writing the persisted Path *)

Lemma persisted_store (sc : PathScope) (v : string) (h : Host) :
  persisted sc (store sc v h) = Some v.
Proof. destruct sc; reflexivity. Qed.

Lemma writable_store (sc : PathScope) (v : string) (h : Host) :
  writable sc (store sc v h) = writable sc h.
Proof. destruct sc; reflexivity. Qed.

Lemma shell_store (sc : PathScope) (v : string) (h : Host) :
  shell (store sc v h) = shell h.
Proof. destruct sc; reflexivity. Qed.

(** A successful append stores the old value, a semicolon and the
    directory, when the shell reads both as they are written. *)
Lemma append_path_ok (sc : PathScope) (dir v : string) (w : World) :
  shell (host w) = ShellWorking ->
  writable sc (host w) = true ->
  persisted sc (host w) = Some v ->
  is_plain v = true ->
  is_plain dir = true ->
  append_path sc dir w =
    (Ret {| returncode := 0; stdout := EmptyString |},
     evolve w (store sc (v +:+ ";" +:+ dir) (host w)) (environ_PATH w) (stdin w)
       [RegQuery sc; Subprocess (pwsh_argv (SetPath (v +:+ ";" +:+ dir) sc))]).
Proof.
  intros Hs Hw Hv Hpv Hpd. unfold append_path. step.
  erewrite run_pwsh_eq.
  2:{ wsimpl. unfold pwsh. rewrite Hs.
      rewrite powershell_set
        by (apply append_value_plain || apply append_value_not_empty; assumption).
      rewrite Hw. reflexivity. }
  same_world.
Qed.

Lemma occurrences_append (dir v : string) :
  Forall (fun c => Ascii.eqb c ";" = false) (list_ascii_of_string dir) ->
  occurrences dir (v +:+ ";" +:+ dir) = S (occurrences dir v).
Proof.
  intros Hdir. unfold occurrences.
  change (v +:+ ";" +:+ dir) with (v +:+ String ";" dir).
  rewrite split_app, (split_single _ _ Hdir), count_occ_app.
  cbn [count_occ]. destruct (String.string_dec dir dir); [lia | contradiction].
Qed.

(** C5, as amended: an append does not look for the directory in the
    stored value.  Take a scope that has a Path value and can be written,
    a working shell, and a value and a directory that the shell reads as
    they are written (no double quote, dollar sign or backtick).  Each
    call stores the previous value followed by a semicolon and the
    directory, so after two calls with the same directory the entries of
    the stored value are the old entries followed by the directory twice;
    when the directory is one entry (no semicolon), the stored value
    holds two more occurrences of it than before. *)
Theorem C5_append_adds_each_time (sc : PathScope) (dir v : string) (w : World) :
  shell (host w) = ShellWorking ->
  writable sc (host w) = true ->
  persisted sc (host w) = Some v ->
  is_plain v = true ->
  is_plain dir = true ->
  persisted sc (host (after (append_path sc dir) w)) = Some (v +:+ ";" +:+ dir)
  /\ persisted sc (host (after (append_path sc dir) (after (append_path sc dir) w))) =
       Some ((v +:+ ";" +:+ dir) +:+ ";" +:+ dir)
  /\ split ";" ((v +:+ ";" +:+ dir) +:+ ";" +:+ dir) =
       split ";" v ++ split ";" dir ++ split ";" dir
  /\ (Forall (fun c => Ascii.eqb c ";" = false) (list_ascii_of_string dir) ->
      occurrences dir ((v +:+ ";" +:+ dir) +:+ ";" +:+ dir) = (occurrences dir v + 2)%nat).
Proof.
  intros Hs Hw Hv Hpv Hpd.
  assert (H1 := append_path_ok sc dir v w Hs Hw Hv Hpv Hpd).
  assert (E1 : after (append_path sc dir) w =
               evolve w (store sc (v +:+ ";" +:+ dir) (host w)) (environ_PATH w) (stdin w)
                 [RegQuery sc; Subprocess (pwsh_argv (SetPath (v +:+ ";" +:+ dir) sc))]).
  { unfold after. rewrite H1. reflexivity. }
  split; [rewrite E1; wsimpl; apply persisted_store|].
  split.
  { rewrite E1. unfold after at 1.
    erewrite append_path_ok.
    - wsimpl. apply persisted_store.
    - wsimpl. rewrite shell_store. exact Hs.
    - wsimpl. rewrite writable_store. exact Hw.
    - wsimpl. apply persisted_store.
    - apply append_value_plain; assumption.
    - exact Hpd. }
  split.
  - change ((v +:+ ";" +:+ dir) +:+ ";" +:+ dir)
      with ((v +:+ String ";" dir) +:+ String ";" dir).
    rewrite !split_app, <- app_assoc. reflexivity.
  - intros Hdir. rewrite !occurrences_append by exact Hdir. lia.
Qed.

Lemma C5_append_adds_each_time_witness :
  persisted User (host (after (append_path User "D:\tools") (Lab.world_of Lab.host_dev []))) =
    Some ("C:\Users\dev\bin" +:+ ";" +:+ "D:\tools")
  /\ persisted User
       (host (after (append_path User "D:\tools")
                (after (append_path User "D:\tools") (Lab.world_of Lab.host_dev [])))) =
       Some (("C:\Users\dev\bin" +:+ ";" +:+ "D:\tools") +:+ ";" +:+ "D:\tools")
  /\ split ";" (("C:\Users\dev\bin" +:+ ";" +:+ "D:\tools") +:+ ";" +:+ "D:\tools") =
       split ";" "C:\Users\dev\bin" ++ split ";" "D:\tools" ++ split ";" "D:\tools"
  /\ occurrences "D:\tools" (("C:\Users\dev\bin" +:+ ";" +:+ "D:\tools") +:+ ";" +:+ "D:\tools") =
       (occurrences "D:\tools" "C:\Users\dev\bin" + 2)%nat.
Proof.
  destruct (C5_append_adds_each_time User "D:\tools" "C:\Users\dev\bin"
              (Lab.world_of Lab.host_dev []))
    as (H1 & H2 & H3 & H4).
  - reflexivity.
  - reflexivity.
  - reflexivity.
  - reflexivity.
  - reflexivity.
  - split; [exact H1|]. split; [exact H2|]. split; [exact H3|].
    apply H4. vm_compute. repeat constructor.
Defined.

(** C5 as stated fails: after two appends of the same directory the stored
    value holds it twice, not once. *)
Lemma C5_counterexample :
  persisted User
    (host (after (append_path User "D:\tools")
             (after (append_path User "D:\tools") (Lab.world_of Lab.host_dev [])))) =
    Some "C:\Users\dev\bin;D:\tools;D:\tools"
  /\ occurrences "D:\tools" "C:\Users\dev\bin;D:\tools;D:\tools" = 2%nat.
Proof. split; vm_compute; reflexivity. Qed.

(** Why the value has to be plain: with a double quote in the stored
    value the text of the write is no longer one call, the shell rejects
    it, nothing is stored, and the script logs its warning. *)
Example append_of_a_quoted_value_fails :
  (let* path_update := append_path User "D:\tools" in report_path_update path_update)
    (Lab.world_of Bench.host_quoted []) =
    (Ret tt,
     evolve (Lab.world_of Bench.host_quoted []) Bench.host_quoted EmptyString []
       [RegQuery User;
        Subprocess
          (pwsh_argv
             (SetPath (("C:\Users\dev\bin;" +:+ quoted "D:\my tools") +:+ ";" +:+ "D:\tools")
                User));
        Log WARNING path_update_warning]).
Proof. vm_compute. reflexivity. Qed.

(** C9: when the command that writes the persisted Path ends with a
    non-zero status, the script logs a warning that asks for a manual
    update and goes on: the write is attempted once, the step returns
    normally, and whatever follows it in the run ([k]) is run next.  This
    is the code at both places that write the Path. *)
Theorem C9_failed_write_is_a_warning (sc : PathScope) (dir v : string) (w : World)
    (cp : CompletedProcess) (h : Host) :
  persisted sc (host w) = Some v ->
  pwsh (SetPath (v +:+ ";" +:+ dir) sc) (host w) = Some (cp, h) ->
  returncode cp <> 0 ->
  (let* path_update := append_path sc dir in report_path_update path_update) w =
    (Ret tt,
     evolve w h (environ_PATH w) (stdin w)
       [RegQuery sc;
        Subprocess (pwsh_argv (SetPath (v +:+ ";" +:+ dir) sc));
        Log WARNING path_update_warning])
  /\ forall (A : Type) (k : M A),
       (let* path_update := append_path sc dir in
        report_path_update path_update;; k) w =
       k (evolve w h (environ_PATH w) (stdin w)
            [RegQuery sc;
             Subprocess (pwsh_argv (SetPath (v +:+ ";" +:+ dir) sc));
             Log WARNING path_update_warning]).
Proof.
  intros Hv Hp Hrc.
  assert (Happ : append_path sc dir w =
            (Ret cp, with_host h (record (Subprocess (pwsh_argv (SetPath (v +:+ ";" +:+ dir) sc)))
                                    (record (RegQuery sc) w)))).
  { unfold append_path. step. apply run_pwsh_eq. exact Hp. }
  assert (Hrep : forall w0, report_path_update cp w0 =
            (Ret tt, record (Log WARNING path_update_warning) w0)).
  { intros w0. unfold report_path_update.
    destruct (Z.eqb_spec (returncode cp) 0) as [E|_]; [contradiction | reflexivity]. }
  split.
  - step_with ltac:(exact Happ). rewrite Hrep. same_world.
  - intros A k. step_with ltac:(exact Happ). step_with ltac:(apply Hrep).
    f_equal. same_world.
Qed.

Lemma C9_failed_write_is_a_warning_witness :
  (let* path_update := append_path Machine "C:\src\flutter\bin" in
   report_path_update path_update)
    (Lab.world_of (Lab.clone_flutter Lab.host_half) []) =
    (Ret tt,
     evolve (Lab.world_of (Lab.clone_flutter Lab.host_half) [])
       (Lab.clone_flutter Lab.host_half) EmptyString []
       [RegQuery Machine;
        Subprocess
          (pwsh_argv
             (SetPath
                ("C:\Windows;C:\Program Files\Git\cmd;C:\src\flutter\bin"
                 +:+ ";" +:+ "C:\src\flutter\bin") Machine));
        Log WARNING path_update_warning])
  /\ (let* path_update := append_path Machine "C:\src\flutter\bin" in
      report_path_update path_update;; verify_flutter)
       (Lab.world_of (Lab.clone_flutter Lab.host_half) []) =
     verify_flutter
       (evolve (Lab.world_of (Lab.clone_flutter Lab.host_half) [])
          (Lab.clone_flutter Lab.host_half) EmptyString []
          [RegQuery Machine;
           Subprocess
             (pwsh_argv
                (SetPath
                   ("C:\Windows;C:\Program Files\Git\cmd;C:\src\flutter\bin"
                    +:+ ";" +:+ "C:\src\flutter\bin") Machine));
           Log WARNING path_update_warning]).
Proof.
  destruct (C9_failed_write_is_a_warning Machine "C:\src\flutter\bin"
              "C:\Windows;C:\Program Files\Git\cmd;C:\src\flutter\bin"
              (Lab.world_of (Lab.clone_flutter Lab.host_half) [])
              {| returncode := 1; stdout := EmptyString |}
              (Lab.clone_flutter Lab.host_half)) as [Hstep Hrest].
  - reflexivity.
  - reflexivity.
  - discriminate.
  - split; [exact Hstep | exact (Hrest _ verify_flutter)].
Defined.

(** The same in the Flutter flow as a whole, on a machine where the
    process is not elevated: one write, the warning, then the refresh and
    the check, which here finds Flutter. *)
Example flutter_flow_survives_failed_write :
  ensure_flutter Lab.lab (Some "git") (Lab.world_of Lab.host_half []) =
    (Ret (Some "C:\src\flutter\bin\flutter.BAT"),
     evolve (Lab.world_of Lab.host_half []) (Lab.clone_flutter Lab.host_half)
       (persisted_path Lab.host_half) []
       [Log INFO "Checking for Flutter..."; refresh;
        Log INFO "Attempting to clone Flutter in C:\src...";
        Subprocess ["git"; "clone"; "https://github.com/flutter/flutter.git";
                    "-b"; "stable"; "C:\src"];
        Log INFO "Cloned Flutter to C:\src\flutter";
        Log INFO "Attempting to update PATH...";
        RegQuery Machine;
        Subprocess
          (pwsh_argv
             (SetPath "C:\Windows;C:\Program Files\Git\cmd;C:\src\flutter\bin;C:\src\flutter\bin"
                Machine));
        Log WARNING path_update_warning;
        refresh;
        Log INFO "Flutter SDK successfully installed"]).
Proof. vm_compute. reflexivity. Qed.

(** And in the Android flow, on a machine where the user's Path cannot be
    written and sdkmanager.bat is already on the Machine path. *)
Example android_flow_survives_failed_write :
  filter (fun e => Is_true (is_warning_or_error e))
    (trace (after (main Lab.lab) (Lab.world_of Lab.host_locked ["y"; EmptyString]))) =
    [Log WARNING path_update_warning]
  /\ exit_status (main Lab.lab (Lab.world_of Lab.host_locked ["y"; EmptyString])).1 = 0.
Proof. split; vm_compute; reflexivity. Qed.

(** ** Unpacking the command line tools *)

(** C6: when the target's cmdline-tools directory exists and the answer to
    the overwrite question is anything but y (in either case), the step
    logs that it skips the installation and changes nothing on the
    machine: no removal, no extraction, no rename; every file name looks
    up as before. *)
Theorem C6_decline_leaves_target (X : Externals) (archive sdk_dir a : string)
    (rest : list string) (w : World) :
  is_Some_bool (lookup_node (files (host w)) (sdk_dir +:+ "\cmdline-tools")) = true ->
  stdin w = a :: rest ->
  lower a <> "y" ->
  extract_cmdline_tools X archive sdk_dir w =
    (Ret tt,
     evolve w (host w) (environ_PATH w) rest
       [Log WARNING ((sdk_dir +:+ "\cmdline-tools") +:+ " already exists, overwrite? [y/N]");
        Input EmptyString;
        Log INFO "Skipping Android command line tools installation"])
  /\ forall name : string,
       lookup_node (files (host (after (extract_cmdline_tools X archive sdk_dir) w))) name =
       lookup_node (files (host w)) name.
Proof.
  intros Hex Hin Hno.
  assert (E : extract_cmdline_tools X archive sdk_dir w =
    (Ret tt,
     evolve w (host w) (environ_PATH w) rest
       [Log WARNING ((sdk_dir +:+ "\cmdline-tools") +:+ " already exists, overwrite? [y/N]");
        Input EmptyString;
        Log INFO "Skipping Android command line tools installation"])).
  { unfold extract_cmdline_tools. step. rewrite Hex. step. step.
    destruct (String.eqb_spec (lower a) "y") as [E|_]; [contradiction|].
    same_world. }
  split; [exact E|]. intros name. unfold after. rewrite E. reflexivity.
Qed.

Lemma C6_decline_leaves_target_witness :
  extract_cmdline_tools Lab.lab "tools.zip" "C:\Users\dev\AppData\Local\Android\Sdk"
    (Lab.world_of Lab.host_old_tools ["N"; EmptyString]) =
    (Ret tt,
     evolve (Lab.world_of Lab.host_old_tools ["N"; EmptyString]) Lab.host_old_tools EmptyString [EmptyString]
       [Log WARNING
          (("C:\Users\dev\AppData\Local\Android\Sdk" +:+ "\cmdline-tools")
           +:+ " already exists, overwrite? [y/N]");
        Input EmptyString;
        Log INFO "Skipping Android command line tools installation"])
  /\ forall name : string,
       lookup_node
         (files (host (after (extract_cmdline_tools Lab.lab "tools.zip"
                                "C:\Users\dev\AppData\Local\Android\Sdk")
                         (Lab.world_of Lab.host_old_tools ["N"; EmptyString])))) name =
       lookup_node (files Lab.host_old_tools) name.
Proof.
  apply (C6_decline_leaves_target Lab.lab "tools.zip"
           "C:\Users\dev\AppData\Local\Android\Sdk" "N" [EmptyString]
           (Lab.world_of Lab.host_old_tools ["N"; EmptyString])).
  - vm_compute. reflexivity.
  - reflexivity.
  - vm_compute. discriminate.
Defined.

(** On a target without a cmdline-tools directory the step does nothing at
    all: the unpacking sits under the branch for an existing directory. *)
Lemma extract_cmdline_tools_fresh (X : Externals) (archive sdk_dir : string) (w : World) :
  lookup_node (files (host w)) (sdk_dir +:+ "\cmdline-tools") = None ->
  extract_cmdline_tools X archive sdk_dir w = (Ret tt, w).
Proof.
  intros H. unfold extract_cmdline_tools. step. rewrite H. reflexivity.
Qed.

(** C4 fails on the code: with no cmdline-tools directory under the SDK
    directory, a user who asks for the tools and a download that succeeds,
    the archive is fetched and then never unpacked.  No extraction and no
    rename happen, the directory the Path entry points to does not exist,
    and the run ends with status 1. *)
Lemma C4_fresh_target_is_not_unpacked :
  lookup_node (files Lab.host_dev)
    "C:\Users\dev\AppData\Local\Android\Sdk\cmdline-tools" = None
  /\ filter (fun e => Is_true (unpacking_event e))
       (trace (after (main Lab.lab) (Lab.world_of Lab.host_dev ["y"; EmptyString]))) = []
  /\ lookup_node (files (host (after (main Lab.lab) (Lab.world_of Lab.host_dev ["y"; EmptyString]))))
       "commandlinetools-win-11076708_latest.zip" = Some (File "PK")
  /\ lookup_node (files (host (after (main Lab.lab) (Lab.world_of Lab.host_dev ["y"; EmptyString]))))
       "C:\Users\dev\AppData\Local\Android\Sdk\cmdline-tools\latest" = None
  /\ (main Lab.lab (Lab.world_of Lab.host_dev ["y"; EmptyString])).1 = SysExit 1.
Proof. repeat split; vm_compute; reflexivity. Qed.

(** ** The fallback chain for Git *)

(** C2: when Git is absent, winget is tried first; when winget ends with a
    non-zero status, or Git still does not resolve after the refresh that
    follows it, the release page is fetched, the installer is downloaded
    and run; when that run ends with status 0 and Git resolves after the
    next refresh, the flow returns the resolved path.  The trace is
    exactly: check, refresh, winget, refresh, warning, page, download,
    installer, refresh, success. *)
Theorem C2_git_fallback_order (X : Externals) (w : World) (rc1 : Z) (h1 h2 : Host)
    (text g bytes p : string) :
  shell (host w) = ShellWorking ->
  which (files (host w)) (pathext w) "git" (persisted_path (host w)) = None ->
  program X winget_argv (persisted_path (host w)) (host w) = Some (rc1, h1) ->
  shell h1 = ShellWorking ->
  rc1 <> 0 \/ which (files h1) (pathext w) "git" (persisted_path h1) = None ->
  page_text X git_release_url = Some text ->
  re_search git_installer_pattern text = Some g ->
  url_content X (git_installer_url g) = Some bytes ->
  program X [basename (git_installer_url g)] (persisted_path h1)
    (with_files (write_node (files h1) (basename (git_installer_url g)) (File bytes)) h1) =
    Some (0, h2) ->
  shell h2 = ShellWorking ->
  which (files h2) (pathext w) "git" (persisted_path h2) = Some p ->
  ensure_git X w =
    (Ret (Some p),
     evolve w h2 (persisted_path h2) (stdin w)
       [Log INFO "Checking for Git..."; refresh;
        Log INFO "Attempting to install Git with winget...";
        Subprocess winget_argv; refresh;
        Log WARNING winget_warning;
        HttpGet git_release_url;
        UrlRetrieve (git_installer_url g) (basename (git_installer_url g));
        Subprocess [basename (git_installer_url g)]; refresh;
        Log INFO "Git successfully installed"]).
Proof.
  intros Hs H0 Hwinget Hs1 Hfail Hpage Hre Hdl Hrun Hs2 Hfound.
  unfold ensure_git. step. step. step. rewrite H0. cbn [is_Some_bool].
  step. step. step. step.
  assert (Hno : (rc1 =? 0) && is_Some_bool (which (files h1) (pathext w) "git" (persisted_path h1)) = false).
  { destruct Hfail as [Hrc | Hnone].
    - destruct (Z.eqb_spec rc1 0); [contradiction | reflexivity].
    - rewrite Hnone. apply andb_false_r. }
  rewrite Hno. step. step. rewrite Hre.
  cbv zeta.
  step. step. step. step. rewrite Hfound. cbn [Z.eqb andb is_Some_bool].
  step. step. rewrite Hfound. same_world.
Qed.

Lemma C2_git_fallback_order_witness :
  ensure_git Lab.lab (Lab.world_of Lab.host_bare []) =
    (Ret (Some "C:\Program Files\Git\cmd\git.EXE"),
     evolve (Lab.world_of Lab.host_bare [])
       (Lab.install_git
          (with_files (write_node (files Lab.host_bare)
                         "Git-2.44.0-64-bit.exe"
                         (File "PK")) Lab.host_bare))
       (persisted_path
          (Lab.install_git
             (with_files (write_node (files Lab.host_bare)
                            "Git-2.44.0-64-bit.exe"
                            (File "PK")) Lab.host_bare)))
       []
       [Log INFO "Checking for Git..."; refresh;
        Log INFO "Attempting to install Git with winget...";
        Subprocess winget_argv; refresh;
        Log WARNING winget_warning;
        HttpGet git_release_url;
        UrlRetrieve
          "https://github.com/git-for-windows/git/releases/download/v2.44.0.windows.1/Git-2.44.0-64-bit.exe"
          "Git-2.44.0-64-bit.exe";
        Subprocess ["Git-2.44.0-64-bit.exe"];
        refresh;
        Log INFO "Git successfully installed"]).
Proof.
  apply (C2_git_fallback_order Lab.lab (Lab.world_of Lab.host_bare []) 1
           Lab.host_bare _ Lab.git_page
           "/git-for-windows/git/releases/download/v2.44.0.windows.1/Git-2.44.0-64-bit.exe"
           "PK" "C:\Program Files\Git\cmd\git.EXE").
  - reflexivity.
  - vm_compute. reflexivity.
  - reflexivity.
  - reflexivity.
  - left. discriminate.
  - reflexivity.
  - vm_compute. reflexivity.
  - reflexivity.
  - vm_compute. reflexivity.
  - reflexivity.
  - vm_compute. reflexivity.
Defined.

(** ** The optional tools *)

Lemma verify_sdkmanager_absent (w : World) :
  shell (host w) = ShellWorking ->
  which (files (host w)) (pathext w) "sdkmanager.bat" (persisted_path (host w)) = None ->
  verify_sdkmanager w =
    (SysExit 1,
     evolve w (host w) (persisted_path (host w)) (stdin w)
       [refresh; Log ERROR sdkmanager_error]).
Proof.
  intros Hs Hw. unfold verify_sdkmanager. step. step. rewrite Hw. cbn [is_Some_bool].
  step. same_world.
Qed.

(** Declining the question skips the optional flow. *)
Lemma install_android_tools_declined (X : Externals) (w : World) (a : string)
    (rest : list string) :
  stdin w = a :: rest ->
  lower a <> "y" ->
  install_android_tools X w =
    (Ret (Some "sdkmanager"),
     evolve w (host w) (environ_PATH w) rest
       [Input android_prompt; Log INFO "Skipping Android toolchain installation"]).
Proof.
  intros Hin Hno. unfold install_android_tools. step.
  destruct (String.eqb_spec (lower a) "y") as [E|_]; [contradiction|].
  step. same_world.
Qed.

(** C3, as amended: a failure of the optional flow at its check is fatal
    like a required tool's.  When both required tools are ensured, the
    user asks for the Android tools, the page names an asset, the steps up
    to the Path update complete, and sdkmanager.bat does not resolve after
    the refresh, the script logs the error with the manual-install address
    as its last message and the process ends with status 1. *)
Theorem C3_optional_failure_exits_1 (X : Externals) (w w1 w2 w3 : World)
    (git_path flutter_path : option string) (a text g : string) (rest : list string) :
  ensure_git X w = (Ret git_path, w1) ->
  ensure_flutter X git_path w1 = (Ret flutter_path, w2) ->
  stdin w2 = a :: rest ->
  lower a = "y" ->
  page_text X studio_url = Some text ->
  re_search commandlinetools_pattern text = Some g ->
  provision_cmdline_tools X g
    (evolve w2 (host w2) (environ_PATH w2) rest
       [Input android_prompt;
        Log INFO "Attempting to install Android toolchain..";
        Log INFO "Downloading Android command line tools...";
        HttpGet studio_url]) = (Ret tt, w3) ->
  shell (host w3) = ShellWorking ->
  which (files (host w3)) (pathext w3) "sdkmanager.bat" (persisted_path (host w3)) = None ->
  main X w =
    (SysExit 1,
     evolve w3 (host w3) (persisted_path (host w3)) (stdin w3)
       [refresh; Log ERROR sdkmanager_error])
  /\ exit_status (main X w).1 = 1.
Proof.
  intros Hgit Hflutter Hin Hyes Hpage Hre Hprov Hs Hw.
  assert (E : main X w =
    (SysExit 1,
     evolve w3 (host w3) (persisted_path (host w3)) (stdin w3)
       [refresh; Log ERROR sdkmanager_error])).
  { unfold main.
    step_with ltac:(exact Hgit). step_with ltac:(exact Hflutter).
    apply bind_SysExit. unfold install_android_tools.
    step. rewrite Hyes. cbn [String.eqb Ascii.eqb Bool.eqb].
    step. step. step. rewrite Hre.
    erewrite bind_Ret.
    2:{ rewrite <- Hprov. f_equal. same_world. }
    apply verify_sdkmanager_absent; assumption. }
  split; [exact E | rewrite E; reflexivity].
Qed.

Lemma C3_optional_failure_exits_1_witness :
  main Lab.lab Lab.keep_start =
    (SysExit 1,
     evolve Lab.keep_provisioned (host Lab.keep_provisioned)
       (persisted_path (host Lab.keep_provisioned)) (stdin Lab.keep_provisioned)
       [refresh; Log ERROR sdkmanager_error])
  /\ exit_status (main Lab.lab Lab.keep_start).1 = 1.
Proof.
  apply (C3_optional_failure_exits_1 Lab.lab Lab.keep_start Lab.keep_after_git
           Lab.keep_after_flutter Lab.keep_provisioned
           (Some "C:\Program Files\Git\cmd\git.EXE")
           (Some "C:\src\flutter\bin\flutter.BAT")
           "y" Lab.studio_page "commandlinetools-win-11076708_latest.zip" ["N"; EmptyString]).
  - vm_compute. reflexivity.
  - vm_compute. reflexivity.
  - vm_compute. reflexivity.
  - reflexivity.
  - reflexivity.
  - vm_compute. reflexivity.
  - vm_compute. reflexivity.
  - reflexivity.
  - vm_compute. reflexivity.
Defined.

(** C3 as stated fails: both required tools are found, the user asks for
    the optional tools and keeps the older copy, only the optional flow
    fails at its check, and the process ends with status 1. *)
Lemma C3_counterexample :
  In (Log INFO "Git found") (trace (after (main Lab.lab) Lab.keep_start))
  /\ In (Log INFO "Flutter SDK is already installed, skipping...")
       (trace (after (main Lab.lab) Lab.keep_start))
  /\ In (Log INFO "Skipping Android command line tools installation")
       (trace (after (main Lab.lab) Lab.keep_start))
  /\ filter (fun e => Is_true (is_error_log e)) (trace (after (main Lab.lab) Lab.keep_start)) =
       [Log ERROR sdkmanager_error]
  /\ exit_status (main Lab.lab Lab.keep_start).1 = 1.
Proof.
  split; [vm_compute; tauto|]. split; [vm_compute; tauto|].
  split; [vm_compute; tauto|]. split; vm_compute; reflexivity.
Qed.

(** ** A page without the asset *)

(** The Git release page without an installer asset ends the run: the
    error with the manual-install address is logged and the script exits
    with status 1. *)
Lemma ensure_git_page_without_asset (X : Externals) (w : World) (rc1 : Z) (h1 : Host)
    (text : string) :
  shell (host w) = ShellWorking ->
  which (files (host w)) (pathext w) "git" (persisted_path (host w)) = None ->
  program X winget_argv (persisted_path (host w)) (host w) = Some (rc1, h1) ->
  shell h1 = ShellWorking ->
  rc1 <> 0 \/ which (files h1) (pathext w) "git" (persisted_path h1) = None ->
  page_text X git_release_url = Some text ->
  ~ has_match git_installer_pattern text ->
  ensure_git X w =
    (SysExit 1,
     evolve w h1 (persisted_path h1) (stdin w)
       [Log INFO "Checking for Git..."; refresh;
        Log INFO "Attempting to install Git with winget...";
        Subprocess winget_argv; refresh;
        Log WARNING winget_warning;
        HttpGet git_release_url;
        Log ERROR git_manual_url]).
Proof.
  intros Hs H0 Hwinget Hs1 Hfail Hpage Hno.
  apply re_search_None_iff in Hno.
  unfold ensure_git. step. step. step. rewrite H0. cbn [is_Some_bool].
  step. step. step. step.
  assert (Hf : (rc1 =? 0) && is_Some_bool (which (files h1) (pathext w) "git" (persisted_path h1)) = false).
  { destruct Hfail as [Hrc | Hnone].
    - destruct (Z.eqb_spec rc1 0); [contradiction | reflexivity].
    - rewrite Hnone. apply andb_false_r. }
  rewrite Hf. step. step. rewrite Hno. step. same_world.
Qed.

(** The download page of the command line tools without an asset: the
    optional flow returns without a word, whatever the machine. *)
Lemma install_android_tools_page_without_asset (X : Externals) (w : World)
    (a text : string) (rest : list string) :
  stdin w = a :: rest ->
  lower a = "y" ->
  page_text X studio_url = Some text ->
  ~ has_match commandlinetools_pattern text ->
  install_android_tools X w =
    (Ret (Some "sdkmanager"),
     evolve w (host w) (environ_PATH w) rest
       [Input android_prompt;
        Log INFO "Attempting to install Android toolchain..";
        Log INFO "Downloading Android command line tools...";
        HttpGet studio_url]).
Proof.
  intros Hin Hyes Hpage Hno. apply re_search_None_iff in Hno.
  unfold install_android_tools. step. rewrite Hyes. cbn [String.eqb Ascii.eqb Bool.eqb].
  step. step. step. rewrite Hno. same_world.
Qed.

(** C8 fails on the code for the platform-tools page.  On a page that
    holds no substring matching either pattern, the Git flow logs the
    manual-install error and exits with status 1, but the Android flow,
    asked for by the user, stops after fetching the page: no warning, no
    error, no guidance, and the process ends with status 0. *)
Lemma C8_platform_tools_page_without_asset_is_silent :
  ~ has_match git_installer_pattern Lab.page_without_asset
  /\ ~ has_match commandlinetools_pattern Lab.page_without_asset
  /\ ensure_git Lab.lab_without_asset (Lab.world_of Lab.host_bare []) =
       (SysExit 1,
        evolve (Lab.world_of Lab.host_bare []) Lab.host_bare
          (persisted_path Lab.host_bare) []
          [Log INFO "Checking for Git..."; refresh;
           Log INFO "Attempting to install Git with winget...";
           Subprocess winget_argv; refresh;
           Log WARNING winget_warning;
           HttpGet git_release_url;
           Log ERROR git_manual_url])
  /\ install_android_tools Lab.lab_without_asset (Lab.world_of Lab.host_dev ["y"; EmptyString]) =
       (Ret (Some "sdkmanager"),
        evolve (Lab.world_of Lab.host_dev ["y"; EmptyString]) Lab.host_dev EmptyString [EmptyString]
          [Input android_prompt;
           Log INFO "Attempting to install Android toolchain..";
           Log INFO "Downloading Android command line tools...";
           HttpGet studio_url])
  /\ filter (fun e => Is_true (is_warning_or_error e))
       (trace (after (main Lab.lab_without_asset) (Lab.world_of Lab.host_dev ["y"; EmptyString]))) = []
  /\ exit_status (main Lab.lab_without_asset (Lab.world_of Lab.host_dev ["y"; EmptyString])).1 = 0.
Proof.
  split; [apply re_search_None_iff; vm_compute; reflexivity|].
  split; [apply re_search_None_iff; vm_compute; reflexivity|].
  repeat split; vm_compute; reflexivity.
Qed.

(** ** The trace only grows, and winget comes first *)

Lemma extends_bind {A B} (m : M A) (k : A -> M B) :
  extends m -> (forall a, extends (k a)) -> extends (bind m k).
Proof.
  intros Hm Hk w. destruct (Hm w) as [evs1 H1]. unfold after, bind in *.
  destruct (m w) as [[a|c|e] w'] eqn:E; cbn [snd] in *.
  - destruct (Hk a w') as [evs2 H2]. unfold after in H2.
    exists (evs1 ++ evs2). rewrite H2, H1, app_assoc. reflexivity.
  - exists evs1. exact H1.
  - exists evs1. exact H1.
Qed.

Lemma extends_ret {A} (a : A) : extends (ret a).
Proof. intros w. exists []. unfold after, ret. cbn [snd]. rewrite app_nil_r. reflexivity. Qed.

Lemma extends_sys_exit {A} (c : Z) : extends (@sys_exit A c).
Proof. intros w. exists []. unfold after, sys_exit. cbn [snd]. rewrite app_nil_r. reflexivity. Qed.

Lemma extends_logger (l : level) (msg : string) : extends (logger l msg).
Proof. intros w. exists [Log l msg]. reflexivity. Qed.

Lemma extends_shutil_which (cmd : string) : extends (shutil_which cmd).
Proof. intros w. exists []. unfold after, shutil_which. cbn [snd]. rewrite app_nil_r. reflexivity. Qed.

Lemma extends_run_pwsh (c : pwsh_command) : extends (run_pwsh c).
Proof.
  intros w. exists [Subprocess (pwsh_argv c)]. unfold after, run_pwsh.
  cbn [host record]. destruct (pwsh c (host w)) as [[cp h]|]; reflexivity.
Qed.

Lemma extends_update_path : extends update_path.
Proof.
  unfold update_path. apply extends_bind; [apply extends_run_pwsh|].
  intros cp w. exists []. unfold after. cbn [snd with_PATH trace]. rewrite app_nil_r. reflexivity.
Qed.

Lemma extends_and_which (a : bool) (cmd : string) : extends (and_which a cmd).
Proof.
  destruct a; unfold and_which; [|apply extends_ret].
  apply extends_bind; [apply extends_shutil_which | intros; apply extends_ret].
Qed.

Lemma extends_subprocess_run (X : Externals) (argv : list string) :
  extends (subprocess_run X argv).
Proof.
  intros w. exists [Subprocess argv]. unfold after, subprocess_run.
  cbn [host environ_PATH record].
  destruct (program X argv (environ_PATH w) (host w)) as [[rc h]|]; reflexivity.
Qed.

Lemma extends_requests_get (X : Externals) (url : string) : extends (requests_get X url).
Proof.
  intros w. exists [HttpGet url]. unfold after, requests_get.
  destruct (page_text X url); reflexivity.
Qed.

Lemma extends_urlretrieve (X : Externals) (url filename : string) :
  extends (urlretrieve X url filename).
Proof.
  intros w. exists [UrlRetrieve url filename]. unfold after, urlretrieve.
  destruct (url_content X url); reflexivity.
Qed.

Create HintDb trace_grows.
#[local] Hint Resolve extends_ret extends_sys_exit extends_logger extends_shutil_which
  extends_run_pwsh extends_update_path extends_and_which extends_subprocess_run
  extends_requests_get extends_urlretrieve : trace_grows.

Ltac grows :=
  repeat first
    [ apply extends_bind; [solve [auto with trace_grows] | intros ?]
    | solve [auto with trace_grows]
    | match goal with
      | |- extends (if ?b then _ else _) => destruct b
      | |- extends (match ?o with Some _ => _ | None => _ end) => destruct o
      end ].

(** Whenever Git is absent after the first refresh, the first thing the
    flow does is start winget: every event of the download strategy, if
    any, comes after it, on every machine and for every outcome. *)
Lemma winget_is_attempted_first (X : Externals) (w : World) :
  shell (host w) = ShellWorking ->
  which (files (host w)) (pathext w) "git" (persisted_path (host w)) = None ->
  exists rest : list event,
    trace (after (ensure_git X) w) =
      trace w ++
      [Log INFO "Checking for Git..."; refresh;
       Log INFO "Attempting to install Git with winget...";
       Subprocess winget_argv] ++ rest.
Proof.
  intros Hs H0. unfold after, ensure_git. step. step. step.
  rewrite H0. cbn [is_Some_bool]. step.
  match goal with
  | |- context [bind (subprocess_run X winget_argv) ?k ?w0] =>
      assert (Hk : forall rc, extends (k rc)) by (intros rc; grows);
      set (k0 := k) in *; set (w1 := w0)
  end.
  unfold bind. unfold subprocess_run at 1. fold w1.
  destruct (program X winget_argv (environ_PATH (record (Subprocess winget_argv) w1))
              (host (record (Subprocess winget_argv) w1))) as [[rc h]|].
  - destruct (Hk rc (with_host h (record (Subprocess winget_argv) w1))) as [evs Hevs].
    unfold after in Hevs. exists evs. rewrite Hevs. subst w1. wsimpl.
    repeat rewrite <- app_assoc. reflexivity.
  - exists []. subst w1. wsimpl. repeat rewrite <- app_assoc. reflexivity.
Qed.

(* ================================================================== *)
(** * Part III: further properties of the script                       *)
(* ================================================================== *)

(** ** What the search returns *)

Lemma chars_of_app (a b : string) :
  list_ascii_of_string (a +:+ b) = list_ascii_of_string a ++ list_ascii_of_string b.
Proof.
  induction a as [|x a IH]; [reflexivity|].
  rewrite app_cons. cbn [list_ascii_of_string]. rewrite IH. reflexivity.
Qed.

Lemma nonspace_app (a b : string) : nonspace (a +:+ b) <-> nonspace a /\ nonspace b.
Proof. unfold nonspace. rewrite chars_of_app. apply Forall_app. Qed.

(** X1: the search over a page fails exactly when the page has no
    substring made of the opening literal, a run of non-space characters
    and the closing part; so a match anywhere on the page is always
    found. *)
Theorem X1_search_fails_iff_no_asset (p : pattern) (text : string) :
  (re_search p text = None <-> ~ has_match p text)
  /\ (has_match p text -> exists m, re_search p text = Some m /\ matches p m).
Proof.
  split; [apply re_search_None_iff|].
  intros H. destruct (re_search p text) as [m|] eqn:E.
  - exists m. split; [reflexivity|].
    destruct (re_search_sound _ _ _ E) as (a & b & _ & Hm). exact Hm.
  - apply re_search_None_iff in E. contradiction.
Qed.

Lemma X1_search_fails_iff_no_asset_witness :
  exists m, re_search git_installer_pattern Lab.git_page = Some m /\
            matches git_installer_pattern m.
Proof.
  apply (X1_search_fails_iff_no_asset git_installer_pattern Lab.git_page).
  exists "<a href=",
    "/git-for-windows/git/releases/download/v2.44.0.windows.1/Git-2.44.0-64-bit.exe",
    " rel=nofollow>".
  split; [reflexivity|].
  exists "/git-for-windows/git/releases/download/", "v2.44.0.windows.1/Git-2.44.0-",
    "64-bit.exe".
  split; [reflexivity|]. split; [|split].
  - unfold atoms_denote. cbn. repeat constructor.
  - unfold nonspace. cbn. repeat constructor.
  - unfold atoms_denote. cbn. repeat constructor.
Defined.

(** The leftmost start with a match is where the search stops. *)
Lemma re_search_leftmost_aux (p : pattern) (text m : string) :
  re_search p text = Some m ->
  exists a b,
    text = a +:+ m +:+ b /\ matches p m /\
    forall a1 a2 : string,
      a = a1 +:+ a2 -> a2 <> EmptyString ->
      match_at p (a2 +:+ m +:+ b) = None.
Proof.
  induction text as [|c t IH]; rewrite re_search_unfold.
  - destruct (match_at p EmptyString) as [m'|] eqn:H; [|discriminate].
    intros [= <-]. destruct (match_at_sound _ _ _ H) as [[b Hb] Hm].
    exists EmptyString, b. split; [assumption|]. split; [assumption|].
    intros a1 a2 E Hne. destruct a1; [|discriminate].
    rewrite app_empty_l in E. congruence.
  - destruct (match_at p (String c t)) as [m'|] eqn:H.
    + intros [= <-]. destruct (match_at_sound _ _ _ H) as [[b Hb] Hm].
      exists EmptyString, b. split; [assumption|]. split; [assumption|].
      intros a1 a2 E Hne. destruct a1; [|discriminate].
      rewrite app_empty_l in E. congruence.
    + intros H'. destruct (IH H') as (a & b & -> & Hm & Hleft).
      exists (String c a), b. split; [reflexivity|]. split; [assumption|].
      intros a1 a2 E Hne. destruct a1 as [|c1 a1].
      * rewrite app_empty_l in E. subst a2. rewrite app_cons. exact H.
      * rewrite app_cons in E. injection E as <- E. apply (Hleft a1 a2 E Hne).
Qed.

(** X2: what the search returns is a piece of the page that the pattern
    denotes, and it is the leftmost one: no piece that starts earlier on
    the page is denoted by the pattern. *)
Theorem X2_search_returns_leftmost_asset (p : pattern) (text m : string) :
  re_search p text = Some m ->
  exists a b,
    text = a +:+ m +:+ b /\ matches p m /\
    forall a1 a2 m' b' : string,
      a = a1 +:+ a2 -> a2 <> EmptyString ->
      a2 +:+ m +:+ b = m' +:+ b' -> ~ matches p m'.
Proof.
  intros H. destruct (re_search_leftmost_aux _ _ _ H) as (a & b & E & Hm & Hleft).
  exists a, b. split; [assumption|]. split; [assumption|].
  intros a1 a2 m' b' Ea Hne Em Hm'.
  specialize (Hleft a1 a2 Ea Hne). rewrite Em in Hleft.
  exact (match_at_complete p m' b' Hm' Hleft).
Qed.

Lemma X2_search_returns_leftmost_asset_witness :
  exists a b,
    ("x /git-for-windows/git/releases/download/a64-bit.exe "
     +:+ "/git-for-windows/git/releases/download/b64-bit.exe") =
      a +:+ "/git-for-windows/git/releases/download/a64-bit.exe" +:+ b /\
    matches git_installer_pattern "/git-for-windows/git/releases/download/a64-bit.exe" /\
    forall a1 a2 m' b' : string,
      a = a1 +:+ a2 -> a2 <> EmptyString ->
      a2 +:+ "/git-for-windows/git/releases/download/a64-bit.exe" +:+ b = m' +:+ b' ->
      ~ matches git_installer_pattern m'.
Proof.
  apply (X2_search_returns_leftmost_asset git_installer_pattern
           ("x /git-for-windows/git/releases/download/a64-bit.exe "
            +:+ "/git-for-windows/git/releases/download/b64-bit.exe")
           "/git-for-windows/git/releases/download/a64-bit.exe").
  vm_compute. reflexivity.
Defined.

(** ** The addresses and file names built from a match *)

Lemma atoms_denote_literal (s x : string) : atoms_denote (literal s) x -> x = s.
Proof.
  revert x. induction s as [|c s IH]; intros x H; unfold atoms_denote, literal in H.
  - cbn in H. destruct x; [reflexivity | inversion H].
  - cbn in H. destruct x as [|d x]; [inversion H|].
    cbn in H. inversion H as [|? ? ? ? Hc Hrest]; subst.
    cbn in Hc. apply Ascii.eqb_eq in Hc. subst d.
    f_equal. apply IH. exact Hrest.
Qed.

Lemma atoms_denote_app (p1 p2 : list atom) (y : string) :
  atoms_denote (p1 ++ p2) y ->
  exists y1 y2, y = y1 +:+ y2 /\ atoms_denote p1 y1 /\ atoms_denote p2 y2.
Proof.
  revert y. induction p1 as [|a p1 IH]; intros y H.
  - exists EmptyString, y. split; [reflexivity|]. split; [constructor | exact H].
  - unfold atoms_denote in H. destruct y as [|c y]; [inversion H|].
    cbn in H. inversion H as [|? ? ? ? Hc Hrest]; subst.
    destruct (IH y Hrest) as (y1 & y2 & -> & H1 & H2).
    exists (String c y1), y2. split; [reflexivity|]. split; [|exact H2].
    unfold atoms_denote. cbn. constructor; assumption.
Qed.

Lemma atoms_denote_dot (y : string) :
  atoms_denote [Dot] y -> exists c, y = String c EmptyString /\ c <> "010"%char.
Proof.
  unfold atoms_denote. intros H. destruct y as [|c [|d y]]; cbn in H.
  - inversion H.
  - inversion H as [|? ? ? ? Hc _]; subst. exists c. split; [reflexivity|].
    cbn in Hc. intros ->. discriminate.
  - inversion H as [|? ? ? ? _ Hrest]; subst. inversion Hrest.
Qed.

(** No field of a split holds the separator. *)
Lemma split_fields_clean (sep : ascii) (s : string) :
  Forall (fun fld => Forall (fun c => Ascii.eqb c sep = false) (list_ascii_of_string fld))
         (split sep s).
Proof.
  induction s as [|c s IH]; cbn [split].
  - repeat constructor.
  - destruct (Ascii.eqb c sep) eqn:E.
    + constructor; [constructor | exact IH].
    + destruct (split sep s) as [|h t]; [repeat constructor; exact E|].
      inversion IH as [|? ? Hh Ht]; subst.
      constructor; [|exact Ht]. cbn. constructor; assumption.
Qed.

Lemma last_field_clean (sep : ascii) (s : string) :
  Forall (fun c => Ascii.eqb c sep = false) (list_ascii_of_string (last_field sep s)).
Proof.
  unfold last_field. pose proof (split_fields_clean sep s) as H.
  pose proof (split_nonempty sep s) as Hne.
  induction (split sep s) as [|h t IH]; [contradiction|].
  inversion H as [|? ? Hh Ht]; subst.
  destruct t as [|h' t']; [exact Hh|].
  apply IH; [exact Ht | discriminate].
Qed.

Lemma last_field_cons (sep c : ascii) (s : string) :
  last_field sep (String c s) =
    if Ascii.eqb c sep then last_field sep s
    else match split sep s with
         | [h] => String c h
         | _ => last_field sep s
         end.
Proof.
  unfold last_field. cbn [split].
  pose proof (split_nonempty sep s) as Hne.
  destruct (Ascii.eqb c sep).
  - destruct (split sep s); [contradiction | reflexivity].
  - destruct (split sep s) as [|h [|h' t]]; [contradiction | reflexivity | reflexivity].
Qed.

Lemma split_cons_length (sep c : ascii) (s : string) :
  List.length (split sep (String c s)) =
    if Ascii.eqb c sep then S (List.length (split sep s)) else List.length (split sep s).
Proof.
  cbn [split]. pose proof (split_nonempty sep s) as Hne.
  destruct (Ascii.eqb c sep); [reflexivity|].
  destruct (split sep s); [contradiction | reflexivity].
Qed.

Lemma split_app_length (sep : ascii) (a s : string) :
  Forall (fun c => Ascii.eqb c sep = false) (list_ascii_of_string s) ->
  List.length (split sep (a +:+ s)) = List.length (split sep a).
Proof.
  intros Hs. induction a as [|c a IH].
  - rewrite app_empty_l, (split_single _ _ Hs). reflexivity.
  - rewrite app_cons, !split_cons_length, IH. reflexivity.
Qed.

(** The last field of a text that ends in a separator-free tail ends in
    that tail. *)
Lemma last_field_app (sep : ascii) (a s : string) :
  Forall (fun c => Ascii.eqb c sep = false) (list_ascii_of_string s) ->
  last_field sep (a +:+ s) = last_field sep a +:+ s.
Proof.
  intros Hs. induction a as [|c a IH].
  - rewrite !app_empty_l. unfold last_field. rewrite (split_single _ _ Hs). reflexivity.
  - rewrite app_cons, !last_field_cons.
    destruct (Ascii.eqb c sep); [exact IH|].
    pose proof (split_app_length sep a s Hs) as Hlen.
    pose proof (split_nonempty sep a) as Hne.
    unfold last_field in *.
    destruct (split sep (a +:+ s)) as [|k [|k' u]], (split sep a) as [|h [|h' t]];
      cbn in Hlen; try discriminate; try contradiction.
    + cbn in IH. rewrite app_cons, IH. reflexivity.
    + exact IH.
Qed.

(** X3: whenever the release page yields an installer, the address that
    is downloaded is the fixed GitHub release path of Git for Windows, a
    run of non-space characters, and 64-bit.exe; the file it is stored
    under, which is the program then run, has no slash in its name and
    ends in 64-bit.exe. *)
Theorem X3_git_installer_address (text g : string) :
  re_search git_installer_pattern text = Some g ->
  exists mid stem : string,
    nonspace mid /\
    git_installer_url g =
      "https://github.com/git-for-windows/git/releases/download/" +:+ mid +:+ "64-bit.exe" /\
    basename (git_installer_url g) = stem +:+ "64-bit.exe" /\
    Forall (fun c => Ascii.eqb c "/" = false)
           (list_ascii_of_string (basename (git_installer_url g))).
Proof.
  intros H. destruct (re_search_sound _ _ _ H) as (a & b & _ & x & mid & y & -> & Hx & Hmid & Hy).
  apply atoms_denote_literal in Hx. apply atoms_denote_literal in Hy. subst x y.
  exists mid, (last_field "/" ("https://github.com/git-for-windows/git/releases/download/" +:+ mid)).
  split; [exact Hmid|]. split; [reflexivity|]. split.
  - unfold basename, git_installer_url.
    change ("https://github.com" +:+ "/git-for-windows/git/releases/download/" +:+ mid +:+ "64-bit.exe")
      with (("https://github.com/git-for-windows/git/releases/download/" +:+ mid) +:+ "64-bit.exe").
    apply last_field_app. cbn. repeat constructor.
  - apply last_field_clean.
Qed.

Lemma X3_git_installer_address_witness :
  exists mid stem : string,
    nonspace mid /\
    git_installer_url
      "/git-for-windows/git/releases/download/v2.44.0.windows.1/Git-2.44.0-64-bit.exe" =
      "https://github.com/git-for-windows/git/releases/download/" +:+ mid +:+ "64-bit.exe" /\
    basename (git_installer_url
      "/git-for-windows/git/releases/download/v2.44.0.windows.1/Git-2.44.0-64-bit.exe") =
      stem +:+ "64-bit.exe" /\
    Forall (fun c => Ascii.eqb c "/" = false)
           (list_ascii_of_string (basename (git_installer_url
      "/git-for-windows/git/releases/download/v2.44.0.windows.1/Git-2.44.0-64-bit.exe"))).
Proof.
  apply (X3_git_installer_address Lab.git_page).
  vm_compute. reflexivity.
Defined.

(** X4: whenever the download page yields an archive name, the name is
    commandlinetools-win-, a run of non-space characters, _latest, any one
    character but a line feed (the dot of the source pattern is not
    escaped), and zip; the address downloaded is that name under the fixed
    repository of dl.google.com. *)
Theorem X4_commandlinetools_address (text g : string) :
  re_search commandlinetools_pattern text = Some g ->
  exists (mid : string) (c : ascii),
    nonspace mid /\ c <> "010"%char /\
    g = "commandlinetools-win-" +:+ mid +:+ "_latest" +:+ String c "zip" /\
    commandlinetools_url g =
      "https://dl.google.com/android/repository/commandlinetools-win-"
      +:+ mid +:+ "_latest" +:+ String c "zip".
Proof.
  intros H. destruct (re_search_sound _ _ _ H) as (a & b & _ & x & mid & y & -> & Hx & Hmid & Hy).
  apply atoms_denote_literal in Hx. subst x.
  change (pat_suf commandlinetools_pattern)
    with (literal "_latest" ++ [Dot] ++ literal "zip") in Hy.
  apply atoms_denote_app in Hy as (y1 & y23 & -> & H1 & H23).
  apply atoms_denote_app in H23 as (y2 & y3 & -> & H2 & H3).
  apply atoms_denote_literal in H1. apply atoms_denote_literal in H3. subst y1 y3.
  apply atoms_denote_dot in H2 as (c & -> & Hc).
  exists mid, c. split; [exact Hmid|]. split; [exact Hc|]. split; reflexivity.
Qed.

Lemma X4_commandlinetools_address_witness :
  exists (mid : string) (c : ascii),
    nonspace mid /\ c <> "010"%char /\
    "commandlinetools-win-9_latest-zip" =
      "commandlinetools-win-" +:+ mid +:+ "_latest" +:+ String c "zip" /\
    commandlinetools_url "commandlinetools-win-9_latest-zip" =
      "https://dl.google.com/android/repository/commandlinetools-win-"
      +:+ mid +:+ "_latest" +:+ String c "zip".
Proof.
  apply (X4_commandlinetools_address "see commandlinetools-win-9_latest-zip today").
  vm_compute. reflexivity.
Defined.

(** ** The answer to a question *)

Lemma lower_char_y (c : ascii) :
  lower_char c = "y"%char <-> c = "y"%char \/ c = "Y"%char.
Proof.
  split.
  - destruct c as [[] [] [] [] [] [] [] []]; vm_compute; intros H;
      first [discriminate H | (left; reflexivity) | (right; reflexivity)].
  - intros [-> | ->]; reflexivity.
Qed.

Lemma lower_is_y (a : string) : lower a = "y" <-> a = "y" \/ a = "Y".
Proof.
  split.
  - destruct a as [|c [|d a]]; cbn [lower]; intros H; try discriminate.
    injection H as H. apply lower_char_y in H as [-> | ->]; auto.
  - intros [-> | ->]; reflexivity.
Qed.

(** X5: the question about the Android tools is answered yes by y and by Y
    only.  Any other line (yes, an empty line, a y with a space) skips the
    optional flow: the script logs the skip, fetches nothing, starts no
    program, and leaves the machine and the in-memory path alone. *)
Theorem X5_only_y_opts_in (X : Externals) (w : World) (a : string) (rest : list string) :
  stdin w = a :: rest ->
  a <> "y" -> a <> "Y" ->
  install_android_tools X w =
    (Ret (Some "sdkmanager"),
     evolve w (host w) (environ_PATH w) rest
       [Input android_prompt; Log INFO "Skipping Android toolchain installation"]).
Proof.
  intros Hin Hy HY. unfold install_android_tools. step.
  destruct (String.eqb_spec (lower a) "y") as [E|_].
  - apply lower_is_y in E. tauto.
  - step. same_world.
Qed.

Lemma X5_only_y_opts_in_witness :
  install_android_tools Lab.lab (Lab.world_of Lab.host_dev ["yes"; EmptyString]) =
    (Ret (Some "sdkmanager"),
     evolve (Lab.world_of Lab.host_dev ["yes"; EmptyString]) Lab.host_dev EmptyString
       [EmptyString]
       [Input android_prompt; Log INFO "Skipping Android toolchain installation"]).
Proof.
  apply (X5_only_y_opts_in Lab.lab (Lab.world_of Lab.host_dev ["yes"; EmptyString])
           "yes" [EmptyString]).
  - reflexivity.
  - discriminate.
  - discriminate.
Defined.

(** ** The progress bar *)

Lemma update_to_disable (b bsize : Z) (tsize : option Z) (self : TqdmUpTo.t) :
  TqdmUpTo.disable (TqdmUpTo.update_to b bsize tsize self) = TqdmUpTo.disable self.
Proof.
  destruct self as [n0 t0 [|]], tsize; reflexivity.
Qed.

Lemma update_to_n (b bsize : Z) (tsize : option Z) (self : TqdmUpTo.t) :
  TqdmUpTo.n (TqdmUpTo.update_to b bsize tsize self) =
    if TqdmUpTo.disable self then TqdmUpTo.n self else b * bsize.
Proof.
  destruct self as [n0 t0 [|]], tsize;
    unfold TqdmUpTo.update_to, TqdmUpTo.update; cbn; lia.
Qed.

Lemma reports_disable (calls : list (Z * Z * option Z)) (self : TqdmUpTo.t) :
  TqdmUpTo.disable (foldl TqdmUpTo.report self calls) = TqdmUpTo.disable self.
Proof.
  revert self. induction calls as [|c calls IH]; intros self; [reflexivity|].
  cbn [foldl]. rewrite IH. apply update_to_disable.
Qed.

(** X6: update_to moves an enabled bar to b * bsize whatever its count was
    (as the comment in the source says), replaces the total whenever a
    size is given (a size of -1 included) and keeps it otherwise; a
    disabled bar keeps its count.  After a whole transfer and the
    assignment that follows it, the count of an enabled bar is b * bsize
    of the last report (its old count if there was none), and the total
    equals the count. *)
Theorem X6_progress_bar_follows_reports (calls : list (Z * Z * option Z))
    (b bsize : Z) (tsize : option Z) (self : TqdmUpTo.t) :
  TqdmUpTo.n (TqdmUpTo.update_to b bsize tsize self) =
    (if TqdmUpTo.disable self then TqdmUpTo.n self else b * bsize)
  /\ TqdmUpTo.total (TqdmUpTo.update_to b bsize tsize self) =
       match tsize with
       | Some ts => Some ts
       | None => TqdmUpTo.total self
       end
  /\ TqdmUpTo.n (TqdmUpTo.transfer calls self) =
       (if TqdmUpTo.disable self then TqdmUpTo.n self
        else match last calls with
             | Some call => call.1.1 * call.1.2
             | None => TqdmUpTo.n self
             end)
  /\ TqdmUpTo.total (TqdmUpTo.transfer calls self) =
       Some (TqdmUpTo.n (TqdmUpTo.transfer calls self)).
Proof.
  split; [apply update_to_n|]. split.
  { destruct self as [n0 t0 [|]], tsize; reflexivity. }
  split; [|reflexivity].
  unfold TqdmUpTo.transfer. cbn [TqdmUpTo.n].
  induction calls as [|call calls IH] using rev_ind.
  - cbn. destruct (TqdmUpTo.disable self); reflexivity.
  - rewrite foldl_app, last_snoc. cbn [foldl]. unfold TqdmUpTo.report at 1.
    rewrite update_to_n, reports_disable.
    destruct (TqdmUpTo.disable self); [|reflexivity].
    rewrite IH. reflexivity.
Qed.

(** ** The log format *)

Lemma FORMATS_other (no : Z) :
  no <> 10 -> no <> 20 -> no <> 30 -> no <> 40 -> no <> 50 ->
  CustomFormatter.FORMATS !! no = None.
Proof.
  intros. unfold CustomFormatter.FORMATS.
  rewrite !lookup_insert_ne by congruence. apply lookup_empty.
Qed.

(** X7: for a record at one of the five standard levels the formatter
    gives the colour of the level, the level name, a colon and a space,
    the message as it is (percent signs in it are not read again), and the
    reset sequence, so no colour runs on into the next line; DEBUG and
    INFO share one colour.  For a record at any other level number the
    table has no entry and the line is the bare message, without colour
    and without level name. *)
Theorem X7_format_by_level (r : CustomFormatter.LogRecord) :
  CustomFormatter.format r =
    match CustomFormatter.colour_of (CustomFormatter.levelno r) with
    | Some colour =>
        colour +:+ CustomFormatter.levelname r +:+ ": " +:+ CustomFormatter.message r
        +:+ CustomFormatter.reset
    | None => CustomFormatter.message r
    end.
Proof.
  unfold CustomFormatter.format, CustomFormatter.colour_of.
  destruct (Z.eqb_spec (CustomFormatter.levelno r) 10) as [->|H10];
    [vm_compute; reflexivity|].
  destruct (Z.eqb_spec (CustomFormatter.levelno r) 20) as [->|H20];
    [vm_compute; reflexivity|].
  destruct (Z.eqb_spec (CustomFormatter.levelno r) 30) as [->|H30];
    [vm_compute; reflexivity|].
  destruct (Z.eqb_spec (CustomFormatter.levelno r) 40) as [->|H40];
    [vm_compute; reflexivity|].
  destruct (Z.eqb_spec (CustomFormatter.levelno r) 50) as [->|H50];
    [vm_compute; reflexivity|].
  cbn [orb]. rewrite FORMATS_other by assumption.
  unfold CustomFormatter.Formatter_format. cbn. apply app_nil_r_s.
Qed.

(** ** What holds on normal return *)

Ltac wsimpl_in H :=
  cbn [host environ_PATH pathext localappdata stdin trace
       record with_host with_PATH with_stdin evolve fst snd] in H.

Lemma post_bind {A B} (m : M A) (k : A -> M B) (Q : B -> World -> Prop) :
  (forall a, post (k a) Q) -> post (bind m k) Q.
Proof.
  intros Hk w b w' H. unfold bind in H.
  destruct (m w) as [[a|c|e] w1]; [exact (Hk a w1 b w' H) | discriminate | discriminate].
Qed.

Lemma post_sys_exit {A} (c : Z) (Q : A -> World -> Prop) : post (sys_exit c) Q.
Proof. intros w a w' H. discriminate. Qed.

Lemma post_raise {A} (e : exn) (Q : A -> World -> Prop) : post (raise e) Q.
Proof. intros w a w' H. discriminate. Qed.

Lemma update_path_Ret (w w1 : World) (u : unit) :
  update_path w = (Ret u, w1) ->
  (shell (host w) = ShellWorking /\
   w1 = with_PATH (persisted_path (host w)) (with_host (host w) (record refresh w)))
  \/ (shell (host w) = ShellFailing /\
      w1 = with_PATH EmptyString (with_host (host w) (record refresh w))).
Proof.
  unfold update_path, bind, run_pwsh, pwsh. cbn [host record].
  destruct (shell (host w)); intros H.
  - discriminate.
  - right. split; [reflexivity|]. injection H as _ <-. reflexivity.
  - left. split; [reflexivity|]. rewrite powershell_echo in H.
    injection H as _ <-. reflexivity.
Qed.

(** After a refresh and a successful lookup of [cmd], the value handed on
    is where [cmd] resolves on the refreshed path. *)
Lemma lookup_after_refresh (cmd msg : string) (w w' : World) (a : option string) :
  (update_path;;
   let* found := shutil_which cmd in
   if is_Some_bool found then
     let* path := shutil_which cmd in logger INFO msg;; ret path
   else raise TypeError) w = (Ret a, w') ->
  exists p, a = Some p /\ resolves cmd p w'.
Proof.
  intros H. unfold bind at 1 in H.
  destruct (update_path w) as [[u|c|e] w1] eqn:Hu; try discriminate.
  unfold bind, shutil_which, logger, emit, ret, raise in H.
  destruct (which (files (host w1)) (pathext w1) cmd (environ_PATH w1)) as [p|] eqn:Hw;
    cbn [is_Some_bool] in H; [|discriminate].
  injection H as <- <-. exists p. split; [first [reflexivity | exact Hw]|].
  destruct (update_path_Ret _ _ _ Hu) as [[Hs E] | [Hs E]]; subst w1.
  - unfold resolves. wsimpl. wsimpl_in Hw. auto.
  - wsimpl_in Hw. rewrite which_empty_path in Hw. discriminate.
Qed.

Lemma post_detect (cmd msg : string) (K : M (option string)) :
  post K (fun a w' => exists p, a = Some p /\ resolves cmd p w') ->
  post (update_path;;
        let* found := shutil_which cmd in
        if is_Some_bool found then
          let* path := shutil_which cmd in logger INFO msg;; ret path
        else K)
       (fun a w' => exists p, a = Some p /\ resolves cmd p w').
Proof.
  intros HK w a w' H.
  destruct (update_path w) as [[u|c|e] w1] eqn:Hu;
    unfold bind at 1 in H; rewrite Hu in H; try discriminate.
  destruct (which (files (host w1)) (pathext w1) cmd (environ_PATH w1)) as [p|] eqn:Hw.
  - apply (lookup_after_refresh cmd msg w). unfold bind at 1. rewrite Hu.
    unfold bind at 1 in H. unfold bind at 1. unfold shutil_which at 1 in H.
    unfold shutil_which at 1. rewrite Hw in *. exact H.
  - unfold bind at 1 in H. unfold shutil_which at 1 in H. rewrite Hw in H.
    exact (HK _ _ _ H).
Qed.

Lemma post_verify (rc : Z) (cmd msg : string) (K : M (option string)) :
  post K (fun a w' => exists p, a = Some p /\ resolves cmd p w') ->
  post (update_path;;
        let* ok := and_which (rc =? 0) cmd in
        if ok then
          let* path := shutil_which cmd in logger INFO msg;; ret path
        else K)
       (fun a w' => exists p, a = Some p /\ resolves cmd p w').
Proof.
  intros HK w a w' H.
  destruct (update_path w) as [[u|c|e] w1] eqn:Hu;
    unfold bind at 1 in H; rewrite Hu in H; try discriminate.
  unfold bind at 1 in H. rewrite and_which_eq in H.
  destruct (rc =? 0); cbn [andb] in H; [|exact (HK _ _ _ H)].
  destruct (which (files (host w1)) (pathext w1) cmd (environ_PATH w1)) as [p|] eqn:Hw;
    cbn [is_Some_bool] in H; [|exact (HK _ _ _ H)].
  apply (lookup_after_refresh cmd msg w). unfold bind at 1. rewrite Hu.
  unfold bind at 1. unfold shutil_which at 1. rewrite Hw. exact H.
Qed.

Lemma post_ensure_git (X : Externals) :
  post (ensure_git X) (fun a w' => exists p, a = Some p /\ resolves "git" p w').
Proof.
  unfold ensure_git. apply post_bind; intros _. apply post_detect.
  apply post_bind; intros _. apply post_bind; intros rc1. apply post_verify.
  apply post_bind; intros _. apply post_bind; intros text.
  destruct (re_search git_installer_pattern text) as [g|].
  - apply post_bind; intros _. apply post_bind; intros rc2. apply post_verify.
    apply post_bind; intros _. apply post_sys_exit.
  - apply post_bind; intros _. apply post_sys_exit.
Qed.

Lemma post_ensure_flutter (X : Externals) (git_path : option string) :
  post (ensure_flutter X git_path)
       (fun a w' => exists p, a = Some p /\ resolves "flutter" p w').
Proof.
  unfold ensure_flutter. apply post_bind; intros _. apply post_detect.
  apply post_bind; intros _. apply post_bind; intros git.
  apply post_bind; intros _. apply post_bind; intros _. apply post_bind; intros _.
  apply post_bind; intros cp. apply post_bind; intros _.
  unfold verify_flutter. apply post_detect.
  apply post_bind; intros _. apply post_sys_exit.
Qed.

(** X8: whenever the Git flow returns normally, the path it hands on is
    where git resolves on the in-memory path, and that path is the freshly
    read persisted one: the flow never returns without a usable git, on
    any machine and whatever winget, the network and the installer do. *)
Theorem X8_git_flow_returns_a_resolving_path (X : Externals) (w w' : World)
    (git_path : option string) :
  ensure_git X w = (Ret git_path, w') ->
  exists p, git_path = Some p /\ resolves "git" p w'.
Proof. intros H. exact (post_ensure_git X w git_path w' H). Qed.

Lemma X8_git_flow_returns_a_resolving_path_witness :
  exists p,
    Some "C:\Program Files\Git\cmd\git.EXE" = Some p /\
    resolves "git" p (after (ensure_git Lab.lab) (Lab.world_of Lab.host_bare [])).
Proof.
  apply (X8_git_flow_returns_a_resolving_path Lab.lab (Lab.world_of Lab.host_bare [])).
  vm_compute. reflexivity.
Defined.

(** X9: whenever the Flutter flow returns normally, whether Flutter was
    there or was cloned, the path it hands on is where flutter resolves on
    the in-memory path, which is the freshly read persisted one. *)
Theorem X9_flutter_flow_returns_a_resolving_path (X : Externals) (w w' : World)
    (git_path flutter_path : option string) :
  ensure_flutter X git_path w = (Ret flutter_path, w') ->
  exists p, flutter_path = Some p /\ resolves "flutter" p w'.
Proof. intros H. exact (post_ensure_flutter X git_path w flutter_path w' H). Qed.

Lemma X9_flutter_flow_returns_a_resolving_path_witness :
  exists p,
    Some "C:\src\flutter\bin\flutter.BAT" = Some p /\
    resolves "flutter" p
      (after (ensure_flutter Lab.lab (Some "git")) (Lab.world_of Lab.host_half [])).
Proof.
  apply (X9_flutter_flow_returns_a_resolving_path Lab.lab (Lab.world_of Lab.host_half [])
           _ (Some "git")).
  vm_compute. reflexivity.
Defined.

(** ** Errors and exits *)

Lemma errs_bind {A B} (m : M A) (k : A -> M B) :
  errs_then_exits m -> (forall a, errs_then_exits (k a)) -> errs_then_exits (bind m k).
Proof.
  intros Hm Hk w. destruct (Hm w) as (evs1 & Ht1 & Hr1). unfold after, bind in *.
  destruct (m w) as [[a|c|e] w1] eqn:E; cbn [fst snd] in *.
  - destruct (Hk a w1) as (evs2 & Ht2 & Hr2). unfold after in Ht2.
    exists (evs1 ++ evs2). split; [rewrite Ht2, Ht1, app_assoc; reflexivity|].
    destruct ((k a w1).1) as [b|c|e].
    + apply Forall_app. split; assumption.
    + destruct Hr2 as (Hc & evs0 & msg & -> & Hno & Hmsg). split; [exact Hc|].
      exists (evs1 ++ evs0), msg. split; [apply app_assoc|].
      split; [apply Forall_app; split; assumption | exact Hmsg].
    + apply Forall_app. split; assumption.
  - exists evs1. split; assumption.
  - exists evs1. split; assumption.
Qed.

(** The way every fatal branch of the script ends. *)
Lemma errs_fatal {A} (msg : string) :
  fatal_message msg -> errs_then_exits (logger ERROR msg;; @sys_exit A 1).
Proof.
  intros Hmsg w. exists [Log ERROR msg]. split; [reflexivity|].
  cbn. split; [reflexivity|]. exists [], msg.
  split; [reflexivity|]. split; [constructor | exact Hmsg].
Qed.

(** A step that never exits and logs no error. *)
Ltac quiet_step :=
  let w := fresh "w" in
  intros w; unfold after; cbv beta;
  repeat (cbn [fst snd];
          match goal with
          | |- context [match ?x with _ => _ end] =>
              lazymatch x with
              | fst _ => fail
              | _ => destruct x
              end
          end);
  cbn [fst snd trace record with_host with_PATH with_stdin];
  first
    [ exists []; split; [symmetry; apply app_nil_r | constructor]
    | eexists; split; [reflexivity | repeat constructor] ].

Lemma errs_ret {A} (a : A) : errs_then_exits (ret a).
Proof. unfold ret. quiet_step. Qed.

Lemma errs_raise {A} (e : exn) : errs_then_exits (@raise A e).
Proof. unfold raise. quiet_step. Qed.

Lemma errs_logger (l : level) (msg : string) : l <> ERROR -> errs_then_exits (logger l msg).
Proof.
  intros Hl w. exists [Log l msg]. split; [reflexivity|].
  cbn. repeat constructor. destruct l; [reflexivity.. | contradiction].
Qed.

Lemma errs_shutil_which (cmd : string) : errs_then_exits (shutil_which cmd).
Proof. unfold shutil_which. quiet_step. Qed.

Lemma errs_run_pwsh (c : pwsh_command) : errs_then_exits (run_pwsh c).
Proof. unfold run_pwsh. cbn [host record]. quiet_step. Qed.

Lemma errs_input (prompt : string) : errs_then_exits (input prompt).
Proof. unfold input. cbn [stdin record]. quiet_step. Qed.

Lemma errs_winreg_query_path (sc : PathScope) : errs_then_exits (winreg_query_path sc).
Proof. unfold winreg_query_path. cbn [host record]. quiet_step. Qed.

Lemma errs_path_exists (p : string) : errs_then_exits (path_exists p).
Proof. unfold path_exists. quiet_step. Qed.

Lemma errs_expand_sdk_dir : errs_then_exits expand_sdk_dir.
Proof. unfold expand_sdk_dir. quiet_step. Qed.

Lemma errs_mkdir_p (p : string) : errs_then_exits (mkdir_p p).
Proof. unfold mkdir_p. cbn [host record]. quiet_step. Qed.

Lemma errs_rmtree (p : string) : errs_then_exits (rmtree p).
Proof. unfold rmtree. cbn [host record]. quiet_step. Qed.

Lemma errs_rename (src dst : string) : errs_then_exits (rename src dst).
Proof. unfold rename. cbn [host record]. quiet_step. Qed.

Lemma errs_subprocess_run (X : Externals) (argv : list string) :
  errs_then_exits (subprocess_run X argv).
Proof. unfold subprocess_run. cbn [host environ_PATH record]. quiet_step. Qed.

Lemma errs_requests_get (X : Externals) (url : string) : errs_then_exits (requests_get X url).
Proof. unfold requests_get. quiet_step. Qed.

Lemma errs_urlretrieve (X : Externals) (url filename : string) :
  errs_then_exits (urlretrieve X url filename).
Proof. unfold urlretrieve. quiet_step. Qed.

Lemma errs_extractall (X : Externals) (archive target : string) :
  errs_then_exits (extractall X archive target).
Proof. unfold extractall. cbn [host record]. quiet_step. Qed.

Create HintDb exits.
#[local] Hint Resolve errs_ret errs_raise errs_shutil_which errs_run_pwsh errs_input
  errs_winreg_query_path errs_path_exists errs_expand_sdk_dir errs_mkdir_p errs_rmtree
  errs_rename errs_subprocess_run errs_requests_get errs_urlretrieve errs_extractall
  : exits.
#[local] Hint Extern 1 (errs_then_exits (logger _ _)) =>
  apply errs_logger; discriminate : exits.
#[local] Hint Extern 1 (fatal_message _) => unfold fatal_message; tauto : exits.

Ltac exits :=
  repeat first
    [ apply errs_fatal; solve [auto with exits]
    | solve [auto with exits]
    | apply errs_bind; [| intros ?]
    | match goal with
      | |- errs_then_exits (if ?b then _ else _) => destruct b
      | |- errs_then_exits (match ?o with Some _ => _ | None => _ end) => destruct o
      end ].

Lemma errs_update_path : errs_then_exits update_path.
Proof. unfold update_path. apply errs_bind; [auto with exits|]. intros cp. quiet_step. Qed.

Lemma errs_and_which (a : bool) (cmd : string) : errs_then_exits (and_which a cmd).
Proof. unfold and_which. exits. Qed.

Lemma errs_append_path (sc : PathScope) (dir : string) : errs_then_exits (append_path sc dir).
Proof. unfold append_path. exits. Qed.

Lemma errs_report_path_update (cp : CompletedProcess) :
  errs_then_exits (report_path_update cp).
Proof. unfold report_path_update. exits. Qed.

#[local] Hint Resolve errs_update_path errs_and_which errs_append_path
  errs_report_path_update : exits.

Lemma errs_ensure_git (X : Externals) : errs_then_exits (ensure_git X).
Proof. unfold ensure_git. exits. Qed.

Lemma errs_ensure_flutter (X : Externals) (git_path : option string) :
  errs_then_exits (ensure_flutter X git_path).
Proof. unfold ensure_flutter, verify_flutter. exits. Qed.

Lemma errs_install_android_tools (X : Externals) :
  errs_then_exits (install_android_tools X).
Proof.
  unfold install_android_tools, provision_cmdline_tools, extract_cmdline_tools,
    verify_sdkmanager. exits.
Qed.

Lemma errs_main (X : Externals) : errs_then_exits (main X).
Proof.
  unfold main. apply errs_bind; [apply errs_ensure_git|]. intros gp.
  apply errs_bind; [apply errs_ensure_flutter|]. intros fp.
  apply errs_bind; [apply errs_install_android_tools|]. intros sp. exits.
Qed.

(** X10: the script ends by sys.exit only with status 1, and only right
    after logging one of its three messages that name a manual-install
    address: that message is the last event of the run and the only error
    it logged. *)
Theorem X10_exit_follows_fatal_message (X : Externals) (w w' : World) (c : Z) :
  main X w = (SysExit c, w') ->
  c = 1 /\
  exists (evs : list event) (msg : string),
    trace w' = trace w ++ evs ++ [Log ERROR msg] /\
    no_error_log evs /\ fatal_message msg.
Proof.
  intros H. destruct (errs_main X w) as (evs & Ht & Hr).
  unfold after in Ht. rewrite H in Ht, Hr. cbn [fst snd] in Ht, Hr.
  destruct Hr as (Hc & evs0 & msg & -> & Hno & Hmsg).
  split; [exact Hc|]. exists evs0, msg. auto.
Qed.

Lemma X10_exit_follows_fatal_message_witness :
  1 = 1 /\
  exists (evs : list event) (msg : string),
    trace (after (main Lab.lab) Lab.keep_start) =
      trace Lab.keep_start ++ evs ++ [Log ERROR msg] /\
    no_error_log evs /\ fatal_message msg.
Proof.
  apply (X10_exit_follows_fatal_message Lab.lab Lab.keep_start).
  vm_compute. reflexivity.
Defined.

(** X11: a run that returns normally has read the final press-enter line
    as its last action and has logged no error on the way; so a fatal
    branch never reaches that prompt. *)
Theorem X11_normal_return_ends_at_the_prompt (X : Externals) (w w' : World) (u : unit) :
  main X w = (Ret u, w') ->
  exists evs : list event,
    trace w' = trace w ++ evs ++ [Input "Press enter to exit..."] /\
    no_error_log evs.
Proof.
  intros H. unfold main in H.
  destruct (errs_ensure_git X w) as (evs1 & Ht1 & Hr1). unfold after in Ht1.
  unfold bind at 1 in H.
  destruct (ensure_git X w) as [[gp|c|e] w1]; try discriminate. cbn [fst snd] in *.
  destruct (errs_ensure_flutter X gp w1) as (evs2 & Ht2 & Hr2). unfold after in Ht2.
  unfold bind at 1 in H.
  destruct (ensure_flutter X gp w1) as [[fp|c|e] w2]; try discriminate. cbn [fst snd] in *.
  destruct (errs_install_android_tools X w2) as (evs3 & Ht3 & Hr3). unfold after in Ht3.
  unfold bind at 1 in H.
  destruct (install_android_tools X w2) as [[sp|c|e] w3]; try discriminate.
  cbn [fst snd] in *.
  unfold bind, input, ret in H. cbn [stdin record] in H.
  destruct (stdin w3) as [|a rest]; [discriminate|].
  injection H as _ <-. exists (evs1 ++ evs2 ++ evs3). split.
  - wsimpl. rewrite Ht3, Ht2, Ht1. rewrite <- !app_assoc. reflexivity.
  - repeat (apply Forall_app; split); assumption.
Qed.

Lemma X11_normal_return_ends_at_the_prompt_witness :
  exists evs : list event,
    trace (after (main Lab.lab) (Lab.world_of Lab.host_full ["n"; EmptyString])) =
      trace (Lab.world_of Lab.host_full ["n"; EmptyString])
      ++ evs ++ [Input "Press enter to exit..."] /\
    no_error_log evs.
Proof.
  apply (X11_normal_return_ends_at_the_prompt Lab.lab
           (Lab.world_of Lab.host_full ["n"; EmptyString]) _ tt).
  vm_compute. reflexivity.
Defined.

(** ** Input *)

Lemma keeps_stdin_bind {A B} (m : M A) (k : A -> M B) :
  keeps_stdin m -> (forall a, keeps_stdin (k a)) -> keeps_stdin (bind m k).
Proof.
  intros Hm Hk w. specialize (Hm w). unfold after, bind in *.
  destruct (m w) as [[a|c|e] w1]; cbn [snd] in *; [|assumption..].
  rewrite <- Hm. apply (Hk a w1).
Qed.

Ltac same_stdin :=
  let w := fresh "w" in
  intros w; unfold after; cbv beta;
  repeat match goal with
         | |- context [match ?x with _ => _ end] => destruct x
         end;
  reflexivity.

Lemma keeps_stdin_ret {A} (a : A) : keeps_stdin (ret a).
Proof. unfold ret. same_stdin. Qed.

Lemma keeps_stdin_raise {A} (e : exn) : keeps_stdin (@raise A e).
Proof. unfold raise. same_stdin. Qed.

Lemma keeps_stdin_sys_exit {A} (c : Z) : keeps_stdin (@sys_exit A c).
Proof. unfold sys_exit. same_stdin. Qed.

Lemma keeps_stdin_logger (l : level) (msg : string) : keeps_stdin (logger l msg).
Proof. unfold logger, emit. same_stdin. Qed.

Lemma keeps_stdin_shutil_which (cmd : string) : keeps_stdin (shutil_which cmd).
Proof. unfold shutil_which. same_stdin. Qed.

Lemma keeps_stdin_run_pwsh (c : pwsh_command) : keeps_stdin (run_pwsh c).
Proof. unfold run_pwsh. cbn [host record]. same_stdin. Qed.

Lemma keeps_stdin_winreg_query_path (sc : PathScope) : keeps_stdin (winreg_query_path sc).
Proof. unfold winreg_query_path. cbn [host record]. same_stdin. Qed.

Lemma keeps_stdin_subprocess_run (X : Externals) (argv : list string) :
  keeps_stdin (subprocess_run X argv).
Proof. unfold subprocess_run. cbn [host environ_PATH record]. same_stdin. Qed.

Lemma keeps_stdin_requests_get (X : Externals) (url : string) :
  keeps_stdin (requests_get X url).
Proof. unfold requests_get. same_stdin. Qed.

Lemma keeps_stdin_urlretrieve (X : Externals) (url filename : string) :
  keeps_stdin (urlretrieve X url filename).
Proof. unfold urlretrieve. same_stdin. Qed.

Create HintDb stdin_kept.
#[local] Hint Resolve keeps_stdin_ret keeps_stdin_raise keeps_stdin_sys_exit
  keeps_stdin_logger keeps_stdin_shutil_which keeps_stdin_run_pwsh
  keeps_stdin_winreg_query_path keeps_stdin_subprocess_run keeps_stdin_requests_get
  keeps_stdin_urlretrieve : stdin_kept.

Ltac unread :=
  repeat first
    [ solve [auto with stdin_kept]
    | apply keeps_stdin_bind; [| intros ?]
    | match goal with
      | |- keeps_stdin (if ?b then _ else _) => destruct b
      | |- keeps_stdin (match ?o with Some _ => _ | None => _ end) => destruct o
      end ].

Lemma keeps_stdin_update_path : keeps_stdin update_path.
Proof.
  unfold update_path. apply keeps_stdin_bind; [auto with stdin_kept|].
  intros cp. same_stdin.
Qed.

#[local] Hint Resolve keeps_stdin_update_path : stdin_kept.

Lemma keeps_stdin_ensure_git (X : Externals) : keeps_stdin (ensure_git X).
Proof. unfold ensure_git, and_which. unread. Qed.

Lemma keeps_stdin_ensure_flutter (X : Externals) (git_path : option string) :
  keeps_stdin (ensure_flutter X git_path).
Proof.
  unfold ensure_flutter, verify_flutter, append_path, report_path_update. unread.
Qed.

(** X12: the script cannot run unattended.  With no line to read, no run
    ends with status 0: either a required tool fails first, or the
    question about the Android tools, which nothing can skip, raises
    EOFError; the two required flows themselves never read input. *)
Theorem X12_no_input_no_success (X : Externals) (w : World) :
  stdin w = [] ->
  exit_status (main X w).1 = 1
  /\ stdin (after (ensure_git X) w) = []
  /\ forall git_path, stdin (after (ensure_flutter X git_path) w) = [].
Proof.
  intros Hin. split; [|split].
  - destruct (errs_main X w) as (evs & _ & Hr).
    destruct (main X w) as [[u|c|e] w'] eqn:E; cbn [fst exit_status] in *.
    + exfalso. unfold main in E. unfold bind at 1 in E.
      pose proof (keeps_stdin_ensure_git X w) as H1. unfold after in H1.
      destruct (ensure_git X w) as [[gp|c|e] w1]; try discriminate. cbn [snd] in H1.
      unfold bind at 1 in E.
      pose proof (keeps_stdin_ensure_flutter X gp w1) as H2. unfold after in H2.
      destruct (ensure_flutter X gp w1) as [[fp|c|e] w2]; try discriminate. cbn [snd] in H2.
      unfold install_android_tools in E. unfold bind at 1 2 in E.
      unfold input at 1 in E. cbn [stdin record] in E.
      rewrite H2, H1, Hin in E. discriminate.
    + destruct Hr as [Hc _]. exact Hc.
    + reflexivity.
  - rewrite keeps_stdin_ensure_git. exact Hin.
  - intros gp. rewrite keeps_stdin_ensure_flutter. exact Hin.
Qed.

Lemma X12_no_input_no_success_witness :
  exit_status (main Lab.lab (Lab.world_of Lab.host_full [])).1 = 1
  /\ stdin (after (ensure_git Lab.lab) (Lab.world_of Lab.host_full [])) = []
  /\ forall git_path,
       stdin (after (ensure_flutter Lab.lab git_path) (Lab.world_of Lab.host_full [])) = [].
Proof.
  apply (X12_no_input_no_success Lab.lab (Lab.world_of Lab.host_full [])).
  reflexivity.
Defined.

(** ** The git path handed to the clone *)

Lemma never_raises_bind {A B} (e : exn) (m : M A) (k : A -> M B) :
  never_raises e m -> (forall a, never_raises e (k a)) -> never_raises e (bind m k).
Proof.
  intros Hm Hk w. specialize (Hm w). unfold bind.
  destruct (m w) as [[a|c|e'] w1]; cbn [fst] in *; [apply Hk | discriminate |].
  intros [= ->]. apply Hm. reflexivity.
Qed.

Lemma never_raises_bind_post {A B} (e : exn) (m : M A) (k : A -> M B)
    (Q : A -> World -> Prop) :
  never_raises e m -> post m Q ->
  (forall a w', Q a w' -> never_raises e (k a)) ->
  never_raises e (bind m k).
Proof.
  intros Hm HQ Hk w. specialize (Hm w). unfold bind.
  destruct (m w) as [[a|c|e'] w1] eqn:E; cbn [fst] in *;
    [| discriminate | intros [= ->]; apply Hm; reflexivity].
  apply (Hk a w1 (HQ _ _ _ E)).
Qed.

Ltac no_type_error :=
  let w := fresh "w" in
  intros w; cbv beta;
  repeat match goal with
         | |- context [match ?x with _ => _ end] => destruct x
         end;
  cbn [fst]; discriminate.

Lemma nte_ret {A} (a : A) : never_raises TypeError (ret a).
Proof. unfold ret. no_type_error. Qed.

Lemma nte_sys_exit {A} (c : Z) : never_raises TypeError (@sys_exit A c).
Proof. unfold sys_exit. no_type_error. Qed.

Lemma nte_logger (l : level) (msg : string) : never_raises TypeError (logger l msg).
Proof. unfold logger, emit. no_type_error. Qed.

Lemma nte_shutil_which (cmd : string) : never_raises TypeError (shutil_which cmd).
Proof. unfold shutil_which. no_type_error. Qed.

Lemma nte_run_pwsh (c : pwsh_command) : never_raises TypeError (run_pwsh c).
Proof. unfold run_pwsh. cbn [host record]. no_type_error. Qed.

Lemma nte_input (prompt : string) : never_raises TypeError (input prompt).
Proof. unfold input. cbn [stdin record]. no_type_error. Qed.

Lemma nte_winreg_query_path (sc : PathScope) : never_raises TypeError (winreg_query_path sc).
Proof. unfold winreg_query_path. cbn [host record]. no_type_error. Qed.

Lemma nte_path_exists (p : string) : never_raises TypeError (path_exists p).
Proof. unfold path_exists. no_type_error. Qed.

Lemma nte_expand_sdk_dir : never_raises TypeError expand_sdk_dir.
Proof. unfold expand_sdk_dir. no_type_error. Qed.

Lemma nte_mkdir_p (p : string) : never_raises TypeError (mkdir_p p).
Proof. unfold mkdir_p. cbn [host record]. no_type_error. Qed.

Lemma nte_rmtree (p : string) : never_raises TypeError (rmtree p).
Proof. unfold rmtree. cbn [host record]. no_type_error. Qed.

Lemma nte_rename (src dst : string) : never_raises TypeError (rename src dst).
Proof. unfold rename. cbn [host record]. no_type_error. Qed.

Lemma nte_subprocess_run (X : Externals) (argv : list string) :
  never_raises TypeError (subprocess_run X argv).
Proof. unfold subprocess_run. cbn [host environ_PATH record]. no_type_error. Qed.

Lemma nte_requests_get (X : Externals) (url : string) :
  never_raises TypeError (requests_get X url).
Proof. unfold requests_get. no_type_error. Qed.

Lemma nte_urlretrieve (X : Externals) (url filename : string) :
  never_raises TypeError (urlretrieve X url filename).
Proof. unfold urlretrieve. no_type_error. Qed.

Lemma nte_extractall (X : Externals) (archive target : string) :
  never_raises TypeError (extractall X archive target).
Proof. unfold extractall. cbn [host record]. no_type_error. Qed.

Create HintDb typed.
#[local] Hint Resolve nte_ret nte_sys_exit nte_logger nte_shutil_which nte_run_pwsh
  nte_input nte_winreg_query_path nte_path_exists nte_expand_sdk_dir nte_mkdir_p
  nte_rmtree nte_rename nte_subprocess_run nte_requests_get nte_urlretrieve
  nte_extractall : typed.

Ltac typed :=
  repeat first
    [ solve [auto with typed]
    | apply never_raises_bind; [| intros ?]
    | match goal with
      | |- never_raises _ (if ?b then _ else _) => destruct b
      | |- never_raises _ (match ?o with Some _ => _ | None => _ end) => destruct o
      end ].

Lemma nte_update_path : never_raises TypeError update_path.
Proof.
  unfold update_path. apply never_raises_bind; [auto with typed|].
  intros cp. no_type_error.
Qed.

#[local] Hint Resolve nte_update_path : typed.

Lemma nte_ensure_git (X : Externals) : never_raises TypeError (ensure_git X).
Proof. unfold ensure_git, and_which. typed. Qed.

Lemma nte_ensure_flutter (X : Externals) (p : string) :
  never_raises TypeError (ensure_flutter X (Some p)).
Proof.
  unfold ensure_flutter, verify_flutter, append_path, report_path_update. typed.
Qed.

Lemma nte_install_android_tools (X : Externals) :
  never_raises TypeError (install_android_tools X).
Proof.
  unfold install_android_tools, provision_cmdline_tools, extract_cmdline_tools,
    verify_sdkmanager, append_path, report_path_update. typed.
Qed.

(** X13: the clone is never started without a program name.  The Flutter
    flow, taken alone, raises TypeError when it has to clone and is given
    no git path; but in the script it only ever receives what the Git flow
    returned, which is always a path, so no run raises TypeError. *)
Theorem X13_clone_always_has_a_git_path (X : Externals) (w : World) :
  (main X w).1 <> Raise TypeError
  /\ (shell (host w) = ShellWorking ->
      which (files (host w)) (pathext w) "flutter" (persisted_path (host w)) = None ->
      (ensure_flutter X None w).1 = Raise TypeError).
Proof.
  split.
  - revert w. change (never_raises TypeError (main X)). unfold main.
    apply (never_raises_bind_post _ _ _ _ (nte_ensure_git X) (post_ensure_git X)).
    intros gp w' (p & -> & _).
    apply never_raises_bind; [apply nte_ensure_flutter|]. intros fp.
    apply never_raises_bind; [apply nte_install_android_tools|]. intros sp. typed.
  - intros Hs Hw. unfold ensure_flutter. step. step. step. rewrite Hw.
    cbn [is_Some_bool]. step. reflexivity.
Qed.

Lemma X13_clone_always_has_a_git_path_witness :
  (main Lab.lab (Lab.world_of Lab.host_half [])).1 <> Raise TypeError
  /\ (ensure_flutter Lab.lab None (Lab.world_of Lab.host_half [])).1 = Raise TypeError.
Proof.
  destruct (X13_clone_always_has_a_git_path Lab.lab (Lab.world_of Lab.host_half []))
    as [Hmain Halone].
  split; [exact Hmain|]. apply Halone.
  - reflexivity.
  - vm_compute. reflexivity.
Defined.

(** ** When a program cannot be started, or fails *)

(** X14: when Git is absent and winget cannot be started, the Git flow
    raises at the attempt to start it: the warning about a failed winget
    is never logged and the manual download is never tried, although that
    warning names this very case. *)
Theorem X14_missing_winget_stops_the_flow (X : Externals) (w : World) :
  shell (host w) = ShellWorking ->
  which (files (host w)) (pathext w) "git" (persisted_path (host w)) = None ->
  program X winget_argv (persisted_path (host w)) (host w) = None ->
  ensure_git X w =
    (Raise FileNotFoundError,
     evolve w (host w) (persisted_path (host w)) (stdin w)
       [Log INFO "Checking for Git..."; refresh;
        Log INFO "Attempting to install Git with winget...";
        Subprocess winget_argv])
  /\ exit_status (main X w).1 = 1.
Proof.
  intros Hs H0 Hw.
  assert (E : ensure_git X w =
    (Raise FileNotFoundError,
     evolve w (host w) (persisted_path (host w)) (stdin w)
       [Log INFO "Checking for Git..."; refresh;
        Log INFO "Attempting to install Git with winget...";
        Subprocess winget_argv])).
  { unfold ensure_git. step. step. step. rewrite H0. cbn [is_Some_bool]. step.
    apply bind_Raise. unfold subprocess_run. wsimpl. rewrite Hw. same_world. }
  split; [exact E|]. unfold main. rewrite (bind_Raise _ _ _ _ _ E). reflexivity.
Qed.

Lemma X14_missing_winget_stops_the_flow_witness :
  ensure_git Bench.without_winget (Lab.world_of Lab.host_bare []) =
    (Raise FileNotFoundError,
     evolve (Lab.world_of Lab.host_bare []) Lab.host_bare
       (persisted_path Lab.host_bare) []
       [Log INFO "Checking for Git..."; refresh;
        Log INFO "Attempting to install Git with winget...";
        Subprocess winget_argv])
  /\ exit_status (main Bench.without_winget (Lab.world_of Lab.host_bare [])).1 = 1.
Proof.
  apply (X14_missing_winget_stops_the_flow Bench.without_winget
           (Lab.world_of Lab.host_bare [])).
  - reflexivity.
  - vm_compute. reflexivity.
  - reflexivity.
Defined.

(** X15: the exit status of git clone is never looked at.  Whatever it is,
    once the clone has run the flow logs that Flutter was cloned, appends
    C:\src\flutter\bin to the Machine Path and goes on to the check; so a
    failed clone still leaves the new entry on the Path.  The write is
    taken to succeed: a working shell, an elevated process, and a stored
    value that the shell reads as it is written. *)
Theorem X15_clone_status_is_ignored (X : Externals) (w : World) (git v : string)
    (rc : Z) (h1 : Host) :
  shell (host w) = ShellWorking ->
  which (files (host w)) (pathext w) "flutter" (persisted_path (host w)) = None ->
  program X
    [git; "clone"; "https://github.com/flutter/flutter.git"; "-b"; "stable"; "C:\src"]
    (persisted_path (host w)) (host w) = Some (rc, h1) ->
  persisted Machine h1 = Some v ->
  shell h1 = ShellWorking ->
  writable Machine h1 = true ->
  is_plain v = true ->
  ensure_flutter X (Some git) w =
    verify_flutter
      (evolve w (store Machine (v +:+ ";" +:+ "C:\src\flutter\bin") h1)
         (persisted_path (host w)) (stdin w)
         [Log INFO "Checking for Flutter..."; refresh;
          Log INFO "Attempting to clone Flutter in C:\src...";
          Subprocess
            [git; "clone"; "https://github.com/flutter/flutter.git"; "-b"; "stable";
             "C:\src"];
          Log INFO "Cloned Flutter to C:\src\flutter";
          Log INFO "Attempting to update PATH...";
          RegQuery Machine;
          Subprocess
            (pwsh_argv (SetPath (v +:+ ";" +:+ "C:\src\flutter\bin") Machine));
          Log INFO "Updated PATH"]).
Proof.
  intros Hs H0 Hclone Hv Hs1 Hw1 Hp.
  unfold ensure_flutter. step. step. step. rewrite H0. cbn [is_Some_bool].
  step. unfold ret at 1. unfold bind at 1. step. step. step.
  erewrite bind_Ret.
  2:{ apply append_path_ok; wsimpl; [exact Hs1 | exact Hw1 | exact Hv | exact Hp | reflexivity]. }
  cbv beta. unfold report_path_update. cbn [returncode Z.eqb].
  step. f_equal. same_world.
Qed.

Lemma X15_clone_status_is_ignored_witness :
  ensure_flutter Bench.failing_clone (Some "C:\Program Files\Git\cmd\git.EXE")
    (Lab.world_of Bench.host_elevated []) =
    verify_flutter
      (evolve (Lab.world_of Bench.host_elevated [])
         (store Machine ("C:\Windows;C:\Program Files\Git\cmd" +:+ ";" +:+ "C:\src\flutter\bin")
            Bench.host_elevated)
         (persisted_path Bench.host_elevated) []
         [Log INFO "Checking for Flutter..."; refresh;
          Log INFO "Attempting to clone Flutter in C:\src...";
          Subprocess
            ["C:\Program Files\Git\cmd\git.EXE"; "clone";
             "https://github.com/flutter/flutter.git"; "-b"; "stable"; "C:\src"];
          Log INFO "Cloned Flutter to C:\src\flutter";
          Log INFO "Attempting to update PATH...";
          RegQuery Machine;
          Subprocess
            (pwsh_argv
               (SetPath ("C:\Windows;C:\Program Files\Git\cmd" +:+ ";" +:+ "C:\src\flutter\bin")
                  Machine));
          Log INFO "Updated PATH"]).
Proof.
  apply (X15_clone_status_is_ignored Bench.failing_clone
           (Lab.world_of Bench.host_elevated [])
           "C:\Program Files\Git\cmd\git.EXE" "C:\Windows;C:\Program Files\Git\cmd"
           128 Bench.host_elevated).
  - reflexivity.
  - vm_compute. reflexivity.
  - reflexivity.
  - reflexivity.
  - reflexivity.
  - reflexivity.
  - reflexivity.
Defined.

(** X16: a scope without a Path value is read as empty by the refresh,
    which goes on, but stops the append: the registry query raises before
    any command is sent to the shell, nothing is written, and the rest of
    the run is not reached. *)
Theorem X16_missing_path_value {A : Type} (k : M A) (sc : PathScope) (dir : string)
    (w : World) :
  persisted sc (host w) = None ->
  shell (host w) = ShellWorking ->
  (let* path_update := append_path sc dir in report_path_update path_update;; k) w =
    (Raise FileNotFoundError, evolve w (host w) (environ_PATH w) (stdin w) [RegQuery sc])
  /\ getenv sc (host w) = EmptyString
  /\ update_path w =
       (Ret tt, evolve w (host w) (persisted_path (host w)) (stdin w) [refresh]).
Proof.
  intros Hv Hs. split; [|split].
  - apply bind_Raise. unfold append_path. apply bind_Raise.
    unfold winreg_query_path. wsimpl. rewrite Hv. same_world.
  - unfold getenv. rewrite Hv. reflexivity.
  - rewrite (update_path_working _ Hs). same_world.
Qed.

Lemma X16_missing_path_value_witness :
  (let* path_update := append_path User "D:\tools" in
   report_path_update path_update;; verify_sdkmanager)
    (Lab.world_of Bench.host_no_user_path []) =
    (Raise FileNotFoundError,
     evolve (Lab.world_of Bench.host_no_user_path []) Bench.host_no_user_path
       EmptyString [] [RegQuery User])
  /\ getenv User Bench.host_no_user_path = EmptyString
  /\ update_path (Lab.world_of Bench.host_no_user_path []) =
       (Ret tt,
        evolve (Lab.world_of Bench.host_no_user_path []) Bench.host_no_user_path
          (persisted_path Bench.host_no_user_path) [] [refresh]).
Proof.
  apply (X16_missing_path_value verify_sdkmanager User "D:\tools"
           (Lab.world_of Bench.host_no_user_path [])).
  - reflexivity.
  - reflexivity.
Defined.

(** ** What the console shows *)

Lemma console_app (v : Verbosity.t) (tr1 tr2 : list event) :
  console v (tr1 ++ tr2) = console v tr1 ++ console v tr2.
Proof.
  induction tr1 as [|e tr1 IH]; [reflexivity|].
  destruct e; cbn [console app]; try exact IH.
  destruct (threshold v <=? level_number l); [cbn [app]; f_equal|]; exact IH.
Qed.

Lemma console_critical (tr : list event) : console Verbosity.CRITICAL tr = [].
Proof.
  induction tr as [|e tr IH]; [reflexivity|].
  destruct e; cbn [console]; try exact IH. destruct l; exact IH.
Qed.

Lemma console_error (v : Verbosity.t) (msg : string) :
  v <> Verbosity.CRITICAL ->
  console v [Log ERROR msg] =
    [CustomFormatter.red +:+ "ERROR: " +:+ msg +:+ CustomFormatter.reset].
Proof.
  intros Hv. destruct v; try contradiction; vm_compute; reflexivity.
Qed.

(** X17: what a failed run shows.  At every verbosity but CRITICAL the
    last line on the console is the fatal message, in red, after the word
    ERROR, and closed by the reset sequence.  At CRITICAL the console
    stays empty for every run, since the script logs nothing at that
    level: a run that fails ends with status 1 without a word. *)
Theorem X17_console_of_a_failed_run (X : Externals) (w w' : World) (c : Z) :
  main X w = (SysExit c, w') ->
  trace w = [] ->
  console Verbosity.CRITICAL (trace w') = []
  /\ forall v : Verbosity.t,
       v <> Verbosity.CRITICAL ->
       exists msg : string,
         fatal_message msg /\
         last (console v (trace w')) =
           Some (CustomFormatter.red +:+ "ERROR: " +:+ msg +:+ CustomFormatter.reset).
Proof.
  intros H Ht. split; [apply console_critical|]. intros v Hv.
  destruct (errs_main X w) as (evs & Hevs & Hr).
  unfold after in Hevs. rewrite H in Hevs, Hr. cbn [fst snd] in Hevs, Hr.
  destruct Hr as (_ & evs0 & msg & -> & _ & Hmsg).
  exists msg. split; [exact Hmsg|].
  rewrite Hevs, Ht, app_nil_l, console_app, (console_error v msg Hv).
  apply last_snoc.
Qed.

Lemma X17_console_of_a_failed_run_witness :
  console Verbosity.CRITICAL (trace (after (main Lab.lab) Lab.keep_start)) = []
  /\ forall v : Verbosity.t,
       v <> Verbosity.CRITICAL ->
       exists msg : string,
         fatal_message msg /\
         last (console v (trace (after (main Lab.lab) Lab.keep_start))) =
           Some (CustomFormatter.red +:+ "ERROR: " +:+ msg +:+ CustomFormatter.reset).
Proof.
  apply (X17_console_of_a_failed_run Lab.lab Lab.keep_start _ 1).
  - vm_compute. reflexivity.
  - reflexivity.
Defined.

(** ** The path of sdkmanager *)

Lemma lower_app (a b : string) : lower (a +:+ b) = lower a +:+ lower b.
Proof.
  induction a as [|c a IH]; [reflexivity|].
  rewrite app_cons. cbn [lower]. rewrite IH. reflexivity.
Qed.

Lemma path_join_prefix (dir : string) :
  exists pre : string, forall file : string, path_join dir file = pre +:+ file.
Proof. exists (join_prefix dir). reflexivity. Qed.

(** Two file names that differ in case only are the same file. *)
Lemma access_check_case (fs : gmap string node) (dir f1 f2 : string) :
  lower f1 = lower f2 ->
  access_check fs (path_join dir f1) = access_check fs (path_join dir f2).
Proof.
  intros H. destruct (path_join_prefix dir) as [pre Hpre].
  unfold access_check, lookup_node. rewrite !Hpre, !lower_app, H. reflexivity.
Qed.

Lemma find_in_dir_In (fs : gmap string node) (dir f : string) (names : list string) :
  In f names -> access_check fs (path_join dir f) = true ->
  find_in_dir fs dir names <> None.
Proof.
  induction names as [|g names IH]; intros Hin Hf; [destruct Hin|].
  cbn [find_in_dir]. destruct (access_check fs (path_join dir g)) eqn:E; [discriminate|].
  destruct Hin as [-> | Hin]; [congruence | exact (IH Hin Hf)].
Qed.

Lemma scan_one_Some (fs : gmap string node) (f p : string) (dirs : list string) :
  scan fs [f] dirs = Some p ->
  exists d, In d dirs /\ access_check fs (path_join d f) = true.
Proof.
  induction dirs as [|d dirs IH]; [discriminate|].
  cbn [scan find_in_dir]. destruct (access_check fs (path_join d f)) eqn:E.
  - intros _. exists d. split; [left; reflexivity | exact E].
  - intros H. destruct (IH H) as (d' & Hin & Hd'). exists d'. split; [right|]; assumption.
Qed.

Lemma scan_In (fs : gmap string node) (names dirs : list string) (d : string) :
  In d dirs -> find_in_dir fs d names <> None -> scan fs names dirs <> None.
Proof.
  induction dirs as [|d' dirs IH]; intros Hin Hd; [destruct Hin|].
  cbn [scan]. destruct (find_in_dir fs d' names) eqn:E; [discriminate|].
  destruct Hin as [-> | Hin]; [contradiction | exact (IH Hin Hd)].
Qed.

(** With a PATHEXT that lists .bat in some case and no extension the bare
    name already ends in, a hit for sdkmanager.bat gives a hit for
    sdkmanager. *)
Lemma which_bat_then_bare (fs : gmap string node) (pathext : list string)
    (path p ext : string) :
  In ext pathext -> lower ext = ".bat" ->
  existsb (fun e => endswith (lower "sdkmanager") (lower e)) pathext = false ->
  which fs pathext "sdkmanager.bat" path = Some p ->
  which fs pathext "sdkmanager" path <> None.
Proof.
  intros Hin Hext Hbare. unfold which.
  destruct (String.eqb path EmptyString); [discriminate|].
  set (dirs := if existsb (String.eqb curdir) (split ";" path)
               then split ";" path else curdir :: split ";" path).
  assert (Hc1 : candidates pathext "sdkmanager.bat" = ["sdkmanager.bat"]).
  { unfold candidates.
    assert (E : existsb (fun e => endswith (lower "sdkmanager.bat") (lower e)) pathext = true).
    { apply existsb_exists. exists ext. split; [exact Hin|]. rewrite Hext. reflexivity. }
    rewrite E. reflexivity. }
  assert (Hc2 : candidates pathext "sdkmanager" = map (fun e => "sdkmanager" +:+ e) pathext).
  { unfold candidates. rewrite Hbare. reflexivity. }
  rewrite Hc1, Hc2. intros Hscan.
  destruct (scan_one_Some _ _ _ _ Hscan) as (d & Hd & Hacc).
  apply (scan_In _ _ _ d Hd).
  apply (find_in_dir_In _ _ ("sdkmanager" +:+ ext)).
  - apply in_map_iff. exists ext. split; [reflexivity | exact Hin].
  - rewrite (access_check_case fs d ("sdkmanager" +:+ ext) "sdkmanager.bat");
      [exact Hacc|].
    rewrite lower_app, Hext. reflexivity.
Qed.

(** X18: the check of the Android tools looks for sdkmanager.bat, but the
    path it then stores is looked up under the bare name sdkmanager.  When
    the check succeeds, sdkmanager.bat resolves on the refreshed path and
    the stored value is whatever the second lookup gives; with a PATHEXT
    that lists .bat (in any case) and none of whose extensions ends the
    bare name, that value is a path. *)
Theorem X18_sdkmanager_path (w w' : World) (sdkmanager_path : option string) :
  verify_sdkmanager w = (Ret sdkmanager_path, w') ->
  (exists p, resolves "sdkmanager.bat" p w')
  /\ sdkmanager_path =
       which (files (host w')) (pathext w') "sdkmanager" (environ_PATH w')
  /\ pathext w' = pathext w
  /\ forall ext : string,
       In ext (pathext w) -> lower ext = ".bat" ->
       existsb (fun e => endswith (lower "sdkmanager") (lower e)) (pathext w) = false ->
       exists q, sdkmanager_path = Some q.
Proof.
  intros H. unfold verify_sdkmanager in H. unfold bind at 1 in H.
  destruct (update_path w) as [[u|c|e] w1] eqn:Hu; try discriminate.
  unfold bind, shutil_which, logger, emit, ret, sys_exit in H.
  destruct (which (files (host w1)) (pathext w1) "sdkmanager.bat" (environ_PATH w1))
    as [p|] eqn:Hw; cbn [is_Some_bool] in H; [|discriminate].
  injection H as <- <-.
  destruct (update_path_Ret _ _ _ Hu) as [[Hs E] | [Hs E]]; subst w1; wsimpl_in Hw.
  2:{ rewrite which_empty_path in Hw. discriminate. }
  wsimpl. split; [exists p; unfold resolves; wsimpl; auto|].
  split; [reflexivity|]. split; [reflexivity|].
  intros ext Hin Hext Hbare.
  pose proof (which_bat_then_bare _ _ _ _ _ Hin Hext Hbare Hw) as Hq.
  destruct (which (files (host w)) (pathext w) "sdkmanager" (persisted_path (host w)))
    as [q|]; [exists q; reflexivity | contradiction].
Qed.

Lemma X18_sdkmanager_path_witness :
  (exists p, resolves "sdkmanager.bat" p
               (after verify_sdkmanager (Lab.world_of Lab.host_full [])))
  /\ Some "C:\Android\bin\sdkmanager.BAT" =
       which (files (host (after verify_sdkmanager (Lab.world_of Lab.host_full []))))
         (pathext (after verify_sdkmanager (Lab.world_of Lab.host_full [])))
         "sdkmanager"
         (environ_PATH (after verify_sdkmanager (Lab.world_of Lab.host_full [])))
  /\ pathext (after verify_sdkmanager (Lab.world_of Lab.host_full [])) =
       Lab.pathext_default
  /\ exists q, Some "C:\Android\bin\sdkmanager.BAT" = Some q.
Proof.
  destruct (X18_sdkmanager_path (Lab.world_of Lab.host_full [])
              (after verify_sdkmanager (Lab.world_of Lab.host_full []))
              (Some "C:\Android\bin\sdkmanager.BAT"))
    as (Hres & Hval & Hext & Hsome).
  - vm_compute. reflexivity.
  - split; [exact Hres|]. split; [exact Hval|]. split; [exact Hext|].
    apply (Hsome ".BAT").
    + cbn. tauto.
    + reflexivity.
    + reflexivity.
Defined.

(** ** Nothing is removed unasked *)

Lemma emits_at_bind (P : event -> Prop) {A B} (m : M A) (k : A -> M B) (w : World) :
  emits_at P m w ->
  (forall a w1, m w = (Ret a, w1) -> emits_at P (k a) w1) ->
  emits_at P (bind m k) w.
Proof.
  intros (evs1 & Ht1 & H1) Hk. unfold emits_at, after, bind in *.
  destruct (m w) as [[a|c|e] w1] eqn:E; cbn [snd] in *.
  - destruct (Hk a w1 eq_refl) as (evs2 & Ht2 & H2).
    exists (evs1 ++ evs2). split; [rewrite Ht2, Ht1, app_assoc; reflexivity|].
    apply Forall_app. split; assumption.
  - exists evs1. split; assumption.
  - exists evs1. split; assumption.
Qed.

Lemma emits_bind (P : event -> Prop) {A B} (m : M A) (k : A -> M B) :
  emits P m -> (forall a, emits P (k a)) -> emits P (bind m k).
Proof. intros Hm Hk w. apply emits_at_bind; [apply Hm | intros a w1 _; apply Hk]. Qed.

(** A step that records nothing, or one event that satisfies [P]. *)
Ltac emits_step :=
  let w := fresh "w" in
  intros w; unfold emits_at, after; cbv beta;
  repeat match goal with
         | |- context [match ?x with _ => _ end] => destruct x
         end;
  cbn [fst snd trace record with_host with_PATH with_stdin];
  first
    [ exists []; split; [symmetry; apply app_nil_r | constructor]
    | eexists; split; [reflexivity | repeat constructor; assumption] ].

Lemma emits_ret (P : event -> Prop) {A} (a : A) : emits P (ret a).
Proof. unfold ret. emits_step. Qed.

Lemma emits_raise (P : event -> Prop) {A} (e : exn) : emits P (@raise A e).
Proof. unfold raise. emits_step. Qed.

Lemma emits_sys_exit (P : event -> Prop) {A} (c : Z) : emits P (@sys_exit A c).
Proof. unfold sys_exit. emits_step. Qed.

Lemma emits_shutil_which (P : event -> Prop) (cmd : string) : emits P (shutil_which cmd).
Proof. unfold shutil_which. emits_step. Qed.

Lemma emits_expand_sdk_dir (P : event -> Prop) : emits P expand_sdk_dir.
Proof. unfold expand_sdk_dir. emits_step. Qed.

Lemma emits_path_exists (P : event -> Prop) (p : string) : emits P (path_exists p).
Proof. unfold path_exists. emits_step. Qed.

Lemma emits_logger (P : event -> Prop) (l : level) (msg : string) :
  P (Log l msg) -> emits P (logger l msg).
Proof. intros HP. unfold logger, emit. emits_step. Qed.

Lemma emits_run_pwsh (P : event -> Prop) (c : pwsh_command) :
  P (Subprocess (pwsh_argv c)) -> emits P (run_pwsh c).
Proof. intros HP. unfold run_pwsh. cbn [host record]. emits_step. Qed.

Lemma emits_input (P : event -> Prop) (prompt : string) :
  P (Input prompt) -> emits P (input prompt).
Proof. intros HP. unfold input. cbn [stdin record]. emits_step. Qed.

Lemma emits_winreg_query_path (P : event -> Prop) (sc : PathScope) :
  P (RegQuery sc) -> emits P (winreg_query_path sc).
Proof. intros HP. unfold winreg_query_path. cbn [host record]. emits_step. Qed.

Lemma emits_mkdir_p (P : event -> Prop) (p : string) :
  P (Mkdir p) -> emits P (mkdir_p p).
Proof. intros HP. unfold mkdir_p. cbn [host record]. emits_step. Qed.

Lemma emits_rmtree (P : event -> Prop) (p : string) :
  P (Rmtree p) -> emits P (rmtree p).
Proof. intros HP. unfold rmtree. cbn [host record]. emits_step. Qed.

Lemma emits_rename (P : event -> Prop) (src dst : string) :
  P (Rename src dst) -> emits P (rename src dst).
Proof. intros HP. unfold rename. cbn [host record]. emits_step. Qed.

Lemma emits_subprocess_run (P : event -> Prop) (X : Externals) (argv : list string) :
  P (Subprocess argv) -> emits P (subprocess_run X argv).
Proof. intros HP. unfold subprocess_run. cbn [host environ_PATH record]. emits_step. Qed.

Lemma emits_requests_get (P : event -> Prop) (X : Externals) (url : string) :
  P (HttpGet url) -> emits P (requests_get X url).
Proof. intros HP. unfold requests_get. emits_step. Qed.

Lemma emits_urlretrieve (P : event -> Prop) (X : Externals) (url filename : string) :
  P (UrlRetrieve url filename) -> emits P (urlretrieve X url filename).
Proof. intros HP. unfold urlretrieve. emits_step. Qed.

Lemma emits_extractall (P : event -> Prop) (X : Externals) (archive target : string) :
  P (ExtractAll archive target) -> emits P (extractall X archive target).
Proof. intros HP. unfold extractall. cbn [host record]. emits_step. Qed.

Lemma emits_update_path (P : event -> Prop) :
  P refresh -> emits P update_path.
Proof.
  intros HP. unfold update_path. apply emits_bind; [apply emits_run_pwsh; exact HP|].
  intros cp. emits_step.
Qed.

Create HintDb emitting.
#[local] Hint Resolve emits_ret emits_raise emits_sys_exit emits_shutil_which
  emits_expand_sdk_dir emits_path_exists emits_logger emits_run_pwsh emits_input
  emits_winreg_query_path emits_mkdir_p emits_rmtree emits_rename emits_subprocess_run
  emits_requests_get emits_urlretrieve emits_extractall emits_update_path : emitting.
#[local] Hint Extern 1 (gentle _) => reflexivity : emitting.
#[local] Hint Extern 1 (allowed _) =>
  cbn [allowed]; first [exact I | tauto | solve [eauto 6]] : emitting.

Ltac emitting :=
  repeat first
    [ solve [auto with emitting]
    | apply emits_bind; [| intros ?]
    | match goal with
      | |- emits _ (if ?b then _ else _) => destruct b
      | |- emits _ (match ?o with Some _ => _ | None => _ end) => destruct o eqn:?
      end ].

Lemma gentle_ensure_git (X : Externals) : emits gentle (ensure_git X).
Proof. unfold ensure_git, and_which. emitting. Qed.

Lemma gentle_ensure_flutter (X : Externals) (git_path : option string) :
  emits gentle (ensure_flutter X git_path).
Proof. unfold ensure_flutter, verify_flutter, append_path, report_path_update. emitting. Qed.

Lemma gentle_verify_sdkmanager : emits gentle verify_sdkmanager.
Proof. unfold verify_sdkmanager. emitting. Qed.

Lemma keeps_stdin_expand_sdk_dir : keeps_stdin expand_sdk_dir.
Proof. unfold expand_sdk_dir. same_stdin. Qed.

Lemma keeps_stdin_mkdir_p (p : string) : keeps_stdin (mkdir_p p).
Proof. unfold mkdir_p. cbn [host record]. same_stdin. Qed.

Lemma keeps_stdin_path_exists (p : string) : keeps_stdin (path_exists p).
Proof. unfold path_exists. same_stdin. Qed.

(** A calm step that reads nothing, before a rest that is calm unless the
    lines still to be read satisfy [R]. *)
Lemma calm_or_bind {A B} (R : list string -> Prop) (m : M A) (k : A -> M B) (w : World) :
  emits gentle m -> keeps_stdin m ->
  (forall a w1, emits_at gentle (k a) w1 \/ R (stdin w1)) ->
  emits_at gentle (bind m k) w \/ R (stdin w).
Proof.
  intros Hm Hs Hk. specialize (Hs w). unfold after in Hs.
  destruct (m w) as [[a|c|e] w1] eqn:E; cbn [snd] in Hs.
  - destruct (Hk a w1) as [Hc | Hy].
    + left. apply (emits_at_bind gentle); [apply Hm|]. intros a' w1' E'.
      rewrite E in E'. injection E' as <- <-. exact Hc.
    + right. rewrite <- Hs. exact Hy.
  - left. apply (emits_at_bind gentle); [apply Hm|]. intros a' w1' E'. rewrite E in E'. discriminate.
  - left. apply (emits_at_bind gentle); [apply Hm|]. intros a' w1' E'. rewrite E in E'. discriminate.
Qed.

Lemma calm_or_then {A B} (R : list string -> Prop) (m : M A) (k : A -> M B) (w : World) :
  emits_at gentle m w \/ R (stdin w) ->
  (forall a, emits gentle (k a)) ->
  emits_at gentle (bind m k) w \/ R (stdin w).
Proof.
  intros [Hc | Hy] Hk; [left | right; exact Hy].
  apply (emits_at_bind gentle); [exact Hc|]. intros a w1 _. apply Hk.
Qed.

Lemma extract_calm_or_yes (X : Externals) (archive sdk_dir : string) (w : World) :
  emits_at gentle (extract_cmdline_tools X archive sdk_dir) w \/ said_yes (stdin w).
Proof.
  unfold extract_cmdline_tools.
  apply (calm_or_bind said_yes); [auto with emitting | apply keeps_stdin_path_exists|].
  intros present w1. destruct present; [|left; apply (emits_ret gentle)].
  apply (calm_or_bind said_yes); [auto with emitting | apply keeps_stdin_logger|].
  intros _ w2. destruct (stdin w2) as [|b rest] eqn:Hin.
  - left. apply (emits_at_bind gentle); [apply (emits_input gentle); reflexivity|]. intros a w3 E.
    unfold input in E. cbn [stdin record] in E. rewrite Hin in E. discriminate.
  - destruct (String.eqb_spec (lower b) "y") as [Hy | Hn].
    + right. exists b, rest. split; [reflexivity | exact Hy].
    + left. apply (emits_at_bind gentle); [apply (emits_input gentle); reflexivity|]. intros a w3 E.
      unfold input in E. cbn [stdin record] in E. rewrite Hin in E.
      injection E as <- <-.
      destruct (String.eqb_spec (lower b) "y") as [Hy | _]; [contradiction|].
      apply (emits_logger gentle); reflexivity.
Qed.

Lemma provision_calm_or_yes (X : Externals) (g : string) (w : World) :
  emits_at gentle (provision_cmdline_tools X g) w \/ said_yes (stdin w).
Proof.
  unfold provision_cmdline_tools.
  apply (calm_or_bind said_yes); [auto with emitting | apply keeps_stdin_urlretrieve|]. intros _ w1.
  apply (calm_or_bind said_yes); [auto with emitting | apply keeps_stdin_expand_sdk_dir|].
  intros sdk_dir w2.
  apply (calm_or_bind said_yes); [auto with emitting | apply keeps_stdin_logger|]. intros _ w3.
  apply (calm_or_bind said_yes); [auto with emitting | apply keeps_stdin_logger|]. intros _ w4.
  apply (calm_or_bind said_yes); [auto with emitting | apply keeps_stdin_mkdir_p|]. intros _ w5.
  apply (calm_or_bind said_yes); [auto with emitting | apply keeps_stdin_logger|]. intros _ w6.
  apply (calm_or_then said_yes); [apply extract_calm_or_yes|]. intros _.
  unfold append_path, report_path_update. emitting.
Qed.

Lemma android_calm_or_two_yes (X : Externals) (w : World) :
  emits_at gentle (install_android_tools X) w \/ said_yes_twice (stdin w).
Proof.
  unfold install_android_tools. destruct (stdin w) as [|a lines] eqn:Hin.
  - left. apply (emits_at_bind gentle); [apply (emits_input gentle); reflexivity|]. intros a w1 E.
    unfold input in E. cbn [stdin record] in E. rewrite Hin in E. discriminate.
  - assert (Hrun : input android_prompt w =
                   (Ret a, with_stdin lines (record (Input android_prompt) w))).
    { apply input_eq. exact Hin. }
    destruct (String.eqb_spec (lower a) "y") as [Hy | Hn].
    + assert (Hrest : forall w1, stdin w1 = lines ->
        emits_at gentle (logger INFO "Attempting to install Android toolchain..";;
                 logger INFO "Downloading Android command line tools...";;
                 let* studio_page := requests_get X studio_url in
                 match re_search commandlinetools_pattern studio_page with
                 | Some g => provision_cmdline_tools X g;; verify_sdkmanager
                 | None => ret (Some "sdkmanager")
                 end) w1 \/ said_yes lines).
      { intros w1 <-.
        apply (calm_or_bind said_yes); [auto with emitting | apply keeps_stdin_logger|]. intros _ w2.
        apply (calm_or_bind said_yes); [auto with emitting | apply keeps_stdin_logger|]. intros _ w3.
        apply (calm_or_bind said_yes); [auto with emitting | apply keeps_stdin_requests_get|].
        intros text w4. destruct (re_search commandlinetools_pattern text) as [g|].
        - apply (calm_or_then said_yes); [apply provision_calm_or_yes|].
          intros _. apply gentle_verify_sdkmanager.
        - left. apply (emits_ret gentle). }
      destruct (Hrest (with_stdin lines (record (Input android_prompt) w)) eq_refl)
        as [Hc | Hyes].
      * left. apply (emits_at_bind gentle); [apply (emits_input gentle); reflexivity|]. intros a' w1 E.
        rewrite Hrun in E. injection E as <- <-.
        destruct (String.eqb_spec (lower a) "y") as [_ | Hn]; [exact Hc | contradiction].
      * right. exists a, lines. auto.
    + left. apply (emits_at_bind gentle); [apply (emits_input gentle); reflexivity|]. intros a' w1 E.
      rewrite Hrun in E. injection E as <- <-.
      destruct (String.eqb_spec (lower a) "y") as [Hy | _]; [contradiction|].
      emitting.
Qed.

(** X19: nothing is removed, extracted or renamed unless the user typed y
    (or Y) twice: to the question about the Android tools and then to the
    question about overwriting.  In every other run, whatever the machine,
    the programs and the network do, the trace holds no removal, no
    extraction and no rename. *)
Theorem X19_unpacking_needs_two_yes (X : Externals) (w : World) (evs : list event) :
  trace (after (main X) w) = trace w ++ evs ->
  Exists (fun e => unpacking_event e = true) evs ->
  exists (a b : string) (rest : list string),
    stdin w = a :: b :: rest /\ (a = "y" \/ a = "Y") /\ (b = "y" \/ b = "Y").
Proof.
  intros Hevs Hex.
  assert (H : emits_at gentle (main X) w \/ said_yes_twice (stdin w)).
  { unfold main.
    apply (calm_or_bind said_yes_twice);
      [apply gentle_ensure_git | apply keeps_stdin_ensure_git|]. intros gp w1.
    apply (calm_or_bind said_yes_twice);
      [apply gentle_ensure_flutter | apply keeps_stdin_ensure_flutter|]. intros fp w2.
    apply (calm_or_then said_yes_twice); [apply android_calm_or_two_yes|].
    intros sp. emitting. }
  destruct H as [(evs' & Hevs' & Hcalm) | (a & lines & Hin & Ha & b & rest & -> & Hb)].
  - exfalso. rewrite Hevs in Hevs'. apply app_inv_head in Hevs'. subst evs'.
    apply Exists_exists in Hex as (e & He & Hun).
    rewrite Forall_forall in Hcalm. specialize (Hcalm e He). congruence.
  - exists a, b, rest. split; [exact Hin|].
    split; apply lower_is_y; assumption.
Qed.

Lemma X19_unpacking_needs_two_yes_witness :
  exists (a b : string) (rest : list string),
    ["y"; "Y"; EmptyString] = a :: b :: rest /\ (a = "y" \/ a = "Y") /\ (b = "y" \/ b = "Y").
Proof.
  apply (X19_unpacking_needs_two_yes Lab.lab
           (Lab.world_of Lab.host_old_tools ["y"; "Y"; EmptyString])
           (trace (after (main Lab.lab)
                     (Lab.world_of Lab.host_old_tools ["y"; "Y"; EmptyString])))).
  - reflexivity.
  - apply Exists_exists.
    exists (Rmtree "C:\Users\dev\AppData\Local\Android\Sdk\cmdline-tools").
    split; [|reflexivity]. vm_compute.
    repeat first [left; reflexivity | right].
Defined.

(** ** What the script fetches and starts *)

Lemma allowed_refresh : allowed refresh.
Proof. right. left. exists EchoPath. reflexivity. Qed.

Lemma allowed_pwsh (c : pwsh_command) : allowed (Subprocess (pwsh_argv c)).
Proof. right. left. exists c. reflexivity. Qed.

Lemma allowed_git_download (text g file : string) :
  re_search git_installer_pattern text = Some g ->
  allowed (UrlRetrieve (git_installer_url g) file).
Proof.
  intros H. destruct (re_search_sound _ _ _ H) as (a & b & _ & x & mid & y & -> & Hx & Hmid & Hy).
  apply atoms_denote_literal in Hx. apply atoms_denote_literal in Hy. subst x y.
  left. exists mid. split; [exact Hmid | reflexivity].
Qed.

Lemma allowed_git_installer (text g : string) :
  re_search git_installer_pattern text = Some g ->
  allowed (Subprocess [basename (git_installer_url g)]).
Proof.
  intros H. destruct (re_search_sound _ _ _ H) as (a & b & _ & x & mid & y & -> & Hx & Hmid & Hy).
  apply atoms_denote_literal in Hx. apply atoms_denote_literal in Hy. subst x y.
  right. right. right.
  exists (last_field "/" ("https://github.com/git-for-windows/git/releases/download/" +:+ mid)).
  f_equal. unfold basename, git_installer_url.
  change ("https://github.com" +:+ "/git-for-windows/git/releases/download/" +:+ mid +:+ "64-bit.exe")
    with (("https://github.com/git-for-windows/git/releases/download/" +:+ mid) +:+ "64-bit.exe").
  apply last_field_app. cbn. repeat constructor.
Qed.

Lemma allowed_tools_download (text g file : string) :
  re_search commandlinetools_pattern text = Some g ->
  allowed (UrlRetrieve (commandlinetools_url g) file).
Proof.
  intros H. destruct (re_search_sound _ _ _ H) as (a & b & _ & x & mid & y & -> & Hx & Hmid & Hy).
  apply atoms_denote_literal in Hx. subst x.
  change (pat_suf commandlinetools_pattern)
    with (literal "_latest" ++ [Dot] ++ literal "zip") in Hy.
  apply atoms_denote_app in Hy as (y1 & y23 & -> & H1 & H23).
  apply atoms_denote_app in H23 as (y2 & y3 & -> & H2 & H3).
  apply atoms_denote_literal in H1. apply atoms_denote_literal in H3. subst y1 y3.
  apply atoms_denote_dot in H2 as (c & -> & Hc).
  right. exists mid, c. split; [exact Hmid | reflexivity].
Qed.

#[local] Hint Resolve allowed_refresh allowed_pwsh : emitting.
#[local] Hint Extern 1 (allowed (UrlRetrieve (git_installer_url _) _)) =>
  eapply allowed_git_download; eassumption : emitting.
#[local] Hint Extern 1 (allowed (Subprocess [basename (git_installer_url _)])) =>
  eapply allowed_git_installer; eassumption : emitting.
#[local] Hint Extern 1 (allowed (UrlRetrieve (commandlinetools_url _) _)) =>
  eapply allowed_tools_download; eassumption : emitting.

Lemma allowed_ensure_git (X : Externals) : emits allowed (ensure_git X).
Proof. unfold ensure_git, and_which. emitting. Qed.

Lemma allowed_ensure_flutter (X : Externals) (git_path : option string) :
  emits allowed (ensure_flutter X git_path).
Proof. unfold ensure_flutter, verify_flutter, append_path, report_path_update. emitting. Qed.

Lemma allowed_install_android_tools (X : Externals) :
  emits allowed (install_android_tools X).
Proof.
  unfold install_android_tools, provision_cmdline_tools, extract_cmdline_tools,
    verify_sdkmanager, append_path, report_path_update.
  emitting.
Qed.

(** X20: Whatever the pages, the programs, the machine and the answers are,
    a run fetches only the Git for Windows release page and the Android
    Studio page; downloads only from the Git for Windows release path of
    github.com (a name ending in 64-bit.exe) and from the repository of
    dl.google.com (a command line tools archive); and starts only winget
    with its fixed arguments, the shell with the echo of the persisted Path
    or a write of a Path value, a clone of Flutter's stable branch into
    C:\src, and a downloaded file whose name ends in 64-bit.exe. *)
Theorem X20_only_known_addresses_and_programs (X : Externals) (w : World) :
  exists evs : list event,
    trace (after (main X) w) = trace w ++ evs /\ Forall allowed evs.
Proof.
  assert (H : emits allowed (main X)).
  { unfold main.
    apply emits_bind; [apply allowed_ensure_git | intros gp].
    apply emits_bind; [apply allowed_ensure_flutter | intros fp].
    apply emits_bind; [apply allowed_install_android_tools | intros sp].
    emitting. }
  apply H.
Qed.
